(** * Device diagnostic tool: the parsing and decoding layer of
      [diag_tool_logic.py], embedded in Rocq.

    Python values are modelled as follows.  A [str] is a [string] whose
    characters are the code points below 256; an [int] is a [Z]; a [dict]
    with string keys is a [gmap string _]; a list of dicts with a fixed set of
    keys is a list of records.  The built-ins the program calls
    ([str.replace], [str.splitlines], [str.strip], [int(_, 16)], the [re]
    module on the patterns of the program) are written out in [Module Py]
    and [Module Re]. *)

From Stdlib Require Import ZArith Ascii String List Lia Bool SpecFloat.
From stdpp Require Import gmap strings pretty list.

Local Open Scope Z_scope.

(** ** Python built-ins on strings and integers *)

Module Py.

Definition code (c : ascii) : N := N_of_ascii c.

Definition in_range (lo hi : N) (c : ascii) : bool :=
  ((lo <=? code c) && (code c <=? hi))%N.

(** [str.isspace] on one character: the Unicode white space below 256. *)
Definition isspace (c : ascii) : bool :=
  in_range 9 13 c || in_range 28 32 c || (code c =? 133)%N || (code c =? 160)%N.

(** The white space [int(s, base)] skips: C's [isspace] on ASCII, and the
    Unicode white space above 127, which the conversion first folds to a
    blank. *)
Definition int_isspace (c : ascii) : bool :=
  in_range 9 13 c || (code c =? 32)%N || (code c =? 133)%N || (code c =? 160)%N.

Definition isdigit (c : ascii) : bool := in_range 48 57 c.

Definition ishex (c : ascii) : bool :=
  in_range 48 57 c || in_range 97 102 c || in_range 65 70 c.

(** Value of a character as a digit, letters counting from ten in either
    case ([_PyLong_DigitValue]). *)
Definition digit_value (c : ascii) : option Z :=
  if in_range 48 57 c then Some (Z.of_N (code c) - 48)
  else if in_range 97 122 c then Some (Z.of_N (code c) - 87)
  else if in_range 65 90 c then Some (Z.of_N (code c) - 55)
  else None.

Fixpoint prefix (p s : string) : bool :=
  match p, s with
  | EmptyString, _ => true
  | String a p', String b s' => Ascii.eqb a b && prefix p' s'
  | String _ _, EmptyString => false
  end.

(** [old in s] for a non-empty [old]. *)
Fixpoint contains (old s : string) : bool :=
  prefix old s ||
  match s with
  | EmptyString => false
  | String _ s' => contains old s'
  end.

(** [s.replace(old, new)] for a non-empty [old]: occurrences are taken left to
    right and do not overlap; [skip] counts the characters of the occurrence
    being replaced that are still to be passed over. *)
Fixpoint replace_go (old new : string) (skip : nat) (s : string) : string :=
  match s with
  | EmptyString => EmptyString
  | String c s' =>
      match skip with
      | S k => replace_go old new k s'
      | O =>
          if prefix old s
          then new +:+ replace_go old new (String.length old - 1) s'
          else String c (replace_go old new O s')
      end
  end.

Definition replace (old new s : string) : string := replace_go old new O s.

(** [s.lstrip(chars)] for a one-character [chars]. *)
Fixpoint lstrip_char (c : ascii) (s : string) : string :=
  match s with
  | String a s' => if Ascii.eqb a c then lstrip_char c s' else s
  | EmptyString => EmptyString
  end.

Fixpoint lstrip (s : string) : string :=
  match s with
  | String a s' => if isspace a then lstrip s' else s
  | EmptyString => EmptyString
  end.

Fixpoint rstrip (s : string) : string :=
  match s with
  | EmptyString => EmptyString
  | String a s' =>
      match rstrip s' with
      | EmptyString => if isspace a then EmptyString else String a EmptyString
      | r => String a r
      end
  end.

(** [s.strip()] *)
Definition strip (s : string) : string := rstrip (lstrip s).

(** Line boundaries of [str.splitlines] below 256: LF, VT, FF, CR, FS, GS, RS
    and NEL; CR LF counts once. *)
Definition is_linebreak (c : ascii) : bool :=
  in_range 10 13 c || in_range 28 30 c || (code c =? 133)%N.

Fixpoint splitlines_go (s cur : string) (after_cr : bool) : list string :=
  match s with
  | EmptyString =>
      match cur with EmptyString => [] | _ => [cur] end
  | String c s' =>
      if (code c =? 10)%N && after_cr then splitlines_go s' EmptyString false
      else if is_linebreak c
           then cur :: splitlines_go s' EmptyString (code c =? 13)%N
           else splitlines_go s' (cur +:+ String c EmptyString) false
  end.

(** [s.splitlines()] *)
Definition splitlines (s : string) : list string :=
  splitlines_go s EmptyString false.

(** [sep.join(l)] *)
Fixpoint join (sep : string) (l : list string) : string :=
  match l with
  | [] => EmptyString
  | [x] => x
  | x :: l' => x +:+ sep +:+ join sep l'
  end.

(** [s.count(c)] for a one-character [c]. *)
Fixpoint count (c : ascii) (s : string) : nat :=
  match s with
  | EmptyString => O
  | String a s' => (if Ascii.eqb a c then 1 else 0) + count c s'
  end.

(** *** [int(s, 16)] *)

(** The run of digits and single underscores at the head of [s]: the value
    read so far, the number of digits, and what follows the run.  Two
    underscores in a row, or one at the end of the run, are refused. *)
Fixpoint scan_digits (base : Z) (s : string) (acc : Z) (ndig : nat)
    (prev_us : bool) : option (Z * nat * string) :=
  let finish := if prev_us then None else Some (acc, ndig, s) in
  match s with
  | EmptyString => finish
  | String c s' =>
      if Ascii.eqb c "_" then
        if prev_us then None else scan_digits base s' acc ndig true
      else
        match digit_value c with
        | Some d =>
            if d <? base
            then scan_digits base s' (acc * base + d) (S ndig) false
            else finish
        | None => finish
        end
  end.

Fixpoint skip_int_space (s : string) : string :=
  match s with
  | String a s' => if int_isspace a then skip_int_space s' else s
  | EmptyString => EmptyString
  end.

Definition skip_sign (s : string) : bool * string :=
  match s with
  | String c s' =>
      if Ascii.eqb c "+" then (false, s')
      else if Ascii.eqb c "-" then (true, s')
      else (false, s)
  | EmptyString => (false, s)
  end.

(** The base prefix of base 16, and the one underscore allowed after it. *)
Definition skip_prefix16 (s : string) : string :=
  match s with
  | String c0 (String c1 r) =>
      if Ascii.eqb c0 "0" && (Ascii.eqb c1 "x" || Ascii.eqb c1 "X") then
        match r with
        | String u r' => if Ascii.eqb u "_" then r' else r
        | EmptyString => r
        end
      else s
  | _ => s
  end.

(** The digits of [int(s, 16)], once the sign and the prefix are passed:
    no underscore first, one digit at least, and only white space after. *)
Definition read_int16 (neg : bool) (s2 : string) : option Z :=
  match s2 with
  | String c _ =>
      if Ascii.eqb c "_" then None
      else
        match scan_digits 16 s2 0 O false with
        | Some (v, ndig, rest) =>
            match ndig, skip_int_space rest with
            | S _, EmptyString => Some (if neg then - v else v)
            | _, _ => None
            end
        | None => None
        end
  | EmptyString => None
  end.

(** [int(s, 16)]; [None] stands for [ValueError]. *)
Definition int16 (s : string) : option Z :=
  let '(neg, s1) := skip_sign (skip_int_space s) in
  read_int16 neg (skip_prefix16 s1).

(** [str(i)] for a natural number. *)
Definition str (i : nat) : string := pretty i.

End Py.

(** ** Task 2: the bit settings of the flags register *)

(** One row of [all_bits_table]. *)
Record bit_row := { Bit : nat; Status : string; Description : string }.

Definition specific_bits_map : gmap nat string :=
  <[3%nat := "Enables HR"]>
  (<[24%nat := "Double button to turn off"]>
  (<[28%nat := "Enables ECH heartrate pickup"]>
  (<[30%nat := "Enables BLE HR monitoring"]> ∅))).

(** The body of the loop [for i in range(64)] of [get_bit_status], on the pair
    ([specific_bits_status], [all_bits_table]). *)
Definition bit_step (flags_int : Z)
    (st : gmap string string * list bit_row) (i : nat)
    : gmap string string * list bit_row :=
  let '(specific_bits_status, all_bits_table) := st in
  let is_set := Z.land (Z.shiftr flags_int (Z.of_nat i)) 1 in
  let status_str := if is_set =? 0 then "OFF" else "ON" in
  let description :=
    default ("Bit " +:+ Py.str i) (specific_bits_map !! i) in
  let all_bits_table :=
    all_bits_table ++
      [{| Bit := i; Status := status_str; Description := description |}] in
  let specific_bits_status :=
    if decide (is_Some (specific_bits_map !! i))
    then <[Py.str i := status_str]> specific_bits_status
    else specific_bits_status in
  (specific_bits_status, all_bits_table).

Definition get_bit_status (flags_hex : string)
    : gmap string string * list bit_row :=
  match Py.int16 (Py.replace "0x" "" flags_hex) with
  | None => (∅, [])
  | Some flags_int => fold_left (bit_step flags_int) (seq 0 64) (∅, [])
  end.

(** [get_current_hr_mode]: [bit_status.get(k)] is the lookup, [None] when the
    key is absent. *)
Definition get_current_hr_mode (bit_status : gmap string string) : string :=
  let bit_3 := bit_status !! "3" in
  let bit_28 := bit_status !! "28" in
  let bit_30 := bit_status !! "30" in
  if decide (bit_3 = Some "ON" ∧ bit_28 = Some "OFF" ∧ bit_30 = Some "OFF")
  then "Polar Strap"
  else if decide (bit_3 = Some "ON" ∧ bit_28 = Some "ON" ∧ bit_30 = Some "OFF")
  then "Integrated HR"
  else if decide (bit_3 = Some "ON" ∧ bit_28 = Some "OFF" ∧ bit_30 = Some "ON")
  then "Bluetooth HR"
  else "Unknown/Custom".

(** ** The [re] module, on the patterns of the program

    The patterns of the program are sequences of literals, character classes,
    repetitions of one class, named groups without alternation and the
    anchors; a pattern is the list of its items, a named group being its
    opening and closing marks around the items it holds.  Matching is the
    backtracking search of [re]: a greedy repetition tries the longest run
    first, a lazy one the shortest, and the first way through wins. *)

Module Re.

Record flags := { IGNORECASE : bool; MULTILINE : bool }.

Inductive item :=
| Lit (c : ascii)                           (* an ASCII literal *)
| Cls (p : ascii -> bool)                   (* one character of a class *)
| Rep (p : ascii -> bool) (greedy : bool)   (* [p*] and [p*?] *)
| Open (g : string)
| Close (g : string)
| Bol
| Eol.

Definition regex := list item.

(** [c+] and [c+?] *)
Definition plus (p : ascii -> bool) (greedy : bool) : regex :=
  [Cls p; Rep p greedy].

Fixpoint lits (s : string) : regex :=
  match s with
  | EmptyString => []
  | String c s' => Lit c :: lits s'
  end.

(** [(?P<g>...)] *)
Definition group (g : string) (body : regex) : regex :=
  Open g :: body ++ [Close g].

(** Character classes. *)
Definition dot (c : ascii) : bool := negb (Py.code c =? 10)%N.
Definition digit (c : ascii) : bool := Py.isdigit c.
Definition space (c : ascii) : bool := Py.isspace c.
Definition word (c : ascii) : bool :=
  Py.in_range 48 57 c || Py.in_range 65 90 c || Py.in_range 97 122 c
  || (Py.code c =? 95)%N
  || (Py.code c =? 170)%N || Py.in_range 178 179 c || (Py.code c =? 181)%N
  || Py.in_range 185 186 c || Py.in_range 188 190 c
  || Py.in_range 192 214 c || Py.in_range 216 246 c || Py.in_range 248 255 c.
Definition one_of (s : string) (c : ascii) : bool :=
  negb (Nat.eqb (Py.count c s) 0).
Definition union (p q : ascii -> bool) (c : ascii) : bool := p c || q c.

Definition lower (c : ascii) : ascii :=
  if Py.in_range 65 90 c then ascii_of_N (Py.code c + 32) else c.

Definition lit_eq (fl : flags) (c a : ascii) : bool :=
  if IGNORECASE fl then Ascii.eqb (lower c) (lower a) else Ascii.eqb c a.

(** The state of one attempt: the position reached, the character before it,
    the groups opened and the spans of those closed. *)
Record mstate := {
  pos : nat;
  prev : option ascii;
  opened : list (string * nat);
  closed : list (string * (nat * nat))
}.

Definition start_at (p : nat) (before : option ascii) : mstate :=
  {| pos := p; prev := before; opened := []; closed := [] |}.

Definition advance (a : ascii) (st : mstate) : mstate :=
  {| pos := S (pos st); prev := Some a;
     opened := opened st; closed := closed st |}.

Fixpoint assoc {A} (g : string) (l : list (string * A)) : option A :=
  match l with
  | [] => None
  | (k, v) :: l' => if String.eqb k g then Some v else assoc g l'
  end.

Definition open_group (g : string) (st : mstate) : mstate :=
  {| pos := pos st; prev := prev st;
     opened := (g, pos st) :: opened st; closed := closed st |}.

Definition close_group (g : string) (st : mstate) : mstate :=
  {| pos := pos st; prev := prev st; opened := opened st;
     closed := (g, (default (pos st) (assoc g (opened st)), pos st))
               :: closed st |}.

Definition at_bol (fl : flags) (st : mstate) : bool :=
  match prev st with
  | None => true
  | Some a => MULTILINE fl && (Py.code a =? 10)%N
  end.

Definition at_eol (fl : flags) (s : string) : bool :=
  match s with
  | EmptyString => true
  | String a EmptyString => (Py.code a =? 10)%N
  | String a _ => MULTILINE fl && (Py.code a =? 10)%N
  end.

(** One attempt of the pattern [r] at the head of [s]. *)
Fixpoint run (fl : flags) (r : regex) : string -> mstate -> option mstate :=
  match r with
  | [] => fun _ st => Some st
  | Lit c :: r' => fun s st =>
      match s with
      | String a s' => if lit_eq fl c a then run fl r' s' (advance a st) else None
      | EmptyString => None
      end
  | Cls p :: r' => fun s st =>
      match s with
      | String a s' => if p a then run fl r' s' (advance a st) else None
      | EmptyString => None
      end
  | Rep p true :: r' =>
      fix rep (s : string) (st : mstate) : option mstate :=
        match s with
        | String a s' =>
            if p a then
              match rep s' (advance a st) with
              | Some st' => Some st'
              | None => run fl r' s st
              end
            else run fl r' s st
        | EmptyString => run fl r' s st
        end
  | Rep p false :: r' =>
      fix rep (s : string) (st : mstate) : option mstate :=
        match run fl r' s st with
        | Some st' => Some st'
        | None =>
            match s with
            | String a s' => if p a then rep s' (advance a st) else None
            | EmptyString => None
            end
        end
  | Open g :: r' => fun s st => run fl r' s (open_group g st)
  | Close g :: r' => fun s st => run fl r' s (close_group g st)
  | Bol :: r' => fun s st => if at_bol fl st then run fl r' s st else None
  | Eol :: r' => fun s st => if at_eol fl s then run fl r' s st else None
  end.

(** A match object: the text searched, the span matched and the spans of the
    groups. *)
Record re_match := {
  m_string : string;
  m_start : nat;
  m_end : nat;
  m_spans : list (string * (nat * nat))
}.

Definition mk_match (text : string) (start : nat) (st : mstate) : re_match :=
  {| m_string := text; m_start := start; m_end := pos st;
     m_spans := closed st |}.

(** [m.group(g)] for a group that took part in the match. *)
Definition get (m : re_match) (g : string) : string :=
  match assoc g (m_spans m) with
  | Some (a, b) => String.substring a (b - a) (m_string m)
  | None => EmptyString
  end.

(** [pattern.match(text)]: one attempt, at the start of the text. *)
Definition match_ (fl : flags) (r : regex) (text : string) : option re_match :=
  option_map (mk_match text O) (run fl r text (start_at O None)).

Fixpoint search_go (fl : flags) (r : regex) (text s : string) (p : nat)
    (before : option ascii) : option re_match :=
  match run fl r s (start_at p before) with
  | Some st => Some (mk_match text p st)
  | None =>
      match s with
      | String a s' => search_go fl r text s' (S p) (Some a)
      | EmptyString => None
      end
  end.

(** [pattern.search(text)]: the attempt at the leftmost position that
    succeeds. *)
Definition search (fl : flags) (r : regex) (text : string) : option re_match :=
  search_go fl r text text O None.

(** [pattern.finditer(text)], for a pattern that matches no empty string: the
    search resumes where the last match ended; [skip] counts the characters
    of that match still to be passed over. *)
Fixpoint finditer_go (fl : flags) (r : regex) (text s : string) (p : nat)
    (before : option ascii) (skip : nat) : list re_match :=
  match skip with
  | S k =>
      match s with
      | String a s' => finditer_go fl r text s' (S p) (Some a) k
      | EmptyString => []
      end
  | O =>
      match run fl r s (start_at p before) with
      | Some st =>
          mk_match text p st ::
          match s with
          | String a s' =>
              finditer_go fl r text s' (S p) (Some a) (Nat.pred (pos st - p))
          | EmptyString => []
          end
      | None =>
          match s with
          | String a s' => finditer_go fl r text s' (S p) (Some a) O
          | EmptyString => []
          end
      end
  end.

Definition finditer (fl : flags) (r : regex) (text : string) : list re_match :=
  finditer_go fl r text text O None O.

End Re.

(** ** The patterns of the program *)

Definition ignorecase : Re.flags :=
  {| Re.IGNORECASE := true; Re.MULTILINE := false |}.

(** [ID:(?P<id>\d+),Family=(?P<type>.*?)/.*?,.*?Ver (?P<firmware>[\w\.\+a-fA-F0-9]+),.*?Flags=(?P<flags>0x[a-fA-F0-9]+)] *)
Definition SUMMARY_PATTERN : Re.regex :=
  Re.lits "ID:" ++ Re.group "id" (Re.plus Re.digit true) ++ Re.lits ","
  ++ Re.lits "Family=" ++ Re.group "type" [Re.Rep Re.dot false]
  ++ Re.lits "/" ++ [Re.Rep Re.dot false] ++ Re.lits ","
  ++ [Re.Rep Re.dot false]
  ++ Re.lits "Ver "
  ++ Re.group "firmware"
       (Re.plus (Re.union Re.word (Re.union (Re.one_of ".+") Py.ishex)) true)
  ++ Re.lits "," ++ [Re.Rep Re.dot false]
  ++ Re.lits "Flags="
  ++ Re.group "flags" (Re.lits "0x" ++ Re.plus Py.ishex true).

(** [ID:(?P<id>\d+),.*?txCode=(?P<tx>\d+),rxCode=(?P<rx>\d+)] *)
Definition GSP_PATTERN : Re.regex :=
  Re.lits "ID:" ++ Re.group "id" (Re.plus Re.digit true) ++ Re.lits ","
  ++ [Re.Rep Re.dot false]
  ++ Re.lits "txCode=" ++ Re.group "tx" (Re.plus Re.digit true)
  ++ Re.lits ",rxCode=" ++ Re.group "rx" (Re.plus Re.digit true).

(** [Id:(?P<id>\d+) Total Sessions:(?P<total>\d+)] *)
Definition SI_START_PATTERN : Re.regex :=
  Re.lits "Id:" ++ Re.group "id" (Re.plus Re.digit true)
  ++ Re.lits " Total Sessions:" ++ Re.group "total" (Re.plus Re.digit true).

(** [Session (?P<num>\d+): length=(?P<length>\d+),Duration=(?P<duration>\d+) secs,createTime (?P<time>.*?) UTC] *)
Definition SI_SESSION_PATTERN : Re.regex :=
  Re.lits "Session " ++ Re.group "num" (Re.plus Re.digit true)
  ++ Re.lits ": length=" ++ Re.group "length" (Re.plus Re.digit true)
  ++ Re.lits ",Duration=" ++ Re.group "duration" (Re.plus Re.digit true)
  ++ Re.lits " secs,createTime " ++ Re.group "time" [Re.Rep Re.dot false]
  ++ Re.lits " UTC".

(** [^[\+ru\.]+$], compiled without flags. *)
Definition ORIENTATION_PATTERN : Re.regex :=
  [Re.Bol] ++ Re.plus (Re.one_of "+ru.") true ++ [Re.Eol].

Definition no_flags : Re.flags :=
  {| Re.IGNORECASE := false; Re.MULTILINE := false |}.

(** [^\s*[a-fA-F0-9]+\s+(?P<time_s>[\d\.]+)\s+DATA:\s+Battery=(?P<voltage>[\d\.]+)V,\s+(?P<percent>\d+)%],
    compiled with [re.IGNORECASE | re.MULTILINE]. *)
Definition BATTERY_PATTERN : Re.regex :=
  [Re.Bol; Re.Rep Re.space true] ++ Re.plus Py.ishex true
  ++ Re.plus Re.space true
  ++ Re.group "time_s" (Re.plus (Re.union Re.digit (Re.one_of ".")) true)
  ++ Re.plus Re.space true ++ Re.lits "DATA:" ++ Re.plus Re.space true
  ++ Re.lits "Battery="
  ++ Re.group "voltage" (Re.plus (Re.union Re.digit (Re.one_of ".")) true)
  ++ Re.lits "V," ++ Re.plus Re.space true
  ++ Re.group "percent" (Re.plus Re.digit true) ++ Re.lits "%".

Definition ignorecase_multiline : Re.flags :=
  {| Re.IGNORECASE := true; Re.MULTILINE := true |}.

(** ** Python floats: binary64

    A [float] is a [spec_float] of precision 53 and maximal exponent 1024;
    the operations round to nearest, ties to even. *)

Module F64.

Definition prec : Z := 53.
Definition emax : Z := 1024.

Definition float := spec_float.

Definition sub : float -> float -> float := SFsub prec emax.
Definition add : float -> float -> float := SFadd prec emax.
Definition mul : float -> float -> float := SFmul prec emax.
Definition div : float -> float -> float := SFdiv prec emax.
Definition ltb : float -> float -> bool := SFltb.

(** The integer [n] as a ratio with denominator one, not yet rounded. *)
Definition exact (n : Z) : float :=
  match n with
  | Z0 => S754_zero false
  | Zpos p => S754_finite false p 0
  | Zneg p => S754_finite true p 0
  end.

(** [float(n)] for an integer. *)
Definition of_int (n : Z) : float := binary_normalize prec emax n 0 false.

(** [a / b] on integers: the quotient rounded once; [None] stands for
    [ZeroDivisionError]. *)
Definition int_truediv (a b : Z) : option float :=
  if b =? 0 then None else Some (div (exact a) (exact b)).

Definition signbit (x : float) : bool :=
  match x with
  | S754_zero s | S754_infinity s | S754_finite s _ _ => s
  | S754_nan => false
  end.

Definition is_zero (x : float) : bool :=
  match x with S754_zero _ => true | _ => false end.

Definition copysign_zero (x : float) : float := S754_zero (signbit x).

(** The value of a finite float as [n * 2^e]. *)
Definition to_scaled (x : float) : Z * Z :=
  match x with
  | S754_finite s m e => (if s then Z.neg m else Z.pos m, e)
  | _ => (0, 0)
  end.

(** C's [fmod]: the remainder has the sign of [x] and is exact. *)
Definition fmod (x y : float) : float :=
  match x, y with
  | S754_nan, _ | _, S754_nan => S754_nan
  | S754_infinity _, _ => S754_nan
  | _, S754_zero _ => S754_nan
  | S754_zero _, _ => x
  | _, S754_infinity _ => x
  | S754_finite sx mx ex, S754_finite _ my ey =>
      let e := Z.min ex ey in
      let X := Z.shiftl (Z.pos mx) (ex - e) in
      let Y := Z.shiftl (Z.pos my) (ey - e) in
      let R := Z.rem X Y in
      binary_normalize prec emax (if sx then - R else R) e sx
  end.

(** C's [floor]. *)
Definition floor (x : float) : float :=
  match x with
  | S754_finite s m e =>
      if 0 <=? e then x
      else
        let n := Z.shiftr (if s then Z.neg m else Z.pos m) (- e) in
        binary_normalize prec emax n 0 s
  | _ => x
  end.

(** One half. *)
Definition half : float := S754_finite false 4503599627370496 (-53).

(** [x // y] on floats, as [float_floor_div] computes it: the quotient of
    [x - fmod(x, y)] by [y], lowered by one when the remainder and the divisor
    differ in sign, then snapped to the nearest integral value.  [None]
    stands for [ZeroDivisionError]. *)
Definition floordiv (vx wx : float) : option float :=
  if is_zero wx then None
  else
    let mod_ := fmod vx wx in
    let div_ := div (sub vx mod_) wx in
    let div_ :=
      if negb (is_zero mod_)
         && negb (Bool.eqb (ltb wx (S754_zero false)) (ltb mod_ (S754_zero false)))
      then sub div_ (of_int 1)
      else div_ in
    Some
      (if is_zero div_ then copysign_zero (div vx wx)
       else
         let floordiv_ := floor div_ in
         if ltb half (sub div_ floordiv_)
         then add floordiv_ (of_int 1)
         else floordiv_).

(** [int(x)]: the float cut towards zero, or the [ValueError] of a NaN and
    the [OverflowError] of an infinity. *)
Inductive int_error := CannotConvertNaN | CannotConvertInfinity.

Definition to_int (x : float) : int_error + Z :=
  match x with
  | S754_nan => inl CannotConvertNaN
  | S754_infinity _ => inl CannotConvertInfinity
  | S754_zero _ => inr 0
  | S754_finite s m e =>
      let a := if 0 <=? e then Z.shiftl (Z.pos m) e else Z.shiftr (Z.pos m) (- e) in
      inr (if s then - a else a)
  end.

(** The text of a digit or dot string as a float: [float(s)] on the texts
    the groups of the battery pattern capture.  [None] stands for
    [ValueError]: no digit at all, a second dot, or another character. *)
Fixpoint read_decimal (s : string) (acc : Z) (ndig : nat) (frac : option nat)
    : option (Z * nat * nat) :=
  match s with
  | EmptyString =>
      match ndig with
      | O => None
      | S _ => Some (acc, ndig, default O frac)
      end
  | String c s' =>
      if Py.isdigit c then
        read_decimal s' (acc * 10 + (Z.of_N (Py.code c) - 48)) (S ndig)
          (option_map S frac)
      else if Ascii.eqb c "." then
        match frac with
        | None => read_decimal s' acc ndig (Some O)
        | Some _ => None
        end
      else None
  end.

Definition of_str (s : string) : option float :=
  match read_decimal s 0 O None with
  | Some (n, _, k) => Some (div (exact n) (exact (10 ^ Z.of_nat k)))
  | None => None
  end.

(** Decimal digits of a non-negative integer, and the same padded with zeros
    on the left to [w] characters. *)
Definition digits (n : Z) : string := pretty (Z.to_N n).

Fixpoint zeros (k : nat) : string :=
  match k with O => EmptyString | S k' => String "0" (zeros k') end.

Definition pad (w : nat) (s : string) : string :=
  zeros (w - String.length s) +:+ s.

(** [n / d] rounded to the nearest integer, ties to even, for [0 <= n] and
    [0 < d]. *)
Definition round_half_even (n d : Z) : Z :=
  let q := n / d in
  let r := n mod d in
  match 2 * r ?= d with
  | Lt => q
  | Gt => q + 1
  | Eq => if Z.even q then q else q + 1
  end.

(** [format(x, '.kf')]: [k] digits after the point, from the exact value. *)
Definition format_f (k : nat) (x : float) : string :=
  match x with
  | S754_nan => "nan"
  | S754_infinity s => if s then "-inf" else "inf"
  | _ =>
      let '(n, e) := to_scaled x in
      let scaled := Z.abs n * 10 ^ Z.of_nat k in
      let r := if 0 <=? e then Z.shiftl scaled e
               else round_half_even scaled (2 ^ (- e)) in
      let whole := digits (r / 10 ^ Z.of_nat k) in
      let part := pad k (digits (r mod 10 ^ Z.of_nat k)) in
      (if signbit x then "-" else "") +:+ whole
      +:+ match k with O => "" | S _ => "." +:+ part end
  end.

(** [format(n, '02')] on an integer: the sign, then the digits padded with
    zeros so that the whole is two characters at least. *)
Definition format_02 (n : Z) : string :=
  if n <? 0 then "-" +:+ pad 1 (digits (- n)) else pad 2 (digits n).

End F64.

(** ** Calls of the external tools

    [run_command] starts a process and hands back [(success, stdout, stderr)].
    A function of the program that calls it is a tree: it either returns, or
    asks for one call and goes on with the answer.  The tool answers each
    call from the calls made so far, and running a tree against a tool gives
    the value returned together with the calls made, in order. *)

Definition answer : Type := bool * string * string.

Inductive prog (A : Type) : Type :=
| Ret (a : A)
| Call (exe_path : string) (args : list string) (k : answer -> prog A).

Arguments Ret {A} a.
Arguments Call {A} exe_path args k.

Definition run_command (exe_path : string) (args : list string) : prog answer :=
  Call exe_path args Ret.

Fixpoint bind {A B} (p : prog A) (f : A -> prog B) : prog B :=
  match p with
  | Ret a => f a
  | Call exe_path args k => Call exe_path args (fun r => bind (k r) f)
  end.

Notation "'run!' x <- p ; q" := (bind p (fun x => q))
  (at level 10, x pattern, p at level 100, q at level 200,
   format "'[v' 'run!'  x  <-  p ; '/' q ']'").

Record call := { c_exe : string; c_args : list string; c_answer : answer }.

Definition tool : Type := list call -> string -> list string -> answer.

Fixpoint exec {A} (t : tool) (done : list call) (p : prog A) : A * list call :=
  match p with
  | Ret a => (a, done)
  | Call exe_path args k =>
      let r := t done exe_path args in
      exec t (done ++ [{| c_exe := exe_path; c_args := args; c_answer := r |}])
        (k r)
  end.

Definition result {A} (t : tool) (p : prog A) : A := fst (exec t [] p).
Definition calls {A} (t : tool) (p : prog A) : list call := snd (exec t [] p).

Definition nl : string := String (ascii_of_N 10) EmptyString.

(** [s or d] on strings. *)
Definition or_else (s d : string) : string :=
  match s with EmptyString => d | _ => s end.

(** ** Task 1: the connected devices *)

Record device := {
  d_id : string;
  d_type : string;
  d_firmware : string;
  d_flags : string;
  d_bit_status : gmap string string;
  d_all_bits : list bit_row;
  d_hr_mode : string
}.

(** The body of the loop over the lines of the output, on the pair
    ([devices], [error_log]). *)
Definition device_step (st : list device * list string) (line : string)
    : list device * list string :=
  let '(devices, error_log) := st in
  match Re.search ignorecase SUMMARY_PATTERN line with
  | Some m =>
      let '(bit_status, all_bits) := get_bit_status (Re.get m "flags") in
      (devices ++
         [{| d_id := Py.lstrip_char "0" (Re.get m "id");
             d_type := Re.get m "type";
             d_firmware := Re.get m "firmware";
             d_flags := Re.get m "flags";
             d_bit_status := bit_status;
             d_all_bits := all_bits;
             d_hr_mode := get_current_hr_mode bit_status |}],
       error_log)
  | None =>
      if Py.contains "ID:" line
      then (devices, error_log ++ ["Failed to parse line: " +:+ line])
      else (devices, error_log)
  end.

(** What [get_connected_devices] returns once the command has succeeded with
    the output [stdout]. *)
Definition devices_of_output (stdout : string) : list device * string :=
  let '(devices, error_log) :=
    fold_left device_step (Py.splitlines stdout) ([], []) in
  match devices, error_log with
  | [], [] => ([], "No devices found. Check connection.")
  | _, _ => (devices, Py.join nl error_log)
  end.

Definition get_connected_devices (exe_path : string)
    : prog (list device * string) :=
  run! (success, stdout, stderr) <- run_command exe_path [];
  if negb success
  then Ret ([], or_else stderr "Failed to run ConfigDevices.exe")
  else Ret (devices_of_output stdout).

(** ** Task 3: setting the heart-rate mode *)

Definition hr_commands (exe_path mode : string)
    : option (list (string * list string)) :=
  if String.eqb mode "Polar Strap" then
    Some [(exe_path, ["-ds"; "3"]); (exe_path, ["-dc"; "28"]);
          (exe_path, ["-dc"; "30"])]
  else if String.eqb mode "Integrated HR" then
    Some [(exe_path, ["-ds"; "3"]); (exe_path, ["-ds"; "28"]);
          (exe_path, ["-dc"; "30"])]
  else if String.eqb mode "Bluetooth HR" then
    Some [(exe_path, ["-ds"; "3"]); (exe_path, ["-ds"; "30"]);
          (exe_path, ["-dc"; "28"])]
  else None.

(** The loop [for exe, args in commands] of [set_hr_mode]. *)
Fixpoint run_commands (commands : list (string * list string))
    (output_log : list string) : prog (list string) :=
  match commands with
  | [] => Ret output_log
  | (exe, args) :: rest =>
      run! (success, stdout, stderr) <- run_command exe args;
      run_commands rest
        (output_log ++
           [if success
            then "SUCCESS: " +:+ Py.join " " args +:+ nl +:+ stdout
            else "ERROR: " +:+ Py.join " " args +:+ nl +:+ stderr])
  end.

Definition set_hr_mode (exe_path mode : string) : prog string :=
  match hr_commands exe_path mode with
  | None => Ret "Invalid mode selected."
  | Some commands =>
      run! output_log <-
        run_commands commands ["--- Setting HR Mode to: " +:+ mode +:+ " ---"];
      Ret (Py.join nl (output_log ++ ["--- HR Mode setting complete. ---"]))
  end.

(** ** Task 4: the 6.5 GHz configuration *)

Record radio_config := { r_id : string; r_config_type : string; r_raw : string }.

(** The classification of one matched line, from the two texts captured. *)
Definition config_type (tx rx : string) : string :=
  if String.eqb tx "9" && String.eqb rx "9" then "Default (tx=9, rx=9)"
  else if String.eqb tx "3" && String.eqb rx "3" then "Alternative (tx=3, rx=3)"
  else "Unknown (tx=" +:+ tx +:+ ", rx=" +:+ rx +:+ ")".

Definition config_step (configs : list radio_config) (line : string)
    : list radio_config :=
  match Re.search ignorecase GSP_PATTERN line with
  | Some m =>
      let tx := Re.get m "tx" in
      let rx := Re.get m "rx" in
      configs ++
        [{| r_id := Py.lstrip_char "0" (Re.get m "id");
            r_config_type := config_type tx rx;
            r_raw := Py.strip line |}]
  | None => configs
  end.

Definition configs_of_output (stdout : string) : list radio_config * string :=
  (fold_left config_step (Py.splitlines stdout) [], "").

Definition get_6_5ghz_config (exe_path : string)
    : prog (list radio_config * string) :=
  run! (success, stdout, stderr) <- run_command exe_path ["-gsp"];
  if negb success
  then Ret ([], or_else stderr "Failed to run -gsp command.")
  else Ret (configs_of_output stdout).

(** ** Task 6: the sessions *)

Record session := {
  s_num : string;
  s_length : string;
  s_duration : string;
  s_time : string;
  s_Select : bool
}.

Definition session_of_match (m : Re.re_match) : session :=
  {| s_num := Re.get m "num"; s_length := Re.get m "length";
     s_duration := Re.get m "duration"; s_time := Re.get m "time";
     s_Select := false |}.

(** The truth value of [current_device_id]: neither [None] nor empty. *)
Definition truthy (current_device_id : option string) : bool :=
  match current_device_id with
  | None | Some EmptyString => false
  | Some _ => true
  end.

(** The body of the loop over the lines, on the pair ([sessions_by_device],
    [current_device_id]).  [None] stands for the [KeyError] of
    [sessions_by_device[current_device_id]] on a key that is absent. *)
Definition session_step
    (st : gmap string (list session) * option string) (line : string)
    : option (gmap string (list session) * option string) :=
  let '(sessions_by_device, current_device_id) := st in
  let start_match := Re.search ignorecase SI_START_PATTERN line in
  let session_match := Re.search ignorecase SI_SESSION_PATTERN line in
  match start_match with
  | Some m =>
      let current_device_id := Py.lstrip_char "0" (Re.get m "id") in
      Some (match sessions_by_device !! current_device_id with
            | None => <[current_device_id := []]> sessions_by_device
            | Some _ => sessions_by_device
            end,
            Some current_device_id)
  | None =>
      match session_match, current_device_id with
      | Some m, Some cur =>
          if truthy current_device_id then
            match sessions_by_device !! cur with
            | Some group =>
                Some (<[cur := group ++ [session_of_match m]]> sessions_by_device,
                      current_device_id)
            | None => None
            end
          else Some st
      | _, _ => Some st
      end
  end.

Fixpoint session_loop (lines : list string)
    (st : gmap string (list session) * option string)
    : option (gmap string (list session) * option string) :=
  match lines with
  | [] => Some st
  | line :: rest =>
      match session_step st line with
      | Some st' => session_loop rest st'
      | None => None
      end
  end.

(** What [list_sessions] returns once the command has succeeded with the
    output [stdout]. *)
Definition sessions_of_output (stdout : string)
    : option (gmap string (list session) * string) :=
  match session_loop (Py.splitlines stdout) (∅, None) with
  | Some (sessions_by_device, _) => Some (sessions_by_device, "")
  | None => None
  end.

Definition list_sessions (exe_path : string)
    : prog (option (gmap string (list session) * string)) :=
  run! (success, stdout, stderr) <- run_command exe_path ["-si"];
  if negb success
  then Ret (Some (∅, or_else stderr "Failed to run -si command."))
  else Ret (sessions_of_output stdout).

(** ** The raw file viewer: orientation *)

(** [[line.strip() for line in raw_output.splitlines() if line.strip()]] *)
Definition stripped_lines (raw_output : string) : list string :=
  filter (fun line => line ≠ EmptyString)
    (map Py.strip (Py.splitlines raw_output)).

(** The loop that scans the lines for the first one the pattern matches;
    [parse_orientation_data] runs it over the lines reversed, starting from
    the empty string. *)
Fixpoint first_orientation (lines : list string) : string :=
  match lines with
  | [] => EmptyString
  | line :: rest =>
      match Re.match_ no_flags ORIENTATION_PATTERN line with
      | Some _ => line
      | None => first_orientation rest
      end
  end.

(** [parse_orientation_data]: the orientation string, the counts and the
    percentage of readings that are correct.  The percentage is a float; the
    integer [0] of the guarded branch is written as the float zero.  A fault
    inside the [try] gives the value of the [except] branch. *)
Definition parse_orientation_data (raw_output : string)
    : string * gmap string nat * F64.float :=
  let lines := stripped_lines raw_output in
  let orientation_string := first_orientation (rev lines) in
  match orientation_string with
  | EmptyString => (EmptyString, ∅, S754_zero false)
  | _ =>
      let total_readings := String.length orientation_string in
      let okay := Py.count "+" orientation_string in
      let counts : gmap string nat :=
        <["Flat (.)" := Py.count "." orientation_string]>
        (<["Upside Down (u)" := Py.count "u" orientation_string]>
        (<["Reversed (r)" := Py.count "r" orientation_string]>
        (<["Okay (+)" := okay]> ∅))) in
      if (0 <? total_readings)%nat then
        match F64.int_truediv (Z.of_nat okay) (Z.of_nat total_readings) with
        | Some q => (orientation_string, counts, F64.mul q (F64.of_int 100))
        | None => (EmptyString, ∅, S754_zero false)
        end
      else (orientation_string, counts, S754_zero false)
  end.

(** ** The raw file viewer: battery *)

Record data_point := {
  p_time : F64.float;
  p_voltage : F64.float;
  p_percent : F64.float
}.

Record summary := {
  first_reading : string;
  last_reading : string;
  time_elapsed_str : string;
  percent_drop : string;
  error : option string
}.

Definition no_data : summary :=
  {| first_reading := "N/A"; last_reading := "N/A";
     time_elapsed_str := "N/A"; percent_drop := "N/A"; error := None |}.

(** [float(s)], or the text of the [ValueError] it raises. *)
Definition float_of (s : string) : string + F64.float :=
  match F64.of_str s with
  | Some x => inr x
  | None => inl ("could not convert string to float: '" +:+ s +:+ "'")
  end.

(** [int(x)], or the text of the exception it raises. *)
Definition int_of (x : F64.float) : string + Z :=
  match F64.to_int x with
  | inr n => inr n
  | inl F64.CannotConvertNaN => inl "cannot convert float NaN to integer"
  | inl F64.CannotConvertInfinity => inl "cannot convert float infinity to integer"
  end.

Definition point_of_match (m : Re.re_match) : string + data_point :=
  match float_of (Re.get m "time_s") with
  | inl e => inl e
  | inr t =>
      match float_of (Re.get m "voltage") with
      | inl e => inl e
      | inr v =>
          match float_of (Re.get m "percent") with
          | inl e => inl e
          | inr p => inr {| p_time := t; p_voltage := v; p_percent := p |}
          end
      end
  end.

(** The list comprehension that builds [all_data_points]. *)
Fixpoint points_of_matches (ms : list Re.re_match) : string + list data_point :=
  match ms with
  | [] => inr []
  | m :: rest =>
      match point_of_match m with
      | inl e => inl e
      | inr p =>
          match points_of_matches rest with
          | inl e => inl e
          | inr ps => inr (p :: ps)
          end
      end
  end.

Definition with_error (s : summary) (e : string) : summary :=
  {| first_reading := first_reading s; last_reading := last_reading s;
     time_elapsed_str := time_elapsed_str s; percent_drop := percent_drop s;
     error := Some ("Error parsing debug data: " +:+ e) |}.

(** [parse_debug_data]: the summary and the data points.  The summary is
    filled field by field, so an exception leaves the fields set before it. *)
Definition parse_debug_data (raw_output : string) : summary * list data_point :=
  let matches := Re.finditer ignorecase_multiline BATTERY_PATTERN raw_output in
  match matches with
  | [] => (no_data, [])
  | first_match :: _ =>
      match points_of_matches matches with
      | inl e => (with_error no_data e, [])
      | inr all_data_points =>
          let last_match := List.last matches first_match in
          match float_of (Re.get first_match "time_s"),
                float_of (Re.get first_match "percent"),
                float_of (Re.get last_match "time_s"),
                float_of (Re.get last_match "percent") with
          | inr first_time_s, inr first_percent,
            inr last_time_s, inr last_percent =>
              let s1 :=
                {| first_reading := F64.format_f 0 first_percent +:+ "%";
                   last_reading := F64.format_f 0 last_percent +:+ "%";
                   time_elapsed_str := "N/A"; percent_drop := "N/A";
                   error := None |} in
              let time_delta_seconds := F64.sub last_time_s first_time_s in
              match F64.floordiv time_delta_seconds (F64.of_int 60) with
              | None =>
                  (with_error s1 "float floor division by zero", all_data_points)
              | Some q =>
                  match int_of q with
                  | inl e => (with_error s1 e, all_data_points)
                  | inr total_minutes =>
                      let total_hours := total_minutes / 60 in
                      let remaining_minutes := total_minutes mod 60 in
                      let percent_drop_val :=
                        F64.sub first_percent last_percent in
                      ({| first_reading := first_reading s1;
                          last_reading := last_reading s1;
                          time_elapsed_str :=
                            F64.format_02 total_hours +:+ ":"
                            +:+ F64.format_02 remaining_minutes;
                          percent_drop :=
                            F64.format_f 0 percent_drop_val +:+ "%";
                          error := None |},
                       all_data_points)
                  end
              end
          | inl e, _, _, _ | _, inl e, _, _ | _, _, inl e, _ | _, _, _, inl e =>
              (with_error no_data e, all_data_points)
          end
      end
  end.

(** ** What the specification says, as definitions of its own *)

(** ON and OFF, as the program writes them. *)
Definition on_off (b : bool) : string := if b then "ON" else "OFF".

(** Bit [i] of the flags register, computed directly: [(F >> i) & 1]. *)
Definition bit_of (F : Z) (i : nat) : Z := Z.land (Z.shiftr F (Z.of_nat i)) 1.

(** The label of bit [i]. *)
Definition spec_label (i : nat) : string :=
  if Nat.eqb i 3 then "Enables HR"
  else if Nat.eqb i 24 then "Double button to turn off"
  else if Nat.eqb i 28 then "Enables ECH heartrate pickup"
  else if Nat.eqb i 30 then "Enables BLE HR monitoring"
  else "Bit " +:+ Py.str i.

(** The decision table of the heart-rate mode, on bits 3, 28 and 30. *)
Definition spec_hr_mode (bit3 bit28 bit30 : bool) : string :=
  match bit3, bit28, bit30 with
  | true, false, false => "Polar Strap"
  | true, true, false => "Integrated HR"
  | true, false, true => "Bluetooth HR"
  | _, _, _ => "Unknown/Custom"
  end.

(** The value of a string of hexadecimal digits. *)
Definition hex_value (ds : string) : Z :=
  fold_left (fun acc c => acc * 16 + default 0 (Py.digit_value c))
    (list_ascii_of_string ds) 0.

Definition all_chars (p : ascii -> bool) (s : string) : bool :=
  forallb p (list_ascii_of_string s).

(** The status and the row the loop of [get_bit_status] gives bit [i], and
    the statuses it has collected after [n] rounds. *)
Definition status_of (F : Z) (i : nat) : string :=
  if bit_of F i =? 0 then "OFF" else "ON".

Definition row_of (F : Z) (i : nat) : bit_row :=
  {| Bit := i; Status := status_of F i;
     Description := default ("Bit " +:+ Py.str i) (specific_bits_map !! i) |}.

Fixpoint statuses_upto (status : nat -> string) (n : nat) : gmap string string :=
  match n with
  | O => ∅
  | S k =>
      if decide (is_Some (specific_bits_map !! k))
      then <[Py.str k := status k]> (statuses_upto status k)
      else statuses_upto status k
  end.

(** The named subset derived again from a bit table, and the one computed
    from the flags bit by bit. *)
Definition named_indices : list nat := [3; 24; 28; 30]%nat.

Definition subset_of_table (table : list bit_row) : gmap string string :=
  fold_left
    (fun m i =>
       match table !! i with
       | Some row => <[Py.str i := Status row]> m
       | None => m
       end)
    named_indices ∅.

Definition subset_of_flags (F : Z) : gmap string string :=
  fold_left (fun m i => <[Py.str i := on_off (bit_of F i =? 1)]> m)
    named_indices ∅.

(** The value of a string of decimal digits. *)
Definition decimal_value (ds : string) : Z :=
  fold_left (fun acc c => acc * 10 + (Z.of_N (Py.code c) - 48))
    (list_ascii_of_string ds) 0.

(** The classification of the radio configuration on the two codes taken as
    integers; the texts are kept for the display of an unknown pair. *)
Definition spec_config_type (tx rx : string) : string :=
  if (decimal_value tx =? 9) && (decimal_value rx =? 9)
  then "Default (tx=9, rx=9)"
  else if (decimal_value tx =? 3) && (decimal_value rx =? 3)
  then "Alternative (tx=3, rx=3)"
  else "Unknown (tx=" +:+ tx +:+ ", rx=" +:+ rx +:+ ")".

(** The configuration of one line, if the pattern matches it. *)
Definition config_of_line (line : string) : option radio_config :=
  match Re.search ignorecase GSP_PATTERN line with
  | Some m =>
      Some {| r_id := Py.lstrip_char "0" (Re.get m "id");
              r_config_type := config_type (Re.get m "tx") (Re.get m "rx");
              r_raw := Py.strip line |}
  | None => None
  end.

(** A call that failed, and a run that stopped at its first failure. *)
Definition failed (c : call) : bool := negb (fst (fst (c_answer c))).

Definition aborted_at_first_failure (cs : list call) : Prop :=
  forall i c, cs !! i = Some c -> failed c = true -> length cs = S i.

(** The entry of the log for one call of [set_hr_mode]. *)
Definition log_entry (c : call) : string :=
  let '(success, stdout, stderr) := c_answer c in
  if success
  then "SUCCESS: " +:+ Py.join " " (c_args c) +:+ nl +:+ stdout
  else "ERROR: " +:+ Py.join " " (c_args c) +:+ nl +:+ stderr.

(** A tool that fails every call. *)
Definition always_fails : tool :=
  fun _ _ _ => (false, EmptyString, "device not responding").

(** A decimal numeral as an integer is written: digits only, and no zero
    in front of another digit. *)
Definition canonical_decimal (s : string) : bool :=
  all_chars Py.isdigit s
  && match s with
     | EmptyString => false
     | String c EmptyString => true
     | String c _ => negb (Ascii.eqb c "0")
     end.

(** The device of one line, if the summary pattern matches it. *)
Definition device_of_line (line : string) : option device :=
  match Re.search ignorecase SUMMARY_PATTERN line with
  | Some m =>
      Some {| d_id := Py.lstrip_char "0" (Re.get m "id");
              d_type := Re.get m "type";
              d_firmware := Re.get m "firmware";
              d_flags := Re.get m "flags";
              d_bit_status := fst (get_bit_status (Re.get m "flags"));
              d_all_bits := snd (get_bit_status (Re.get m "flags"));
              d_hr_mode :=
                get_current_hr_mode (fst (get_bit_status (Re.get m "flags"))) |}
  | None => None
  end.

(** A line the scan records as a parse failure, and the note it records. *)
Definition parse_failure (line : string) : bool :=
  match Re.search ignorecase SUMMARY_PATTERN line with
  | Some _ => false
  | None => Py.contains "ID:" line
  end.

Definition failure_note (line : string) : string :=
  "Failed to parse line: " +:+ line.

(** The lines of a session listing: a header line carries a device id,
    given here with its leading zeros stripped; a session line is a line
    that is not a header line and carries a session record. *)
Inductive line_kind :=
| Header (id : string)
| SessionLine (s : session)
| Other.

Definition classify (line : string) : line_kind :=
  match Re.search ignorecase SI_START_PATTERN line with
  | Some m => Header (Py.lstrip_char "0" (Re.get m "id"))
  | None =>
      match Re.search ignorecase SI_SESSION_PATTERN line with
      | Some m => SessionLine (session_of_match m)
      | None => Other
      end
  end.

(** The ids of the header lines, in order. *)
Fixpoint header_ids (lines : list string) : list string :=
  match lines with
  | [] => []
  | line :: rest =>
      match classify line with
      | Header id => id :: header_ids rest
      | _ => header_ids rest
      end
  end.

(** The current device id after the lines, [cur] being the one before
    them: the id of the last header line. *)
Fixpoint current_after (cur : option string) (lines : list string)
    : option string :=
  match lines with
  | [] => cur
  | line :: rest =>
      match classify line with
      | Header id => current_after (Some id) rest
      | _ => current_after cur rest
      end
  end.

(** The group of device [d]: the records of the session lines met while [d]
    is the current device id and is active, in the order of the input. *)
Fixpoint sessions_for (d : string) (cur : option string) (lines : list string)
    : list session :=
  match lines with
  | [] => []
  | line :: rest =>
      match classify line with
      | Header id => sessions_for d (Some id) rest
      | SessionLine s =>
          (if truthy cur && bool_decide (cur = Some d) then [s] else [])
          ++ sessions_for d cur rest
      | Other => sessions_for d cur rest
      end
  end.










(** The lines the orientation analyzer looks at, in words: each line of
    the text without the white space around it, those left empty dropped. *)
Definition trimmed_lines (text : string) : list string :=
  flat_map
    (fun line =>
       match Py.strip line with
       | EmptyString => []
       | trimmed => [trimmed]
       end)
    (Py.splitlines text).

(** A text whose last line of readings has blanks around it. *)
Definition padded_example : string :=
  "+++" +:+ nl +:+ " +r " +:+ nl.



(** An orientation string: a line made of the four characters [+], [r],
    [u] and [.] only, and of one at least; its counts, and the percentage of
    its readings that are correct, [count('+') / length * 100] on floats. *)
Definition orientation_char (c : ascii) : bool := Re.one_of "+ru." c.

Definition is_orientation (line : string) : bool :=
  negb (String.eqb line EmptyString) && all_chars orientation_char line.

Definition spec_counts (line : string) : gmap string nat :=
  <["Flat (.)" := Py.count "." line]>
  (<["Upside Down (u)" := Py.count "u" line]>
  (<["Reversed (r)" := Py.count "r" line]>
  (<["Okay (+)" := Py.count "+" line]> ∅))).

Definition spec_percentage (line : string) : F64.float :=
  F64.mul
    (F64.div (F64.exact (Z.of_nat (Py.count "+" line)))
       (F64.exact (Z.of_nat (String.length line))))
    (F64.of_int 100).

(** The last orientation string among the lines, or the empty string. *)
Definition last_orientation (lines : list string) : string :=
  List.last (List.filter is_orientation lines) EmptyString.

(** The line the sentence of the specification names: the last line of the
    text itself, as it stands, that is an orientation string. *)
Definition last_plain_line (text : string) : string :=
  last_orientation (Py.splitlines text).

Fixpoint last_char (s : string) : option ascii :=
  match s with
  | EmptyString => None
  | String a EmptyString => Some a
  | String _ s' => last_char s'
  end.

(** A line with no white space as its last character. *)
Definition no_space_at_end (line : string) : Prop :=
  forall c, last_char line = Some c -> Py.isspace c = false.


Definition charging_example : string :=
  "0a 12.5 DATA: Battery=3.70V, 20%" +:+ nl
  +:+ "0b 7212.4 DATA: Battery=4.10V, 50%" +:+ nl.

(** The hexadecimal digit of a value below sixteen, in lower case. *)
Definition hex_char (d : Z) : ascii :=
  if d <? 10 then ascii_of_N (Z.to_N d + 48) else ascii_of_N (Z.to_N d + 87).

(** ** Task 5: the public keys *)

(** [ID:(?P<id>\d+), Public Key Hash=(?P<key_hash>[a-fA-F0-9]+)] *)
Definition GPK_PATTERN : Re.regex :=
  Re.lits "ID:" ++ Re.group "id" (Re.plus Re.digit true)
  ++ Re.lits ", Public Key Hash="
  ++ Re.group "key_hash" (Re.plus Py.ishex true).

Record public_key := { k_id : string; k_key_hash : string }.

Definition key_step (keys : list public_key) (line : string)
    : list public_key :=
  match Re.search ignorecase GPK_PATTERN line with
  | Some m =>
      keys ++ [{| k_id := Py.lstrip_char "0" (Re.get m "id");
                  k_key_hash := Re.get m "key_hash" |}]
  | None => keys
  end.

Definition keys_of_output (stdout : string) : list public_key * string :=
  (fold_left key_step (Py.splitlines stdout) [], "").

Definition get_public_key (exe_path : string)
    : prog (list public_key * string) :=
  run! (success, stdout, stderr) <- run_command exe_path ["-gpk"];
  if negb success
  then Ret ([], or_else stderr "Failed to run -gpk command.")
  else Ret (keys_of_output stdout).

(** The key of one line, if the pattern matches it. *)
Definition key_of_line (line : string) : option public_key :=
  match Re.search ignorecase GPK_PATTERN line with
  | Some m =>
      Some {| k_id := Py.lstrip_char "0" (Re.get m "id");
              k_key_hash := Re.get m "key_hash" |}
  | None => None
  end.

(** A device id as the queries return it: decimal digits, the first of
    which is not a zero; it is empty when the digits matched are all
    zeros. *)
Definition stripped_id (s : string) : Prop :=
  all_chars Py.isdigit s = true /\ Py.prefix "0" s = false.

(** A text of decimal digits, one at least. *)
Definition digits_text (s : string) : Prop :=
  s <> EmptyString /\ all_chars Py.isdigit s = true.

(** A flags text as the summary pattern captures it. *)
Definition flags_literal (s : string) : Prop :=
  exists x ds,
    s = String "0" (String x ds)
    /\ (x = "x"%char \/ x = "X"%char)
    /\ ds <> EmptyString /\ all_chars Py.ishex ds = true.

(** ** What one way through a pattern consumes

    [item_fits fl i u]: the item [i] can consume exactly [u]; [fits fl r w]:
    the items of [r], one after the other, can consume exactly [w].  The
    marks of a group and the anchors consume nothing. *)
Definition item_fits (fl : Re.flags) (i : Re.item) (u : string) : Prop :=
  match i with
  | Re.Lit c => exists a, u = String a EmptyString /\ Re.lit_eq fl c a = true
  | Re.Cls p => exists a, u = String a EmptyString /\ p a = true
  | Re.Rep p _ => all_chars p u = true
  | Re.Open _ | Re.Close _ | Re.Bol | Re.Eol => u = EmptyString
  end.

Fixpoint fits (fl : Re.flags) (r : Re.regex) (w : string) : Prop :=
  match r with
  | [] => w = EmptyString
  | i :: r' => exists u w', w = u +:+ w' /\ item_fits fl i u /\ fits fl r' w'
  end.

(** A pattern without group marks, and the names of the groups a pattern
    closes. *)
Definition plain_item (i : Re.item) : bool :=
  match i with
  | Re.Open _ | Re.Close _ => false
  | _ => true
  end.

Definition plain (r : Re.regex) : bool := forallb plain_item r.

Fixpoint closes (r : Re.regex) : list string :=
  match r with
  | [] => []
  | Re.Close g :: r' => g :: closes r'
  | _ :: r' => closes r'
  end.

(** The state after the characters of [w] are consumed. *)
Fixpoint advance_all (w : string) (st : Re.mstate) : Re.mstate :=
  match w with
  | EmptyString => st
  | String a w' => advance_all w' (Re.advance a st)
  end.

(** The state after one item that consumed [u]. *)
Definition after_item (i : Re.item) (u : string) (st : Re.mstate) : Re.mstate :=
  match i with
  | Re.Open g => Re.open_group g st
  | Re.Close g => Re.close_group g st
  | _ => advance_all u st
  end.

(** ** Setting and reading the flags *)

(** The flags a bit table stands for: the sum of [2^Bit] over the rows that
    are ON. *)
Definition flags_of_table (table : list bit_row) : Z :=
  fold_right
    (fun row acc =>
       (if String.eqb (Status row) "ON" then 2 ^ Z.of_nat (Bit row) else 0)
       + acc)
    0 table.

(** The bit a command of [set_hr_mode] names, and the flags after the
    command, as the comments of [set_hr_mode] read its lists: [-ds n] turns
    bit [n] on and [-dc n] turns it off. *)
Definition bit_index (n : string) : option nat :=
  List.find (fun i => String.eqb (Py.str i) n) (seq 0 64).

Definition commanded (F : Z) (args : list string) : Z :=
  match args with
  | [flag; n] =>
      match bit_index n with
      | Some i =>
          if String.eqb flag "-ds" then Z.setbit F (Z.of_nat i)
          else if String.eqb flag "-dc" then Z.clearbit F (Z.of_nat i)
          else F
      | None => F
      end
  | _ => F
  end.

(** ** Task 4: setting the 6.5 GHz configuration *)

Definition ssp_args (mode : string) : option (list string) :=
  if String.eqb mode "Default" then
    Some ["-ssp"; "5"; "2"; "36"; "1"; "9"; "9"; "0"; "2"; "3"; "4161"; "181";
          "0x1F1F1F1F"]
  else if String.eqb mode "Alternative" then
    Some ["-ssp"; "5"; "1"; "36"; "1"; "3"; "3"; "0"; "2"; "3"; "4161"; "181";
          "0x1F1F1F1F"]
  else None.

Definition set_6_5ghz_config (exe_path mode : string) : prog string :=
  match ssp_args mode with
  | None => Ret "Invalid mode selected."
  | Some args =>
      let output_log := ["--- Setting 6.5 GHz Config to: " +:+ mode +:+ " ---"] in
      run! (success, stdout, stderr) <- run_command exe_path args;
      let output_log :=
        output_log ++
          [if success
           then "SUCCESS: " +:+ Py.join " " args +:+ nl +:+ stdout
           else "ERROR: " +:+ Py.join " " args +:+ nl +:+ stderr] in
      Ret (Py.join nl
             (output_log ++ ["--- 6.5 GHz Config setting complete. ---"]))
  end.

(** The transmit and receive codes among the arguments of [-ssp], at the
    places where [ssp_args] writes the two codes that differ between the
    modes and that [-gsp] reports. *)
Definition tx_of_args (args : list string) : string := nth 5 args EmptyString.
Definition rx_of_args (args : list string) : string := nth 6 args EmptyString.

(** ** The application: refreshing the device data *)

(** The entries of [st.session_state]. *)
Record session_state := {
  ss_devices : list device;
  ss_scan_errors : string;
  ss_ghz_config : list radio_config;
  ss_public_keys : list public_key;
  ss_sessions : gmap string (list session);
  ss_raw_debug_output : string;
  ss_raw_orientation_output : string
}.

(** The state of a new session. *)
Definition initial_state : session_state :=
  {| ss_devices := []; ss_scan_errors := ""; ss_ghz_config := [];
     ss_public_keys := []; ss_sessions := ∅;
     ss_raw_debug_output := ""; ss_raw_orientation_output := "" |}.

(** [scan_errors += f"\n{err}"] under [if err:]. *)
Definition add_error (scan_errors err : string) : string :=
  match err with
  | EmptyString => scan_errors
  | _ => scan_errors +:+ nl +:+ err
  end.

(** How [refresh_device_data] ends.  Its last statement is [st.rerun()],
    which does not return to the function: Streamlit stops the run of the
    script there and runs the page again, with the session state as the
    function left it.  [Rerun st] is that end, with that state; [Escaped]
    stands for an exception of [list_sessions] getting out before. *)
Inductive refresh_end :=
| Rerun (st : session_state)
| Escaped.

(** [refresh_device_data], on the session state.  The spinner shows a
    message while the block runs and is not part of the model. *)
Definition refresh_device_data (exe_path : string) (st : session_state)
    : prog refresh_end :=
  run! (devices, errors) <- get_connected_devices exe_path;
  let st :=
    {| ss_devices := devices; ss_scan_errors := errors;
       ss_ghz_config := ss_ghz_config st;
       ss_public_keys := ss_public_keys st;
       ss_sessions := ss_sessions st;
       ss_raw_debug_output := ss_raw_debug_output st;
       ss_raw_orientation_output := ss_raw_orientation_output st |} in
  match devices with
  | [] => Ret (Rerun st)
  | _ :: _ =>
      run! (ghz_config, err) <- get_6_5ghz_config exe_path;
      let scan_errors := add_error (ss_scan_errors st) err in
      run! (keys, err) <- get_public_key exe_path;
      let scan_errors := add_error scan_errors err in
      run! r <- list_sessions exe_path;
      match r with
      | None => Ret Escaped
      | Some (sessions, err) =>
          Ret (Rerun
                 {| ss_devices := devices;
                    ss_scan_errors := add_error scan_errors err;
                    ss_ghz_config := ghz_config;
                    ss_public_keys := keys;
                    ss_sessions := sessions;
                    ss_raw_debug_output := ss_raw_debug_output st;
                    ss_raw_orientation_output :=
                      ss_raw_orientation_output st |})
      end
  end.

(** The three states of the connection panel. *)
Inductive panel := ClickScan | Found (n : nat) | NoDevicesFound.

Definition connection_panel (st : session_state) : panel :=
  match ss_devices st, ss_scan_errors st with
  | [], EmptyString => ClickScan
  | _ :: _, _ => Found (length (ss_devices st))
  | [], _ => NoDevicesFound
  end.

(** The text the application keeps of one run of the viewer:
    [out if success else f"Error running {flag}:\n{out}"], with [-d] or [-R]
    for the flag. *)
Definition kept_output (flag : string) (r : answer) : string :=
  let '(success, out, err) := r in
  if success then out else "Error running " +:+ flag +:+ ":" +:+ nl +:+ out.

(** ** The operating system under [run_command], [run_raw_file_viewer] and
    [download_sessions]

    [run_command] above is the call as the queries see it.  Below it is the
    function itself, as a tree of the requests it makes of the operating
    system: whether a path exists, the creation of a directory, a process
    started with [Popen] and talked to with [communicate], one run with
    [subprocess.run], and the lines printed. *)

Module Os.

(** How [Popen] followed by [communicate] ends: with a return code and the
    two texts, or with one of the exceptions [run_command] tells apart. *)
Inductive popen_outcome :=
| Communicated (returncode : Z) (stdout_data stderr_data : string)
| TimeoutExpired
| FileNotFoundError
| OtherException (text : string).

(** How [subprocess.run] with [stderr=STDOUT] ends. *)
Inductive run_outcome :=
| Completed (returncode : Z) (stdout : string)
| RunFileNotFoundError
| RunOtherException (text : string).

Inductive os (A : Type) : Type :=
| Done (a : A)
| Exists (path : string) (k : bool -> os A)
| Makedirs (path : string) (k : option string -> os A)
| Popen (command : list string) (cwd : option string) (input : string)
    (timeout : Z) (k : popen_outcome -> os A)
| Kill (k : os A)
| Run (command : list string) (cwd : string) (k : run_outcome -> os A)
| PrintLn (text : string) (k : os A).

Arguments Done {A} a.
Arguments Exists {A} path k.
Arguments Makedirs {A} path k.
Arguments Popen {A} command cwd input timeout k.
Arguments Kill {A} k.
Arguments Run {A} command cwd k.
Arguments PrintLn {A} text k.

Fixpoint bind {A B} (p : os A) (f : A -> os B) : os B :=
  match p with
  | Done a => f a
  | Exists path k => Exists path (fun r => bind (k r) f)
  | Makedirs path k => Makedirs path (fun r => bind (k r) f)
  | Popen command cwd input timeout k =>
      Popen command cwd input timeout (fun r => bind (k r) f)
  | Kill k => Kill (bind k f)
  | Run command cwd k => Run command cwd (fun r => bind (k r) f)
  | PrintLn text k => PrintLn text (bind k f)
  end.

(** What has happened: each request with its answer. *)
Inductive event :=
| Existed (path : string) (r : bool)
| MadeDirs (path : string) (r : option string)
| Opened (command : list string) (cwd : option string) (input : string)
    (timeout : Z) (r : popen_outcome)
| Killed
| Ran (command : list string) (cwd : string) (r : run_outcome)
| Printed (text : string).

(** The operating system answers each request from what has happened so
    far; [Makedirs] answers [Some e] for an [OSError] of text [e]. *)
Record world := {
  w_exists : list event -> string -> bool;
  w_makedirs : list event -> string -> option string;
  w_popen : list event -> list string -> option string -> popen_outcome;
  w_run : list event -> list string -> string -> run_outcome
}.

Fixpoint exec {A} (w : world) (done : list event) (p : os A)
    : A * list event :=
  match p with
  | Done a => (a, done)
  | Exists path k =>
      let r := w_exists w done path in
      exec w (done ++ [Existed path r]) (k r)
  | Makedirs path k =>
      let r := w_makedirs w done path in
      exec w (done ++ [MadeDirs path r]) (k r)
  | Popen command cwd input timeout k =>
      let r := w_popen w done command cwd in
      exec w (done ++ [Opened command cwd input timeout r]) (k r)
  | Kill k => exec w (done ++ [Killed]) k
  | Run command cwd k =>
      let r := w_run w done command cwd in
      exec w (done ++ [Ran command cwd r]) (k r)
  | PrintLn text k => exec w (done ++ [Printed text]) k
  end.

(** The processes started among the events. *)
Definition is_process (e : event) : bool :=
  match e with
  | Opened _ _ _ _ _ | Ran _ _ _ => true
  | _ => false
  end.

Definition processes (es : list event) : list event :=
  List.filter is_process es.

(** [str(n)] for an integer. *)
Definition str_int (n : Z) : string := pretty n.

(** [run_command(exe_path, args, cwd)].  The texts of [communicate] are
    strings, the pipes being opened in text mode. *)
Definition run_command (exe_path : string) (args : list string)
    (cwd : option string) : os answer :=
  Exists exe_path (fun found =>
  if negb found then
    Done (false, "",
          "Error: ConfigDevices.exe not found at '" +:+ exe_path +:+ "'")
  else
    let command := exe_path :: args in
    Popen command cwd nl 10 (fun outcome =>
    match outcome with
    | Communicated returncode stdout_data stderr_data =>
        if negb (returncode =? 0) && String.eqb stdout_data ""
        then Done (false, "",
                   or_else stderr_data "Command failed with no output.")
        else Done (true, stdout_data, stderr_data)
    | TimeoutExpired =>
        Kill
          (Done (false, "",
                 "Error: The command timed out. The device may be unresponsive."))
    | FileNotFoundError =>
        Done (false, "",
              "Error: Executable not found at '" +:+ exe_path
              +:+ "'. Please check the path.")
    | OtherException text =>
        Done (false, "", "An unexpected error occurred: " +:+ text)
    end)).

(** The loop of [download_sessions]; the session numbers are the texts of
    the [num] column, so [str(num)] is [num]. *)
Fixpoint download_loop (exe_path device_id path : string)
    (session_nums : list string) (log : list string) : os (list string) :=
  match session_nums with
  | [] => Done log
  | num :: rest =>
      let args := ["-id"; device_id; "-sd"; num] in
      let log :=
        log ++ ["--- Downloading Session " +:+ num +:+ " for Device "
                +:+ device_id +:+ " to " +:+ path +:+ " ---"] in
      bind (run_command exe_path args (Some path))
        (fun '(success, stdout, stderr) =>
           download_loop exe_path device_id path rest
             (log ++ [if success then "SUCCESS: " +:+ stdout
                      else "ERROR: " +:+ stderr]))
  end.

Definition finish_download (exe_path device_id path : string)
    (session_nums : list string) : os string :=
  bind (download_loop exe_path device_id path session_nums [])
    (fun log => Done (Py.join nl (log ++ ["--- Download complete. ---"]))).

Definition download_sessions (exe_path device_id : string)
    (session_nums : list string) (path : string) : os string :=
  Exists path (fun found =>
  if negb found then
    Makedirs path (fun r =>
    match r with
    | Some e => Done ("Error creating download directory: " +:+ e)
    | None => finish_download exe_path device_id path session_nums
    end)
  else finish_download exe_path device_id path session_nums).

Section Viewer.

(** [os.path.dirname] and [os.path.join], which depend on the platform. *)
Variable dirname : string -> string.
Variable join : string -> string -> string.

Definition rule : string := "==============================".

Definition run_raw_file_viewer (viewer_exe_path file_name flag : string)
    : os answer :=
  PrintLn (nl +:+ rule)
  (PrintLn ("--- DEBUG: run_raw_file_viewer (flag: " +:+ flag +:+ ") ---")
  (PrintLn rule
  (Exists viewer_exe_path (fun found =>
  if negb found then
    PrintLn ("--- DEBUG ERROR: viewer.exe not found at path: "
           +:+ viewer_exe_path)
    (PrintLn (rule +:+ nl)
    (Done (false, "",
           "Error: viewer.exe not found at '" +:+ viewer_exe_path +:+ "'")))
  else
    PrintLn ("--- DEBUG: viewer.exe found at: " +:+ viewer_exe_path)
    (let viewer_dir := dirname viewer_exe_path in
     PrintLn ("--- DEBUG: viewer.exe directory (cwd): " +:+ viewer_dir)
    (let full_file_path := join viewer_dir file_name in
     Exists full_file_path (fun found =>
     if negb found then
       PrintLn ("--- DEBUG ERROR: Raw file not found at expected path: "
              +:+ full_file_path)
       (PrintLn (rule +:+ nl)
       (Done (false, "",
              "Error: Raw file not found at '" +:+ full_file_path +:+ "'")))
     else
       PrintLn ("--- DEBUG: Raw file found at: " +:+ full_file_path)
       (let command := [viewer_exe_path; flag; file_name] in
        PrintLn ("--- DEBUG: Executing command: " +:+ Py.join " " command)
       (Run command viewer_dir (fun result =>
        match result with
        | Completed returncode stdout =>
            PrintLn ("--- DEBUG: Command return code: " +:+ str_int returncode)
            (PrintLn ("--- DEBUG: Raw combined output (stdout+stderr):" +:+ nl
                    +:+ "---" +:+ nl +:+ stdout +:+ nl +:+ "---")
            (if negb (returncode =? 0) then
               let error_msg :=
                 or_else stdout
                   ("Command failed with return code " +:+ str_int returncode
                    +:+ " and no output.") in
               PrintLn ("--- DEBUG: Command FAILED. Returning error message: "
                      +:+ error_msg)
               (PrintLn (rule +:+ nl)
               (Done (false, error_msg, "")))
             else
               PrintLn "--- DEBUG: Command SUCCEEDED."
               (PrintLn (rule +:+ nl)
               (Done (true, stdout, "")))))
        | RunFileNotFoundError =>
            PrintLn ("--- DEBUG CRITICAL ERROR: FileNotFoundError. Executable not found at '"
                   +:+ viewer_exe_path +:+ "'.")
            (PrintLn (rule +:+ nl)
            (Done (false, "",
                   "Error: Executable not found at '" +:+ viewer_exe_path
                   +:+ "'. Please check the path.")))
        | RunOtherException text =>
            PrintLn ("--- DEBUG CRITICAL ERROR: An unexpected exception occurred: "
                   +:+ text)
            (PrintLn (rule +:+ nl)
            (Done (false, "", "An unexpected error occurred: " +:+ text)))
        end)))))))))).

End Viewer.

End Os.

(** The queries over the operating system: each call of [run_command] in a
    tree is the function itself, with no working directory given. *)
Fixpoint on_os {A} (p : prog A) : Os.os A :=
  match p with
  | Ret a => Os.Done a
  | Call exe_path args k =>
      Os.bind (Os.run_command exe_path args None) (fun r => on_os (k r))
  end.

(** A file system that never holds the path. *)
Definition nothing_there : Os.world :=
  {| Os.w_exists := fun _ _ => false;
     Os.w_makedirs := fun _ _ => None;
     Os.w_popen := fun _ _ _ => Os.FileNotFoundError;
     Os.w_run := fun _ _ _ => Os.RunFileNotFoundError |}.

(** * Theorems *)

(** ** Characters *)

Ltac by_cases_on_char c H :=
  destruct c as [[] [] [] [] [] [] [] []]; try discriminate H;
  vm_compute; repeat split; reflexivity.

Lemma ishex_digit_value c :
  Py.ishex c = true -> exists d, Py.digit_value c = Some d /\ 0 <= d < 16.
Proof.
  intros H.
  destruct c as [[] [] [] [] [] [] [] []]; try discriminate H;
    eexists; (split; [vm_compute; reflexivity | lia]).
Qed.

Lemma ishex_plain c :
  Py.ishex c = true ->
  Ascii.eqb c "_" = false /\ Ascii.eqb c "x" = false /\ Ascii.eqb c "X" = false
  /\ Ascii.eqb c "+" = false /\ Ascii.eqb c "-" = false
  /\ Py.int_isspace c = false.
Proof. intros H. by_cases_on_char c H. Qed.

(** ** [int(s, 16)] on the hexadecimal literals the device summary carries *)

Lemma replace_0x_hex ds :
  all_chars Py.ishex ds = true -> Py.replace_go "0x" "" 0 ds = ds.
Proof.
  induction ds as [|c ds IH]; [reflexivity|].
  unfold all_chars; cbn [list_ascii_of_string forallb].
  intros [Hc Hds]%andb_true_iff.
  cbn [Py.replace_go]. rewrite (IH Hds).
  replace (Py.prefix "0x" (String c ds)) with false; [reflexivity|].
  cbn [Py.prefix]. destruct ds as [|c' ds']; cbn [Py.prefix].
  - now rewrite andb_false_r.
  - cbn [list_ascii_of_string forallb] in Hds.
    apply andb_true_iff in Hds as [Hc' _].
    destruct (ishex_plain c' Hc') as (_ & Hx & _).
    rewrite (Ascii.eqb_sym "x" c'), Hx. cbn. now rewrite andb_false_r.
Qed.

Lemma scan_digits_hex ds acc n :
  all_chars Py.ishex ds = true ->
  Py.scan_digits 16 ds acc n false =
    Some (fold_left (fun a c => a * 16 + default 0 (Py.digit_value c))
            (list_ascii_of_string ds) acc,
          (n + String.length ds)%nat, EmptyString).
Proof.
  revert acc n. induction ds as [|c ds IH]; intros acc n.
  - intros _. cbn. now rewrite Nat.add_0_r.
  - unfold all_chars; cbn [list_ascii_of_string forallb].
    intros [Hc Hds]%andb_true_iff.
    destruct (ishex_plain c Hc) as (Hu & _).
    destruct (ishex_digit_value c Hc) as (d & Hd & Hlt).
    cbn [Py.scan_digits]. rewrite Hu, Hd.
    replace (d <? 16) with true by (symmetry; apply Z.ltb_lt; lia).
    rewrite (IH _ _ Hds). cbn [fold_left String.length]. rewrite Hd. cbn [default].
    do 3 f_equal. lia.
Qed.

Lemma skip_prefix16_hex ds :
  all_chars Py.ishex ds = true -> Py.skip_prefix16 ds = ds.
Proof.
  destruct ds as [|c [|c' ds']]; try reflexivity.
  unfold all_chars; cbn [list_ascii_of_string forallb].
  intros [_ [Hc' _]%andb_true_iff]%andb_true_iff.
  destruct (ishex_plain c' Hc') as (_ & Hx' & HX' & _).
  cbn [Py.skip_prefix16]. rewrite Hx', HX'. cbn [orb].
  now rewrite andb_false_r.
Qed.

Lemma read_int16_hex ds :
  ds <> EmptyString -> all_chars Py.ishex ds = true ->
  Py.read_int16 false ds = Some (hex_value ds).
Proof.
  intros Hne Hall. destruct ds as [|c ds]; [congruence|].
  pose proof Hall as Hall'.
  unfold all_chars in Hall'; cbn [list_ascii_of_string forallb] in Hall'.
  apply andb_true_iff in Hall' as [Hc Hds].
  destruct (ishex_plain c Hc) as (Hu & _).
  unfold Py.read_int16. rewrite Hu, (scan_digits_hex _ 0 0%nat Hall).
  reflexivity.
Qed.

Lemma int16_hex ds :
  ds <> EmptyString -> all_chars Py.ishex ds = true ->
  Py.int16 ds = Some (hex_value ds).
Proof.
  intros Hne Hall. rewrite <- (read_int16_hex ds Hne Hall).
  destruct ds as [|c ds]; [congruence|].
  pose proof Hall as Hall'.
  unfold all_chars in Hall'; cbn [list_ascii_of_string forallb] in Hall'.
  apply andb_true_iff in Hall' as [Hc Hds].
  destruct (ishex_plain c Hc) as (Hu & Hx & HX & Hp & Hm & Hs).
  unfold Py.int16. cbn [Py.skip_int_space]. rewrite Hs.
  cbn [Py.skip_sign]. rewrite Hp, Hm.
  now rewrite (skip_prefix16_hex _ Hall).
Qed.

Lemma replace_0x_lower s :
  Py.replace "0x" "" (String "0" (String "x" s)) = Py.replace_go "0x" "" 0 s.
Proof. reflexivity. Qed.

Lemma replace_0x_upper s :
  Py.replace "0x" "" (String "0" (String "X" s))
  = String "0" (String "X" (Py.replace_go "0x" "" 0 s)).
Proof. reflexivity. Qed.

Lemma int16_0X c ds :
  Py.int16 (String "0" (String "X" (String c ds)))
  = Py.read_int16 false (if Ascii.eqb c "_" then ds else String c ds).
Proof. reflexivity. Qed.

(** The text the summary pattern captures as flags, [0x] or [0X] then
    hexadecimal digits, is read as the value of the digits. *)
Lemma int16_flags_literal (x : ascii) ds :
  x = "x"%char \/ x = "X"%char ->
  ds <> EmptyString -> all_chars Py.ishex ds = true ->
  Py.int16 (Py.replace "0x" "" (String "0" (String x ds)))
  = Some (hex_value ds).
Proof.
  intros [-> | ->] Hne Hall.
  - rewrite replace_0x_lower, (replace_0x_hex _ Hall). now apply int16_hex.
  - rewrite replace_0x_upper, (replace_0x_hex _ Hall).
    destruct ds as [|c ds]; [congruence|].
    rewrite int16_0X.
    assert (Hc : Py.ishex c = true).
    { unfold all_chars in Hall; cbn [list_ascii_of_string forallb] in Hall.
      now apply andb_true_iff in Hall as [Hc _]. }
    destruct (ishex_plain c Hc) as (-> & _).
    now apply read_int16_hex.
Qed.

(** ** The bitfield decoder *)

Lemma bit_loop F n :
  fold_left (bit_step F) (seq 0 n) (∅, [])
  = (statuses_upto (status_of F) n, map (row_of F) (seq 0 n)).
Proof.
  induction n as [|n IH]; [reflexivity|].
  rewrite seq_S, fold_left_app, IH, map_app. reflexivity.
Qed.

Lemma statuses_64 status :
  statuses_upto status 64
  = <["30" := status 30%nat]> (<["28" := status 28%nat]>
      (<["24" := status 24%nat]> (<["3" := status 3%nat]> ∅))).
Proof. vm_compute. reflexivity. Qed.

Lemma get_bit_status_parsed flags_hex F :
  Py.int16 (Py.replace "0x" "" flags_hex) = Some F ->
  get_bit_status flags_hex
  = (<["30" := status_of F 30]> (<["28" := status_of F 28]>
       (<["24" := status_of F 24]> (<["3" := status_of F 3]> ∅))),
     map (row_of F) (seq 0 64)).
Proof.
  intros H. unfold get_bit_status. rewrite H, bit_loop, statuses_64.
  reflexivity.
Qed.

Lemma bit_of_01 F i : bit_of F i = 0 \/ bit_of F i = 1.
Proof.
  unfold bit_of. change 1 with (Z.ones 1) at 1 2. rewrite Z.land_ones by lia.
  change (2 ^ 1) with 2. change (Z.ones 1) with 1.
  pose proof (Z.mod_pos_bound (Z.shiftr F (Z.of_nat i)) 2). lia.
Qed.

Lemma bit_of_testbit F i : bit_of F i = 1 <-> Z.testbit F (Z.of_nat i) = true.
Proof.
  unfold bit_of. change 1 with (Z.ones 1) at 1. rewrite Z.land_ones by lia.
  change (2 ^ 1) with 2. rewrite Z.testbit_odd, Zmod_odd.
  destruct (Z.odd (Z.shiftr F (Z.of_nat i))); split; congruence.
Qed.

Lemma status_of_on F i : status_of F i = "ON" <-> bit_of F i = 1.
Proof.
  unfold status_of. destruct (bit_of_01 F i) as [-> | ->]; cbn; split;
    congruence.
Qed.

Lemma status_of_on_off F i :
  status_of F i = on_off (bit_of F i =? 1).
Proof.
  unfold status_of. destruct (bit_of_01 F i) as [-> | ->]; reflexivity.
Qed.

Lemma row_label i : Description (row_of 0 i) = spec_label i.
Proof.
  unfold row_of, spec_label, specific_bits_map; cbn [Description].
  destruct (Nat.eqb_spec i 3) as [-> | H3]; [reflexivity|].
  destruct (Nat.eqb_spec i 24) as [-> | H24]; [reflexivity|].
  destruct (Nat.eqb_spec i 28) as [-> | H28]; [reflexivity|].
  destruct (Nat.eqb_spec i 30) as [-> | H30]; [reflexivity|].
  rewrite !lookup_insert_ne by congruence. reflexivity.
Qed.

Lemma lookup_statuses (a b c d : string) :
  let m : gmap string string :=
    <["30" := a]> (<["28" := b]> (<["24" := c]> (<["3" := d]> ∅))) in
  m !! "3" = Some d /\ m !! "24" = Some c /\ m !! "28" = Some b
  /\ m !! "30" = Some a.
Proof. cbv zeta. repeat split; by simplify_map_eq. Qed.

(** C1: on the mapping the decoder produces for flags that parse, the
    heart-rate mode is the decision table of the specification applied to
    bits 3, 28 and 30 of the flags: ON, OFF, OFF is "Polar Strap"; ON, ON,
    OFF is "Integrated HR"; ON, OFF, ON is "Bluetooth HR"; the five other
    combinations are "Unknown/Custom".  And on any two mappings with the same
    entries under "3", "28" and "30" the mode is the same. *)
Theorem hr_mode_decision_table (flags_hex : string) (F : Z) :
  Py.int16 (Py.replace "0x" "" flags_hex) = Some F ->
  get_current_hr_mode (fst (get_bit_status flags_hex))
  = spec_hr_mode (bit_of F 3 =? 1) (bit_of F 28 =? 1) (bit_of F 30 =? 1)
  /\ forall bs bs' : gmap string string,
       bs !! "3" = bs' !! "3" -> bs !! "28" = bs' !! "28" ->
       bs !! "30" = bs' !! "30" ->
       get_current_hr_mode bs = get_current_hr_mode bs'.
Proof.
  intros H. split.
  - rewrite (get_bit_status_parsed _ _ H). cbn [fst].
    unfold get_current_hr_mode.
    destruct (lookup_statuses (status_of F 30) (status_of F 28)
                (status_of F 24) (status_of F 3)) as (-> & _ & -> & ->).
    rewrite !status_of_on_off.
    destruct (bit_of F 3 =? 1), (bit_of F 28 =? 1), (bit_of F 30 =? 1);
      reflexivity.
  - intros bs bs' H3 H28 H30. unfold get_current_hr_mode.
    now rewrite H3, H28, H30.
Qed.

Lemma hr_mode_decision_table_witness :
  Py.int16 (Py.replace "0x" "" "0x10000008") = Some 268435464
  /\ get_current_hr_mode (fst (get_bit_status "0x10000008")) = "Integrated HR".
Proof.
  split; [reflexivity|].
  exact (proj1 (hr_mode_decision_table "0x10000008" 268435464 eq_refl)).
Defined.

(** C2: for flags that parse to the integer [flags], the decoder returns a
    table of exactly 64 rows, row [i] carrying the index [i], the status ON
    exactly when [(flags >> i) & 1 == 1] and OFF otherwise, and the label of
    the specification (the four fixed labels at 3, 24, 28 and 30, "Bit N"
    elsewhere); and a named subset whose keys are exactly "3", "24", "28" and
    "30", with the statuses of those rows. *)
Theorem get_bit_status_table (flags_hex : string) (flags : Z) :
  Py.int16 (Py.replace "0x" "" flags_hex) = Some flags ->
  length (snd (get_bit_status flags_hex)) = 64%nat
  /\ (forall i, (i < 64)%nat ->
        snd (get_bit_status flags_hex) !! i
        = Some {| Bit := i; Status := on_off (bit_of flags i =? 1);
                  Description := spec_label i |})
  /\ dom (fst (get_bit_status flags_hex))
     = ({["3"]} ∪ {["24"]} ∪ {["28"]} ∪ {["30"]} : gset string)
  /\ (forall i, i ∈ [3; 24; 28; 30]%nat ->
        fst (get_bit_status flags_hex) !! Py.str i
        = Some (on_off (bit_of flags i =? 1))).
Proof.
  intros H. rewrite (get_bit_status_parsed _ _ H). cbn [fst snd].
  split; [|split; [|split]].
  - now rewrite length_map, length_seq.
  - intros i Hi. rewrite list_lookup_fmap, lookup_seq_lt by assumption.
    cbn. unfold row_of. f_equal. f_equal.
    + apply status_of_on_off.
    + apply (row_label i).
  - rewrite !dom_insert_L, dom_empty_L. set_solver.
  - intros i Hi.
    destruct (lookup_statuses (status_of flags 30) (status_of flags 28)
                (status_of flags 24) (status_of flags 3)) as (H3 & H24 & H28 & H30).
    rewrite <- status_of_on_off.
    repeat (apply elem_of_cons in Hi as [-> | Hi]); [assumption..|].
    by apply elem_of_nil in Hi.
Qed.

Lemma get_bit_status_table_witness :
  Py.int16 (Py.replace "0x" "" "0x40000008") = Some 1073741832
  /\ fst (get_bit_status "0x40000008") !! "30" = Some "ON".
Proof.
  split; [reflexivity|].
  exact (proj2 (proj2 (proj2
           (get_bit_status_table "0x40000008" 1073741832 eq_refl)))
           30%nat ltac:(set_solver)).
Defined.

(** C9: for every flags value [F] (of 64 bits or of any size) that the flags
    text parses to, the named subset the decoder returns is the one derived
    again from the table it returns, and is the one computed from [F] bit by
    bit as [(F >> i) & 1]; so is the table at indices 3, 24, 28 and 30. *)
Theorem named_subset_agrees (flags_hex : string) (F : Z) :
  Py.int16 (Py.replace "0x" "" flags_hex) = Some F ->
  fst (get_bit_status flags_hex) = subset_of_table (snd (get_bit_status flags_hex))
  /\ fst (get_bit_status flags_hex) = subset_of_flags F
  /\ forall i, i ∈ named_indices ->
       Status <$> snd (get_bit_status flags_hex) !! i
       = Some (on_off (bit_of F i =? 1)).
Proof.
  intros H. rewrite (get_bit_status_parsed _ _ H). cbn [fst snd].
  split; [|split].
  - reflexivity.
  - unfold subset_of_flags. cbn [fold_left named_indices].
    now rewrite <- !status_of_on_off.
  - intros i Hi. rewrite <- status_of_on_off.
    unfold named_indices in Hi.
    repeat (apply elem_of_cons in Hi as [-> | Hi]); [reflexivity..|].
    by apply elem_of_nil in Hi.
Qed.

Lemma named_subset_agrees_witness :
  Py.int16 (Py.replace "0x" "" "0xFFFFFFFFFFFFFFFF") = Some (2 ^ 64 - 1)
  /\ fst (get_bit_status "0xFFFFFFFFFFFFFFFF") = subset_of_flags (2 ^ 64 - 1).
Proof.
  split; [reflexivity|].
  exact (proj1 (proj2
           (named_subset_agrees "0xFFFFFFFFFFFFFFFF" (2 ^ 64 - 1) eq_refl))).
Defined.

(** ** Setting the heart-rate mode *)

Lemma exec_bind {A B} (t : tool) (p : prog A) (f : A -> prog B) done :
  exec t done (bind p f)
  = let '(a, done') := exec t done p in exec t done' (f a).
Proof.
  revert done. induction p as [a | exe_path args k IH]; intros done.
  - reflexivity.
  - cbn [bind exec]. apply IH.
Qed.

Lemma exec_run_commands (t : tool) commands :
  forall done output_log,
  exists cs,
    exec t done (run_commands commands output_log)
    = (output_log ++ map log_entry cs, done ++ cs)
    /\ map (fun c => (c_exe c, c_args c)) cs = commands.
Proof.
  induction commands as [|[exe args] rest IH]; intros done output_log.
  - exists []. cbn. now rewrite !app_nil_r.
  - cbn [run_commands run_command bind exec].
    set (r := t done exe args).
    set (c := {| c_exe := exe; c_args := args; c_answer := r |}).
    destruct (IH (done ++ [c])
                (output_log ++ [log_entry c])) as (cs & Hexec & Hcs).
    exists (c :: cs). split.
    + transitivity
        (exec t (done ++ [c]) (run_commands rest (output_log ++ [log_entry c]))).
      * f_equal. subst c. unfold log_entry. cbn [c_answer c_args].
        clearbody r. now destruct r as [[success stdout] stderr].
      * rewrite Hexec. cbn [map]. now rewrite <- !app_assoc.
    + cbn [map]. now rewrite Hcs.
Qed.

(** C7, as the code has it: for each of the three modes and whatever the
    tool answers, the commands of the mode are all run, in the listed order,
    a failure or not; the log returned has one entry for each, SUCCESS or
    ERROR, between the heading and the closing line; nothing is undone. *)
Theorem set_hr_mode_runs_every_command
    (t : tool) (exe_path mode : string) (commands : list (string * list string)) :
  hr_commands exe_path mode = Some commands ->
  map (fun c => (c_exe c, c_args c)) (calls t (set_hr_mode exe_path mode))
  = commands
  /\ length (calls t (set_hr_mode exe_path mode)) = 3%nat
  /\ result t (set_hr_mode exe_path mode)
     = Py.join nl
         (["--- Setting HR Mode to: " +:+ mode +:+ " ---"]
          ++ map log_entry (calls t (set_hr_mode exe_path mode))
          ++ ["--- HR Mode setting complete. ---"]).
Proof.
  intros Hc. unfold calls, result, set_hr_mode. rewrite Hc, exec_bind.
  destruct (exec_run_commands t commands []
              ["--- Setting HR Mode to: " +:+ mode +:+ " ---"])
    as (cs & -> & Hcs).
  cbn [exec fst snd app]. split; [assumption|]. split.
  - rewrite <- (length_map (fun c => (c_exe c, c_args c))), Hcs.
    unfold hr_commands in Hc.
    repeat (destruct (String.eqb mode _); [injection Hc as <-; reflexivity|]).
    discriminate.
  - reflexivity.
Qed.

Lemma set_hr_mode_runs_every_command_witness :
  hr_commands "ConfigDevices.exe" "Polar Strap"
  = Some [("ConfigDevices.exe", ["-ds"; "3"]);
          ("ConfigDevices.exe", ["-dc"; "28"]);
          ("ConfigDevices.exe", ["-dc"; "30"])]
  /\ length (calls always_fails (set_hr_mode "ConfigDevices.exe" "Polar Strap"))
     = 3%nat.
Proof.
  split; [reflexivity|].
  exact (proj1 (proj2
           (set_hr_mode_runs_every_command always_fails "ConfigDevices.exe"
              "Polar Strap" _ eq_refl))).
Defined.

(** C7, as the specification has it, fails: when the first command fails,
    the two others are run all the same. *)
Lemma set_hr_mode_goes_on_after_failure :
  let cs := calls always_fails (set_hr_mode "ConfigDevices.exe" "Polar Strap") in
  (failed <$> cs !! 0%nat) = Some true
  /\ map c_args cs = [["-ds"; "3"]; ["-dc"; "28"]; ["-dc"; "30"]]
  /\ ~ aborted_at_first_failure cs.
Proof.
  cbv zeta. split; [reflexivity|]. split; [reflexivity|].
  intros H. specialize (H 0%nat _ eq_refl eq_refl). discriminate H.
Qed.

(** ** The 6.5 GHz configuration *)

Lemma digit_code c :
  Py.isdigit c = true -> 0 <= Z.of_N (Py.code c) - 48 <= 9.
Proof.
  unfold Py.isdigit, Py.in_range.
  intros [H1 H2]%andb_true_iff.
  apply N.leb_le in H1, H2. lia.
Qed.

Lemma decimal_fold_ge l acc :
  forallb Py.isdigit l = true -> 0 <= acc ->
  acc <= fold_left (fun a c => a * 10 + (Z.of_N (Py.code c) - 48)) l acc.
Proof.
  revert acc. induction l as [|c l IH]; intros acc Hl Hacc; [cbn; lia|].
  cbn [forallb] in Hl. apply andb_true_iff in Hl as [Hc Hl].
  pose proof (digit_code c Hc). cbn [fold_left].
  specialize (IH (acc * 10 + (Z.of_N (Py.code c) - 48)) Hl). lia.
Qed.

Lemma code_inj c d : Py.code c = Py.code d -> c = d.
Proof.
  unfold Py.code. intros H.
  rewrite <- (ascii_N_embedding c), <- (ascii_N_embedding d). now f_equal.
Qed.

(** A numeral without leading zeros whose value is one digit is that
    digit. *)
Lemma canonical_one_digit s (d : ascii) :
  canonical_decimal s = true -> Py.isdigit d = true ->
  decimal_value s = Z.of_N (Py.code d) - 48 -> s = String d EmptyString.
Proof.
  unfold canonical_decimal, all_chars, decimal_value.
  intros [Hall Hlead]%andb_true_iff Hd Hv.
  destruct s as [|c [|c' s']]; [discriminate| |].
  - cbn in Hv. f_equal. apply code_inj. lia.
  - exfalso. cbn [list_ascii_of_string forallb fold_left] in Hall, Hv.
    apply andb_true_iff in Hall as [Hc [Hc' Hs']%andb_true_iff].
    pose proof (digit_code c Hc). pose proof (digit_code c' Hc').
    pose proof (digit_code d Hd).
    assert (Z.of_N (Py.code c) - 48 <> 0).
    { intros E. apply negb_true_iff in Hlead.
      assert (c = "0"%char) as -> by (apply code_inj; cbn; lia).
      discriminate Hlead. }
    pose proof (decimal_fold_ge (list_ascii_of_string s')
                  ((0 * 10 + (Z.of_N (Py.code c) - 48)) * 10
                   + (Z.of_N (Py.code c') - 48)) Hs'). lia.
Qed.

Lemma canonical_value_iff s (d : ascii) :
  canonical_decimal s = true -> Py.isdigit d = true ->
  (decimal_value s =? Z.of_N (Py.code d) - 48) = String.eqb s (String d EmptyString).
Proof.
  intros Hs Hd. destruct (String.eqb_spec s (String d EmptyString)) as [-> | Hne].
  - apply Z.eqb_eq. unfold decimal_value. cbn. lia.
  - apply Z.eqb_neq. intros E. apply Hne. now apply canonical_one_digit.
Qed.

Lemma eqb_pair_false (a b x y : string) :
  ~ (a = x /\ b = y) -> String.eqb a x && String.eqb b y = false.
Proof.
  intros H. destruct (String.eqb_spec a x) as [-> | ?]; [|reflexivity].
  destruct (String.eqb_spec b y) as [-> | ?]; [|reflexivity].
  now destruct H.
Qed.

Lemma config_step_of_line configs line :
  config_step configs line = configs ++ option_list (config_of_line line).
Proof.
  unfold config_step, config_of_line.
  destruct (Re.search ignorecase GSP_PATTERN line); cbn [option_list];
    [reflexivity | now rewrite app_nil_r].
Qed.

Lemma config_loop lines configs :
  fold_left config_step lines configs = configs ++ omap config_of_line lines.
Proof.
  revert configs. induction lines as [|line lines IH]; intros configs.
  - cbn. now rewrite app_nil_r.
  - cbn [fold_left omap list_omap]. rewrite IH, config_step_of_line.
    rewrite <- app_assoc. f_equal.
    now destruct (config_of_line line).
Qed.

(** C3, as the code has it: the classification of a matched line is a
    function of the two codes as texts, compared character by character:
    "9" and "9" is Default, "3" and "3" is Alternative, any other pair is
    Unknown with the two texts as they stand; on codes written without
    leading zeros this is the classification by their values as integers.
    The configurations returned are those of the matched lines, in order. *)
Theorem radio_classification_by_text (line : string) (m : Re.re_match) :
  Re.search ignorecase GSP_PATTERN line = Some m ->
  let tx := Re.get m "tx" in
  let rx := Re.get m "rx" in
  exists cfg,
    config_of_line line = Some cfg
    /\ (forall configs, config_step configs line = configs ++ [cfg])
    /\ r_config_type cfg
       = (if decide (tx = "9" /\ rx = "9") then "Default (tx=9, rx=9)"
          else if decide (tx = "3" /\ rx = "3") then "Alternative (tx=3, rx=3)"
          else "Unknown (tx=" +:+ tx +:+ ", rx=" +:+ rx +:+ ")")
    /\ (canonical_decimal tx = true -> canonical_decimal rx = true ->
        r_config_type cfg = spec_config_type tx rx)
    /\ (forall stdout,
          fst (configs_of_output stdout)
          = omap config_of_line (Py.splitlines stdout)).
Proof.
  intros Hm tx rx. unfold config_of_line. rewrite Hm.
  eexists. split; [reflexivity|]. split; [|split; [|split]].
  - intros configs. rewrite config_step_of_line. unfold config_of_line.
    now rewrite Hm.
  - cbn [r_config_type]. fold tx rx. unfold config_type.
    destruct (decide (tx = "9" /\ rx = "9")) as [[-> ->] | H9];
      [reflexivity|].
    rewrite (eqb_pair_false _ _ _ _ H9).
    destruct (decide (tx = "3" /\ rx = "3")) as [[-> ->] | H3];
      [reflexivity|].
    now rewrite (eqb_pair_false _ _ _ _ H3).
  - intros Htx Hrx. cbn [r_config_type]. fold tx rx.
    unfold config_type, spec_config_type.
    change 9 with (Z.of_N (Py.code "9") - 48).
    change 3 with (Z.of_N (Py.code "3") - 48).
    now rewrite !canonical_value_iff.
  - intros stdout. unfold configs_of_output. cbn [fst].
    now rewrite config_loop.
Qed.

Lemma radio_classification_by_text_witness :
  exists m,
    Re.search ignorecase GSP_PATTERN "ID:0012,ch=5,txCode=3,rxCode=3" = Some m
    /\ exists cfg,
         config_of_line "ID:0012,ch=5,txCode=3,rxCode=3" = Some cfg
         /\ r_config_type cfg = "Alternative (tx=3, rx=3)".
Proof.
  eexists. split; [reflexivity|].
  destruct (radio_classification_by_text "ID:0012,ch=5,txCode=3,rxCode=3" _ eq_refl)
    as (cfg & Hcfg & _ & Hty & _).
  exists cfg. split; [exact Hcfg | exact Hty].
Defined.

(** C3, as the specification has it, fails: a matched line whose two codes
    are 09, the integer 9 both, is classified Unknown, not Default. *)
Lemma radio_09_is_not_default :
  exists m,
    Re.search ignorecase GSP_PATTERN "ID:1,txCode=09,rxCode=09" = Some m
    /\ decimal_value (Re.get m "tx") = 9 /\ decimal_value (Re.get m "rx") = 9
    /\ map r_config_type (fst (configs_of_output "ID:1,txCode=09,rxCode=09"))
       = ["Unknown (tx=09, rx=09)"]
    /\ spec_config_type (Re.get m "tx") (Re.get m "rx") = "Default (tx=9, rx=9)".
Proof. eexists. repeat split; reflexivity. Qed.

(** ** The device scan *)

Lemma device_step_of_line devices error_log line :
  device_step (devices, error_log) line
  = (devices ++ option_list (device_of_line line),
     error_log ++ (if parse_failure line then [failure_note line] else [])).
Proof.
  unfold device_step, device_of_line, parse_failure.
  destruct (Re.search ignorecase SUMMARY_PATTERN line) as [m|].
  - destruct (get_bit_status (Re.get m "flags")) as [bs ab].
    cbn [option_list fst snd]. now rewrite app_nil_r.
  - cbn [option_list]. rewrite app_nil_r.
    now destruct (Py.contains "ID:" line); rewrite ?app_nil_r.
Qed.

Lemma device_loop lines devices error_log :
  fold_left device_step lines (devices, error_log)
  = (devices ++ omap device_of_line lines,
     error_log ++ map failure_note (List.filter parse_failure lines)).
Proof.
  revert devices error_log.
  induction lines as [|line lines IH]; intros devices error_log.
  - cbn. now rewrite !app_nil_r.
  - cbn [fold_left omap list_omap List.filter].
    rewrite device_step_of_line, IH, <- !app_assoc. f_equal.
    + f_equal. now destruct (device_of_line line).
    + f_equal. now destruct (parse_failure line).
Qed.

(** C8, as the code has it: a line the summary pattern does not match is
    recorded as a parse failure exactly when it contains the text "ID:" in
    these very letters, upper case; any other unmatched line leaves the
    devices and the log as they were.  The scan returns the devices of the
    matched lines and the notes of the recorded lines, each in order, the
    notes joined by line feeds; with no device and no note it returns the
    report that no device was found. *)
Theorem unmatched_line_of_scan (line : string) :
  Re.search ignorecase SUMMARY_PATTERN line = None ->
  (forall devices error_log,
     device_step (devices, error_log) line
     = if Py.contains "ID:" line
       then (devices, error_log ++ ["Failed to parse line: " +:+ line])
       else (devices, error_log))
  /\ (forall stdout,
        let lines := Py.splitlines stdout in
        let devices := omap device_of_line lines in
        let notes := map failure_note (List.filter parse_failure lines) in
        devices_of_output stdout
        = match devices, notes with
          | [], [] => ([], "No devices found. Check connection.")
          | _, _ => (devices, Py.join nl notes)
          end)
  /\ device_of_line line = None
  /\ parse_failure line = Py.contains "ID:" line.
Proof.
  intros Hm. split; [|split; [|split]].
  - intros devices error_log. unfold device_step. now rewrite Hm.
  - intros stdout. cbv zeta. unfold devices_of_output.
    now rewrite device_loop.
  - unfold device_of_line. now rewrite Hm.
  - unfold parse_failure. now rewrite Hm.
Qed.

Lemma unmatched_line_of_scan_witness :
  Re.search ignorecase SUMMARY_PATTERN "ID:5 broken" = None
  /\ device_step ([], []) "ID:5 broken"
     = ([], ["Failed to parse line: ID:5 broken"]).
Proof.
  split; [reflexivity|].
  exact (proj1 (unmatched_line_of_scan "ID:5 broken" eq_refl) [] []).
Defined.

(** C8, as the specification has it, fails: a line that the pattern does not
    match and that carries the marker in lower case is not recorded; the
    error text returned with the device of the other line is empty. *)
Lemma lowercase_marker_is_not_recorded :
  let good := "ID:0007,Family=Band/X,usb,Ver 1.0,ok,Flags=0x8" in
  let bad := "id:5 broken" in
  Re.search ignorecase SUMMARY_PATTERN bad = None
  /\ Py.contains "id:" bad = true
  /\ map d_id (fst (devices_of_output (good +:+ nl +:+ bad))) = ["7"]
  /\ snd (devices_of_output (good +:+ nl +:+ bad)) = ""
  /\ snd (devices_of_output (good +:+ nl +:+ "ID:5 broken"))
     = "Failed to parse line: ID:5 broken".
Proof. cbv zeta. repeat split; vm_compute; reflexivity. Qed.

(** ** The sessions *)

Lemma session_step_classify g cur line :
  session_step (g, cur) line
  = match classify line with
    | Header id =>
        Some (match g !! id with None => <[id := []]> g | Some _ => g end,
              Some id)
    | SessionLine s =>
        match cur with
        | Some c =>
            if truthy cur then
              match g !! c with
              | Some group => Some (<[c := group ++ [s]]> g, cur)
              | None => None
              end
            else Some (g, cur)
        | None => Some (g, cur)
        end
    | Other => Some (g, cur)
    end.
Proof.
  unfold session_step, classify.
  destruct (Re.search ignorecase SI_START_PATTERN line); [reflexivity|].
  destruct (Re.search ignorecase SI_SESSION_PATTERN line); [|reflexivity].
  reflexivity.
Qed.

(** The state of the loop after some lines: no [KeyError], and the group of
    every device is what it was, followed by the sessions of the lines. *)
Lemma session_loop_spec lines :
  forall (g : gmap string (list session)) (cur : option string),
  (forall c, cur = Some c -> is_Some (g !! c)) ->
  exists g',
    session_loop lines (g, cur) = Some (g', current_after cur lines)
    /\ forall d,
         g' !! d
         = match g !! d with
           | Some l => Some (l ++ sessions_for d cur lines)
           | None =>
               if bool_decide (d ∈ header_ids lines)
               then Some (sessions_for d cur lines) else None
           end.
Proof.
  induction lines as [|line rest IH]; intros g cur Hinv.
  - exists g. split; [reflexivity|]. intros d. cbn.
    destruct (g !! d); [now rewrite app_nil_r | reflexivity].
  - cbn [session_loop header_ids current_after sessions_for].
    rewrite session_step_classify.
    destruct (classify line) as [id | s |].
    + (* a header line *)
      set (g1 := match g !! id with None => <[id := []]> g | Some _ => g end).
      destruct (IH g1 (Some id)) as (g' & Hloop & Hg').
      { intros c [= <-]. subst g1. destruct (g !! id) eqn:E.
        - rewrite E. eauto.
        - rewrite lookup_insert_eq. eauto. }
      exists g'. split; [exact Hloop|]. intros d. rewrite Hg'. subst g1.
      destruct (decide (d = id)) as [-> | Hne].
      * destruct (g !! id) eqn:E.
        -- now rewrite E.
        -- rewrite lookup_insert_eq. cbn [app].
           rewrite bool_decide_eq_true_2 by (left). reflexivity.
      * assert (E : (match g !! id with
                     | None => <[id := []]> g
                     | Some _ => g
                     end) !! d = g !! d).
        { destruct (g !! id); [reflexivity|]. now rewrite lookup_insert_ne. }
        rewrite E. destruct (g !! d); [reflexivity|].
        assert (Hiff : d ∈ id :: header_ids rest <-> d ∈ header_ids rest).
        { rewrite elem_of_cons. tauto. }
        now rewrite (bool_decide_ext _ _ Hiff).
    + (* a session line *)
      destruct cur as [c|].
      * destruct (truthy (Some c)) eqn:Ht.
        -- destruct (Hinv c eq_refl) as [group Hgroup]. rewrite Hgroup.
           destruct (IH (<[c := group ++ [s]]> g) (Some c)) as (g' & Hloop & Hg').
           { intros c' [= <-]. rewrite lookup_insert_eq. eauto. }
           exists g'. split; [exact Hloop|]. intros d. rewrite Hg'.
           destruct (decide (d = c)) as [-> | Hne].
           ++ rewrite lookup_insert_eq, Hgroup.
              rewrite bool_decide_eq_true_2 by reflexivity.
              cbn [andb]. now rewrite <- app_assoc.
           ++ rewrite lookup_insert_ne by congruence.
              rewrite (bool_decide_eq_false_2 (Some c = Some d)) by congruence.
              rewrite andb_false_r. reflexivity.
        -- destruct (IH g (Some c) Hinv) as (g' & Hloop & Hg').
           exists g'. split; [exact Hloop|]. intros d. now rewrite Hg'.
      * destruct (IH g None Hinv) as (g' & Hloop & Hg').
        exists g'. split; [exact Hloop|]. intros d. now rewrite Hg'.
    + (* any other line *)
      destruct (IH g cur Hinv) as (g' & Hloop & Hg').
      exists g'. split; [exact Hloop|]. intros d. now rewrite Hg'.
Qed.

Lemma sessions_of_output_spec stdout :
  exists groups,
    sessions_of_output stdout = Some (groups, "")
    /\ forall d,
         groups !! d
         = if bool_decide (d ∈ header_ids (Py.splitlines stdout))
           then Some (sessions_for d None (Py.splitlines stdout))
           else None.
Proof.
  destruct (session_loop_spec (Py.splitlines stdout) ∅ None)
    as (g' & Hloop & Hg'); [discriminate|].
  exists g'. unfold sessions_of_output. rewrite Hloop. split; [reflexivity|].
  intros d. rewrite Hg', lookup_empty. reflexivity.
Qed.

Lemma sessions_for_app d l1 : forall cur l2,
  sessions_for d cur (l1 ++ l2)
  = sessions_for d cur l1 ++ sessions_for d (current_after cur l1) l2.
Proof.
  induction l1 as [|line l1 IH]; intros cur l2; [reflexivity|].
  cbn [app sessions_for current_after].
  destruct (classify line); rewrite IH; [reflexivity| |reflexivity].
  now rewrite app_assoc.
Qed.

Lemma header_ids_app l1 l2 :
  header_ids (l1 ++ l2) = header_ids l1 ++ header_ids l2.
Proof.
  induction l1 as [|line l1 IH]; [reflexivity|].
  cbn [app header_ids]. destruct (classify line); rewrite IH; reflexivity.
Qed.

(** While the current id is not active and no header line comes, no record
    is attached to any device, and the current id stays. *)
Lemma sessions_for_inactive d cur seg :
  truthy cur = false -> header_ids seg = [] ->
  sessions_for d cur seg = [] /\ current_after cur seg = cur.
Proof.
  intros Hcur. induction seg as [|line seg IH]; [now split|].
  cbn [header_ids sessions_for current_after].
  destruct (classify line); [discriminate| |]; intros H.
  - rewrite Hcur. cbn [andb app]. now apply IH.
  - now apply IH.
Qed.

Lemma lstrip_all c s :
  all_chars (fun a => Ascii.eqb a c) s = true -> Py.lstrip_char c s = EmptyString.
Proof.
  unfold all_chars. induction s as [|a s IH]; [reflexivity|].
  cbn [list_ascii_of_string forallb Py.lstrip_char].
  intros [-> Hs]%andb_true_iff. now apply IH.
Qed.








(** The example of the specification: two sessions under the id 007. *)
Example session_groups_007 :
  sessions_of_output
    ("Id:007 Total Sessions:2" +:+ nl
     +:+ "Session 1: length=10,Duration=5 secs,createTime X UTC" +:+ nl
     +:+ "Session 2: length=20,Duration=15 secs,createTime Y UTC" +:+ nl)
  = Some
      ({["7" :=
           [{| s_num := "1"; s_length := "10"; s_duration := "5";
               s_time := "X"; s_Select := false |};
            {| s_num := "2"; s_length := "20"; s_duration := "15";
               s_time := "Y"; s_Select := false |}]]},
       "").
Proof. vm_compute. reflexivity. Qed.

(** C10: a header line whose id is made of zeros only sets the current id
    to the empty string and makes the group of the empty string exist; the
    session lines after it, up to the next header line, are attached to no
    group, and the group of the empty string is empty in the result. *)
Theorem zero_id_sessions_dropped
    (stdout line : string) (m : Re.re_match) (pre seg post : list string) :
  Py.splitlines stdout = pre ++ line :: seg ++ post ->
  Re.search ignorecase SI_START_PATTERN line = Some m ->
  all_chars (fun a => Ascii.eqb a "0") (Re.get m "id") = true ->
  header_ids seg = [] ->
  Py.lstrip_char "0" (Re.get m "id") = ""
  /\ classify line = Header ""
  /\ exists groups,
       sessions_of_output stdout = Some (groups, "")
       /\ groups !! "" = Some []
       /\ forall d l,
            groups !! d = Some l ->
            l = sessions_for d None pre ++ sessions_for d (Some "") post.
Proof.
  intros Hlines Hm Hzero Hseg.
  pose proof (lstrip_all _ _ Hzero) as Hid.
  assert (Hk : classify line = Header "").
  { unfold classify. now rewrite Hm, Hid. }
  split; [exact Hid|]. split; [exact Hk|].
  destruct (sessions_of_output_spec stdout) as (groups & Hout & Hg).
  exists groups. split; [exact Hout|].
  assert (Hfor : forall d,
             sessions_for d None (Py.splitlines stdout)
             = sessions_for d None pre ++ sessions_for d (Some "") post).
  { intros d. rewrite Hlines, sessions_for_app. f_equal.
    cbn [sessions_for]. rewrite Hk, sessions_for_app.
    destruct (sessions_for_inactive d (Some "") seg eq_refl Hseg) as [-> ->].
    reflexivity. }
  split.
  - rewrite Hg, bool_decide_eq_true_2.
    + f_equal. clear.
      assert (H : forall lines cur, sessions_for "" cur lines = []).
      { induction lines as [|l lines IH]; intros cur; [reflexivity|].
        cbn [sessions_for]. destruct (classify l); rewrite ?IH; try reflexivity.
        rewrite app_nil_r.
        now destruct cur as [[|a c]|]. }
      apply H.
    + rewrite Hlines, header_ids_app. cbn [header_ids]. rewrite Hk.
      apply elem_of_app. right. left.
  - intros d l. rewrite Hg. case_bool_decide; [|discriminate].
    intros [= <-]. apply Hfor.
Qed.

Lemma zero_id_sessions_dropped_witness :
  let header := "Id:000 Total Sessions:1" in
  let sess := "Session 1: length=10,Duration=5 secs,createTime X UTC" in
  let stdout := header +:+ nl +:+ sess +:+ nl in
  exists m,
    Py.splitlines stdout = [] ++ header :: [sess] ++ []
    /\ Re.search ignorecase SI_START_PATTERN header = Some m
    /\ all_chars (fun a => Ascii.eqb a "0") (Re.get m "id") = true
    /\ header_ids [sess] = []
    /\ exists groups,
         sessions_of_output stdout = Some (groups, "")
         /\ groups !! "" = Some []
         /\ forall d l, groups !! d = Some l -> l = [].
Proof.
  cbv zeta. eexists.
  split; [reflexivity|]. split; [reflexivity|]. split; [reflexivity|].
  split; [reflexivity|].
  exact (proj2 (proj2
    (zero_id_sessions_dropped
       ("Id:000 Total Sessions:1" +:+ nl
        +:+ "Session 1: length=10,Duration=5 secs,createTime X UTC" +:+ nl)
       "Id:000 Total Sessions:1" _ []
       ["Session 1: length=10,Duration=5 secs,createTime X UTC"] []
       eq_refl eq_refl eq_refl eq_refl))).
Defined.

(** ** The orientation analyzer *)

Lemma last_char_cons a s :
  s <> EmptyString -> last_char (String a s) = last_char s.
Proof. destruct s; [congruence | reflexivity]. Qed.

(** [rstrip] leaves no white space at the end. *)
Lemma rstrip_last s c :
  last_char (Py.rstrip s) = Some c -> Py.isspace c = false.
Proof.
  induction s as [|a s IH]; [discriminate|].
  cbn [Py.rstrip]. destruct (Py.rstrip s) as [|b r] eqn:E.
  - destruct (Py.isspace a) eqn:Ha; [discriminate|].
    cbn. now intros [= <-].
  - rewrite last_char_cons by discriminate. exact IH.
Qed.

Lemma strip_last s c :
  last_char (Py.strip s) = Some c -> Py.isspace c = false.
Proof. apply rstrip_last. Qed.

Lemma orientation_char_not_lf a :
  orientation_char a = true -> (Py.code a =? 10)%N = false.
Proof. intros H. by_cases_on_char a H. Qed.

Lemma run_rep_greedy_cons fl p r a s st :
  Re.run fl (Re.Rep p true :: r) (String a s) st
  = if p a then
      match Re.run fl (Re.Rep p true :: r) s (Re.advance a st) with
      | Some st' => Some st'
      | None => Re.run fl r (String a s) st
      end
    else Re.run fl r (String a s) st.
Proof. reflexivity. Qed.

(** After its first character, the orientation pattern goes through a text
    that does not end with a line feed exactly when the text is made of
    the four characters. *)
Lemma run_orientation_tail s : forall st,
  (forall c, last_char s = Some c -> (Py.code c =? 10)%N = false) ->
  is_Some (Re.run no_flags [Re.Rep orientation_char true; Re.Eol] s st)
  <-> all_chars orientation_char s = true.
Proof.
  induction s as [|a s IH]; intros st Hlast.
  - cbn. split; eauto.
  - rewrite run_rep_greedy_cons. unfold all_chars.
    cbn [list_ascii_of_string forallb].
    assert (Heol : orientation_char a = true \/ s = EmptyString ->
                   Re.run no_flags [Re.Eol] (String a s) st = None).
    { intros Ha. cbn [Re.run Re.at_eol]. destruct s as [|b s'].
      - destruct Ha as [Ha | _].
        + now rewrite (orientation_char_not_lf a Ha).
        + now rewrite (Hlast a eq_refl).
      - reflexivity. }
    destruct (orientation_char a) eqn:Ha.
    + rewrite (Heol (or_introl eq_refl)). cbn [andb].
      destruct s as [|b s'] eqn:Hs.
      * cbn. split; eauto.
      * rewrite <- Hs in *.
        assert (Hlast' : forall c, last_char s = Some c ->
                                   (Py.code c =? 10)%N = false).
        { intros c Hc. apply Hlast. rewrite last_char_cons; [exact Hc|].
          subst s. discriminate. }
        specialize (IH (Re.advance a st) Hlast').
        unfold all_chars in IH. rewrite <- IH.
        destruct (Re.run no_flags [Re.Rep orientation_char true; Re.Eol] s
                    (Re.advance a st)); split; intros [x Hx];
          try discriminate; eauto.
    + cbn [andb]. split; [|discriminate].
      intros [x Hx]. exfalso.
      destruct s as [|b s'].
      * rewrite (Heol (or_intror eq_refl)) in Hx. discriminate.
      * cbn in Hx. discriminate.
Qed.

Lemma run_orientation_cons a s :
  Re.run no_flags ORIENTATION_PATTERN (String a s) (Re.start_at 0 None)
  = if orientation_char a
    then Re.run no_flags [Re.Rep orientation_char true; Re.Eol] s
           (Re.advance a (Re.start_at 0 None))
    else None.
Proof. reflexivity. Qed.

Lemma match_orientation line :
  (forall c, last_char line = Some c -> Py.isspace c = false) ->
  is_Some (Re.match_ no_flags ORIENTATION_PATTERN line)
  <-> is_orientation line = true.
Proof.
  intros Hlast. unfold Re.match_, is_orientation.
  destruct line as [|a s].
  - cbn. split; [intros [x Hx]; discriminate | discriminate].
  - rewrite run_orientation_cons.
    unfold all_chars. cbn [list_ascii_of_string forallb String.eqb negb andb].
    destruct (orientation_char a) eqn:Ha; cbn [andb].
    + assert (Hlf : forall c, last_char s = Some c ->
                              (Py.code c =? 10)%N = false).
      { intros c Hc. destruct s as [|b s']; [discriminate|].
        assert (Hsp : Py.isspace c = false).
        { apply Hlast. rewrite last_char_cons; [exact Hc | discriminate]. }
        destruct (Py.code c =? 10)%N eqn:E; [|reflexivity].
        apply N.eqb_eq in E.
        assert (c = ascii_of_N 10) as ->
            by (apply code_inj; rewrite E; reflexivity).
        discriminate Hsp. }
      pose proof (run_orientation_tail s
                    (Re.advance a (Re.start_at 0 None)) Hlf) as Hrun.
      unfold all_chars in Hrun. rewrite <- Hrun.
      destruct (Re.run no_flags [Re.Rep orientation_char true; Re.Eol] s
                  (Re.advance a (Re.start_at 0 None)));
        cbn; split; intros [x Hx]; try discriminate; eauto.
    + cbn. split; [intros [x Hx]; discriminate | discriminate].
Qed.

Lemma stripped_lines_stripped raw_output :
  Forall no_space_at_end (stripped_lines raw_output).
Proof.
  apply Forall_forall. intros line Hin. unfold stripped_lines in Hin.
  apply list_elem_of_filter in Hin as [_ Hin].
  apply list_elem_of_In, in_map_iff in Hin as (y & <- & _).
  intros c. apply strip_last.
Qed.

Lemma first_orientation_filter lines :
  Forall no_space_at_end lines ->
  first_orientation lines = hd EmptyString (List.filter is_orientation lines).
Proof.
  induction 1 as [|line lines Hline _ IH]; [reflexivity|].
  cbn [first_orientation List.filter].
  pose proof (match_orientation line Hline) as Hm.
  destruct (Re.match_ no_flags ORIENTATION_PATTERN line) as [m|].
  - rewrite (proj1 Hm) by eauto. reflexivity.
  - destruct (is_orientation line); [|exact IH].
    destruct (proj2 Hm eq_refl) as [x Hx]. discriminate.
Qed.

Lemma hd_rev_last {A} (d : A) l : hd d (rev l) = List.last l d.
Proof.
  induction l as [|a l IH] using rev_ind; [reflexivity|].
  now rewrite rev_unit, last_last.
Qed.

Lemma first_orientation_rev lines :
  Forall no_space_at_end lines ->
  first_orientation (rev lines) = last_orientation lines.
Proof.
  intros H. unfold last_orientation.
  rewrite first_orientation_filter, List.filter_rev, hd_rev_last; [reflexivity|].
  apply Forall_forall. intros x Hx.
  apply list_elem_of_In, in_rev, list_elem_of_In in Hx.
  revert x Hx. now apply Forall_forall.
Qed.

Lemma last_filter_empty lines :
  last_orientation lines = EmptyString
  <-> Forall (fun l => is_orientation l = false) lines.
Proof.
  unfold last_orientation.
  induction lines as [|line lines IH] using rev_ind.
  - cbn. split; [constructor | reflexivity].
  - rewrite List.filter_app, Forall_app. cbn [List.filter].
    destruct (is_orientation line) eqn:E.
    + rewrite last_last. split.
      * intros ->. discriminate E.
      * intros [_ H]. inversion H; congruence.
    + rewrite app_nil_r, IH. split; [|tauto].
      intros H. split; [exact H|]. now repeat constructor.
Qed.

Lemma stripped_lines_trimmed raw_output :
  stripped_lines raw_output = trimmed_lines raw_output.
Proof.
  unfold stripped_lines, trimmed_lines.
  induction (Py.splitlines raw_output) as [|line rest IH]; [reflexivity|].
  cbn [map flat_map]. rewrite filter_cons, IH.
  destruct (Py.strip line) as [|a s].
  - destruct (decide (EmptyString ≠ EmptyString)) as [n|_];
      [now elim n | reflexivity].
  - destruct (decide (String a s ≠ EmptyString)) as [_|n];
      [reflexivity | exfalso; apply n; discriminate].
Qed.

(** C6: among the non-empty lines of the text, each taken without the white
    space around it, the analyzer selects the last one made only of [+], [r],
    [u] and [.]; with no such line it returns the empty string, no counts and
    the percentage zero; otherwise it returns the line, the count of each of
    the four characters in it, and [count('+') / length * 100] as a float,
    with no division by zero.  On the example of the specification the line
    is "..+uru", the counts are 1, 1, 2, 2 and the percentage prints as
    16.67. *)
Theorem orientation_last_line (raw_output : string) :
  let line := last_orientation (trimmed_lines raw_output) in
  parse_orientation_data raw_output
  = (if String.eqb line EmptyString
     then (EmptyString, ∅, S754_zero false)
     else (line, spec_counts line, spec_percentage line))
  /\ (line = EmptyString
      <-> Forall (fun l => is_orientation l = false)
            (trimmed_lines raw_output))
  /\ (let r :=
        parse_orientation_data
          ("garbage" +:+ nl +:+ "+++ru" +:+ nl +:+ "..+uru" +:+ nl) in
      fst (fst r) = "..+uru"
      /\ snd (fst r) !! "Okay (+)" = Some 1%nat
      /\ snd (fst r) !! "Reversed (r)" = Some 1%nat
      /\ snd (fst r) !! "Upside Down (u)" = Some 2%nat
      /\ snd (fst r) !! "Flat (.)" = Some 2%nat
      /\ size (snd (fst r)) = 4%nat
      /\ snd r = S754_finite false 4691249611844266 (-48)
      /\ F64.format_f 2 (snd r) = "16.67").
Proof.
  cbv zeta. rewrite <- stripped_lines_trimmed. split; [|split].
  - unfold parse_orientation_data.
    rewrite (first_orientation_rev _ (stripped_lines_stripped raw_output)).
    destruct (last_orientation (stripped_lines raw_output)) as [|a s] eqn:E;
      [reflexivity|].
    cbn [String.eqb String.length Nat.ltb Nat.leb].
    unfold F64.int_truediv.
    replace (Z.of_nat (S (String.length s)) =? 0) with false
      by (symmetry; apply Z.eqb_neq; lia).
    reflexivity.
  - apply last_filter_empty.
  - repeat (split; [vm_compute; reflexivity|]). vm_compute; reflexivity.
Qed.

(** C6, as the specification words it, fails on a line of readings with
    blanks around it: the text has the lines "+++" and " +r ", of which the
    first only is made of the four characters, and the analyzer returns
    "+r", which is no line of the text. *)
Lemma orientation_line_is_trimmed :
  Py.splitlines padded_example = ["+++"; " +r "]
  /\ last_plain_line padded_example = "+++"
  /\ fst (fst (parse_orientation_data padded_example)) = "+r"
  /\ ~ In "+r" (Py.splitlines padded_example).
Proof.
  split; [vm_compute; reflexivity|]. split; [vm_compute; reflexivity|].
  split; [vm_compute; reflexivity|].
  assert (H : Py.splitlines padded_example = ["+++"; " +r "])
    by (vm_compute; reflexivity).
  rewrite H. intros [E | [E | []]]; discriminate E.
Qed.

(** ** The battery analyzer *)

Lemma point_of_match_fields m p :
  point_of_match m = inr p ->
  float_of (Re.get m "time_s") = inr (p_time p)
  /\ float_of (Re.get m "percent") = inr (p_percent p).
Proof.
  unfold point_of_match.
  destruct (float_of (Re.get m "time_s")) as [e|t]; [discriminate|].
  destruct (float_of (Re.get m "voltage")) as [e|v]; [discriminate|].
  destruct (float_of (Re.get m "percent")) as [e|q]; [discriminate|].
  now intros [= <-].
Qed.

Lemma points_of_matches_cons m ms pts :
  points_of_matches (m :: ms) = inr pts ->
  exists p ps,
    pts = p :: ps /\ point_of_match m = inr p
    /\ points_of_matches ms = inr ps.
Proof.
  cbn [points_of_matches].
  destruct (point_of_match m) as [e|p]; [discriminate|].
  destruct (points_of_matches ms) as [e|ps]; [discriminate|].
  intros [= <-]. eauto.
Qed.

Lemma points_of_matches_nil pts :
  points_of_matches [] = inr pts -> pts = [].
Proof. now intros [= <-]. Qed.

Lemma points_of_matches_last ms : forall pts m0 p0,
  points_of_matches ms = inr pts -> point_of_match m0 = inr p0 ->
  point_of_match (List.last ms m0) = inr (List.last pts p0).
Proof.
  induction ms as [|m ms IH]; intros pts m0 p0 Hpts H0.
  - apply points_of_matches_nil in Hpts as ->. exact H0.
  - apply points_of_matches_cons in Hpts as (p & ps & -> & Hp & Hps).
    destruct ms as [|m' ms'].
    + apply points_of_matches_nil in Hps as ->. exact Hp.
    + pose proof Hps as Hps'.
      apply points_of_matches_cons in Hps' as (p' & ps' & -> & _ & _).
      change (List.last (m :: m' :: ms') m0) with (List.last (m' :: ms') m0).
      change (List.last (p :: p' :: ps') p0) with (List.last (p' :: ps') p0).
      now apply IH.
Qed.





(** A rise of the percentage is a negative drop, printed with its sign. *)
Example battery_charging :
  fst (parse_debug_data charging_example)
  = {| first_reading := "20%"; last_reading := "50%";
       time_elapsed_str := "01:59"; percent_drop := "-30%"; error := None |}.
Proof. vm_compute. reflexivity. Qed.

(** ** Every flags value has a text *)

Lemma hex_char_digit d :
  0 <= d < 16 ->
  Py.ishex (hex_char d) = true /\ Py.digit_value (hex_char d) = Some d.
Proof.
  intros Hd.
  assert (Hall : forallb
                   (fun k =>
                      Py.ishex (hex_char (Z.of_nat k))
                      && match Py.digit_value (hex_char (Z.of_nat k)) with
                         | Some v => v =? Z.of_nat k
                         | None => false
                         end)
                   (seq 0 16) = true) by (vm_compute; reflexivity).
  rewrite forallb_forall in Hall.
  assert (Hin : In (Z.to_nat d) (seq 0 16)) by (apply in_seq; lia).
  specialize (Hall _ Hin). rewrite Z2Nat.id in Hall by lia.
  apply andb_true_iff in Hall as [Hhex Hval].
  split; [exact Hhex|].
  destruct (Py.digit_value (hex_char d)) as [v|]; [|discriminate].
  apply Z.eqb_eq in Hval. now subst v.
Qed.

Lemma list_ascii_of_string_app s t :
  list_ascii_of_string (s +:+ t)
  = list_ascii_of_string s ++ list_ascii_of_string t.
Proof.
  induction s as [|c s IH]; [reflexivity|].
  simpl. f_equal. exact IH.
Qed.

(** Every non-negative integer is the value of a string of hexadecimal
    digits, so the decoder can be given any flags value. *)
Lemma hex_digits_exist F :
  0 <= F ->
  exists ds,
    ds <> EmptyString /\ all_chars Py.ishex ds = true /\ hex_value ds = F.
Proof.
  revert F. apply (Wf_Z.Zlt_0_ind
    (fun F => exists ds,
       ds <> EmptyString /\ all_chars Py.ishex ds = true /\ hex_value ds = F)).
  intros F IH HF.
  destruct (Z_lt_le_dec F 16) as [Hsmall | Hbig].
  - destruct (hex_char_digit F ltac:(lia)) as [Hhex Hval].
    exists (String (hex_char F) EmptyString). split; [discriminate|]. split.
    + unfold all_chars. cbn. now rewrite Hhex.
    + unfold hex_value. cbn. rewrite Hval. cbn. lia.
  - assert (Hq : 0 <= F / 16 < F).
    { split; [apply Z.div_pos; lia|]. apply Z.div_lt; lia. }
    destruct (IH _ Hq) as (ds & Hne & Hall & Hv).
    pose proof (Z.mod_pos_bound F 16 ltac:(lia)) as Hr.
    destruct (hex_char_digit (F mod 16) Hr) as [Hhex Hval].
    exists (ds +:+ String (hex_char (F mod 16)) EmptyString).
    split; [|split].
    + destruct ds; [congruence | discriminate].
    + unfold all_chars in *. rewrite list_ascii_of_string_app, forallb_app.
      rewrite Hall. cbn. now rewrite Hhex.
    + unfold hex_value in *.
      rewrite list_ascii_of_string_app, fold_left_app, Hv. cbn.
      rewrite Hval. cbn. pose proof (Z.div_mod F 16 ltac:(lia)). lia.
Qed.

Lemma every_flags_value_has_text F :
  0 <= F ->
  exists flags_hex, Py.int16 (Py.replace "0x" "" flags_hex) = Some F.
Proof.
  intros HF. destruct (hex_digits_exist F HF) as (ds & Hne & Hall & <-).
  exists (String "0" (String "x" ds)).
  apply int16_flags_literal; auto.
Qed.

(** * Further properties of the code *)

(** ** The ways through a pattern *)

Lemma append_cons a (s t : string) : String a s +:+ t = String a (s +:+ t).
Proof. reflexivity. Qed.

Lemma append_nil_r (s : string) : s +:+ EmptyString = s.
Proof.
  induction s as [|a s IH]; [reflexivity|]. now rewrite append_cons, IH.
Qed.

Lemma append_assoc (s t u : string) : (s +:+ t) +:+ u = s +:+ (t +:+ u).
Proof.
  induction s as [|a s IH]; [reflexivity|]. now rewrite !append_cons, IH.
Qed.

Lemma length_append (s t : string) :
  String.length (s +:+ t) = (String.length s + String.length t)%nat.
Proof.
  induction s as [|a s IH]; [reflexivity|].
  rewrite append_cons. cbn [String.length Nat.add]. now rewrite IH.
Qed.

Lemma all_chars_app p s t :
  all_chars p (s +:+ t) = all_chars p s && all_chars p t.
Proof.
  unfold all_chars. now rewrite list_ascii_of_string_app, forallb_app.
Qed.

Lemma all_chars_cons p a s :
  all_chars p (String a s) = p a && all_chars p s.
Proof. reflexivity. Qed.

Lemma substring_middle (x y z : string) :
  String.substring (String.length x) (String.length y) (x +:+ y +:+ z) = y.
Proof.
  induction x as [|a x IH]; [|exact IH].
  change (EmptyString +:+ y +:+ z) with (y +:+ z).
  cbn [String.length].
  induction y as [|b y IHy].
  - now destruct z.
  - rewrite append_cons. cbn [String.length String.substring].
    now rewrite IHy.
Qed.

Lemma advance_all_pos w : forall st,
  Re.pos (advance_all w st) = (Re.pos st + String.length w)%nat.
Proof.
  induction w as [|a w IH]; intros st; cbn [advance_all String.length]; [lia|].
  rewrite IH. cbn. lia.
Qed.

Lemma advance_all_groups w : forall st,
  Re.opened (advance_all w st) = Re.opened st
  /\ Re.closed (advance_all w st) = Re.closed st.
Proof.
  induction w as [|a w IH]; intros st; cbn [advance_all]; [now split|].
  destruct (IH (Re.advance a st)) as [-> ->]. now split.
Qed.

Lemma run_rep_lazy_unfold fl p r s st :
  Re.run fl (Re.Rep p false :: r) s st
  = match Re.run fl r s st with
    | Some st' => Some st'
    | None =>
        match s with
        | String a s' =>
            if p a then Re.run fl (Re.Rep p false :: r) s' (Re.advance a st)
            else None
        | EmptyString => None
        end
    end.
Proof. destruct s; reflexivity. Qed.

(** A repetition consumes some characters of its class, then the rest of
    the pattern goes on. *)
Lemma run_rep_inv fl p greedy r s : forall st st',
  Re.run fl (Re.Rep p greedy :: r) s st = Some st' ->
  exists u s',
    s = u +:+ s' /\ all_chars p u = true
    /\ Re.run fl r s' (advance_all u st) = Some st'.
Proof.
  destruct greedy.
  - induction s as [|a s IH]; intros st st' H.
    + exists EmptyString, EmptyString. repeat split. exact H.
    + rewrite run_rep_greedy_cons in H.
      assert (Hstay : Re.run fl r (String a s) st = Some st' ->
                      exists u s', String a s = u +:+ s'
                        /\ all_chars p u = true
                        /\ Re.run fl r s' (advance_all u st) = Some st').
      { intros Hr. exists EmptyString, (String a s). repeat split. exact Hr. }
      destruct (p a) eqn:Hpa; [|now apply Hstay].
      destruct (Re.run fl (Re.Rep p true :: r) s (Re.advance a st))
        as [st1|] eqn:Hrep; [|now apply Hstay].
      injection H as <-.
      destruct (IH _ _ Hrep) as (u & s' & -> & Hu & Hrun).
      exists (String a u), s'. repeat split; [|exact Hrun].
      rewrite all_chars_cons, Hpa, Hu. reflexivity.
  - induction s as [|a s IH]; intros st st' H;
      rewrite run_rep_lazy_unfold in H;
      destruct (Re.run fl r _ st) as [st1|] eqn:Hr.
    + injection H as <-. exists EmptyString, EmptyString. now repeat split.
    + discriminate.
    + injection H as <-. exists EmptyString, (String a s). now repeat split.
    + destruct (p a) eqn:Hpa; [|discriminate].
      destruct (IH _ _ H) as (u & s' & -> & Hu & Hrun).
      exists (String a u), s'. repeat split; [|exact Hrun].
      rewrite all_chars_cons, Hpa, Hu. reflexivity.
Qed.

(** One item consumes what fits it, then the rest of the pattern goes on. *)
Lemma run_item_inv fl i r s st st' :
  Re.run fl (i :: r) s st = Some st' ->
  exists u s',
    s = u +:+ s' /\ item_fits fl i u
    /\ Re.run fl r s' (after_item i u st) = Some st'.
Proof.
  destruct i as [c | p | p greedy | g | g | |]; intros H.
  - destruct s as [|a s]; [discriminate|]. cbn [Re.run] in H.
    destruct (Re.lit_eq fl c a) eqn:E; [|discriminate].
    exists (String a EmptyString), s. repeat split; [|exact H].
    exists a. now split.
  - destruct s as [|a s]; [discriminate|]. cbn [Re.run] in H.
    destruct (p a) eqn:E; [|discriminate].
    exists (String a EmptyString), s. repeat split; [|exact H].
    exists a. now split.
  - apply run_rep_inv in H as (u & s' & -> & Hu & Hrun).
    exists u, s'. now repeat split.
  - exists EmptyString, s. now repeat split.
  - exists EmptyString, s. now repeat split.
  - cbn [Re.run] in H. destruct (Re.at_bol fl st); [|discriminate].
    exists EmptyString, s. now repeat split.
  - cbn [Re.run] in H. destruct (Re.at_eol fl s); [|discriminate].
    exists EmptyString, s. now repeat split.
Qed.

Lemma after_item_pos fl i u st :
  item_fits fl i u ->
  Re.pos (after_item i u st) = (Re.pos st + String.length u)%nat.
Proof.
  destruct i; cbn [item_fits after_item]; intros H;
    try apply advance_all_pos; subst u; cbn; lia.
Qed.

Lemma after_item_plain i u st :
  plain_item i = true ->
  Re.opened (after_item i u st) = Re.opened st
  /\ Re.closed (after_item i u st) = Re.closed st.
Proof.
  destruct i; cbn [plain_item after_item]; intros H;
    try discriminate; apply advance_all_groups.
Qed.

(** A pattern in two parts: the first part consumes what fits it and moves
    the position by as much; without group marks it leaves the groups as
    they are; then the second part goes on. *)
Lemma run_split fl r1 : forall r2 s st st',
  Re.run fl (r1 ++ r2) s st = Some st' ->
  exists w s1 st1,
    s = w +:+ s1 /\ fits fl r1 w
    /\ Re.pos st1 = (Re.pos st + String.length w)%nat
    /\ (plain r1 = true ->
        Re.opened st1 = Re.opened st /\ Re.closed st1 = Re.closed st)
    /\ Re.run fl r2 s1 st1 = Some st'.
Proof.
  induction r1 as [|i r1 IH]; intros r2 s st st' H.
  - exists EmptyString, s, st. cbn. repeat split; [lia | exact H].
  - cbn [app] in H. apply run_item_inv in H as (u & s' & -> & Hu & Hrun).
    apply IH in Hrun as (w & s1 & st1 & -> & Hw & Hpos & Hplain & Hrun).
    exists (u +:+ w), s1, st1. split; [now rewrite append_assoc|].
    split; [cbn [fits]; eauto|]. split.
    + rewrite Hpos, (after_item_pos fl i u st Hu), length_append. lia.
    + split; [|exact Hrun]. cbn [plain forallb].
      intros [Hi Hr]%andb_true_iff.
      destruct (Hplain Hr) as [-> ->]. now apply after_item_plain.
Qed.

(** A run only adds spans, and only of the groups the pattern closes. *)
Lemma run_closed fl r : forall s st st',
  Re.run fl r s st = Some st' ->
  exists new,
    Re.closed st' = new ++ Re.closed st
    /\ forall k v, In (k, v) new -> In k (closes r).
Proof.
  induction r as [|i r IH]; intros s st st' H.
  - injection H as <-. exists []. split; [reflexivity | contradiction].
  - apply run_item_inv in H as (u & s' & -> & Hu & Hrun).
    apply IH in Hrun as (new & Hnew & Hkeys).
    destruct i as [c | p | p greedy | g | g | |];
      cbn [after_item closes] in *;
      try (exists new; split; [|exact Hkeys];
           rewrite Hnew; try reflexivity;
           now destruct (advance_all_groups u st) as [_ ->]).
    exists (new ++ [(g, (default (Re.pos st) (Re.assoc g (Re.opened st)),
                         Re.pos st))]).
    split.
    + rewrite Hnew. cbn [Re.close_group Re.closed]. now rewrite <- app_assoc.
    + intros k v [Hin | [[= <- _] | []]]%in_app_or; [right; eauto | now left].
Qed.

Lemma assoc_after {A} g (v : A) new rest :
  (forall k v', In (k, v') new -> k <> g) ->
  Re.assoc g (new ++ (g, v) :: rest) = Some v.
Proof.
  induction new as [|[k v'] new IH]; intros Hnew.
  - cbn. now rewrite String.eqb_refl.
  - cbn [app Re.assoc].
    destruct (String.eqb_spec k g) as [-> | _].
    + now destruct (Hnew g v' (or_introl eq_refl)).
    + apply IH. intros k' v'' Hin. apply (Hnew k' v''). now right.
Qed.

Lemma group_unfold g b (r2 : Re.regex) :
  Re.group g b ++ r2 = Re.Open g :: b ++ Re.Close g :: r2.
Proof. unfold Re.group. cbn [app]. now rewrite <- app_assoc. Qed.

(** The text of a named group: when a pattern holding the group [g], with
    the body [b], goes through the text from some position, [m.group(g)] is
    a text that fits [b]. *)
Lemma group_span fl r1 g b r2 text u s st st' p :
  text = u +:+ s -> Re.pos st = String.length u ->
  plain b = true -> ~ In g (closes r2) ->
  Re.run fl (r1 ++ Re.group g b ++ r2) s st = Some st' ->
  fits fl b (Re.get (Re.mk_match text p st') g).
Proof.
  intros Htext Hpos Hplain Hg H.
  apply run_split in H as (w1 & s1 & st1 & -> & _ & Hpos1 & _ & H).
  rewrite group_unfold in H. cbn [Re.run] in H.
  apply run_split in H as (w & s2 & st2 & -> & Hw & Hpos2 & Hgroups & H).
  destruct (Hgroups Hplain) as [Hopened Hclosed].
  cbn [Re.run] in H.
  apply run_closed in H as (new & Hnew & Hkeys).
  unfold Re.get. cbn [Re.mk_match Re.m_spans Re.m_string].
  rewrite Hnew. cbn [Re.close_group Re.closed].
  rewrite Hopened. cbn [Re.open_group Re.opened Re.assoc].
  rewrite String.eqb_refl. cbn [default].
  rewrite assoc_after.
  - rewrite Hpos2. cbn [Re.open_group Re.pos]. unfold id.
    rewrite Hpos1, Hpos, <- length_append.
    replace (String.length (u +:+ w1) + String.length w
             - String.length (u +:+ w1))%nat
      with (String.length w) by lia.
    now rewrite Htext, <- append_assoc, substring_middle.
  - intros k v Hin ->. apply Hg. eauto.
Qed.

(** A search that succeeds is a run from some position of the text. *)
Lemma search_go_inv fl r text : forall s p before m u,
  text = u +:+ s -> p = String.length u ->
  Re.search_go fl r text s p before = Some m ->
  exists u' s' before' st',
    text = u' +:+ s'
    /\ Re.run fl r s' (Re.start_at (String.length u') before') = Some st'
    /\ m = Re.mk_match text (String.length u') st'.
Proof.
  induction s as [|a s IH]; intros p before m u Htext -> H;
    cbn [Re.search_go] in H;
    destruct (Re.run fl r _ (Re.start_at (String.length u) before))
      as [st'|] eqn:Hrun.
  - injection H as <-. eauto 8.
  - discriminate.
  - injection H as <-. eauto 8.
  - apply (IH _ _ _ (u +:+ String a EmptyString)) in H; [exact H | |].
    + now rewrite append_assoc.
    + rewrite length_append. cbn. lia.
Qed.

Lemma search_group fl r1 g b r2 text m :
  plain b = true -> ~ In g (closes r2) ->
  Re.search fl (r1 ++ Re.group g b ++ r2) text = Some m ->
  fits fl b (Re.get m g).
Proof.
  intros Hplain Hg H.
  apply (search_go_inv _ _ _ _ _ _ _ EmptyString eq_refl eq_refl) in H
    as (u & s & before & st' & Htext & Hrun & ->).
  exact (group_span fl r1 g b r2 text u s
           (Re.start_at (String.length u) before) st' _
           Htext eq_refl Hplain Hg Hrun).
Qed.

(** So is each match of [finditer]. *)
Lemma finditer_go_inv fl r text m : forall s p before skip u,
  text = u +:+ s -> p = String.length u ->
  In m (Re.finditer_go fl r text s p before skip) ->
  exists u' s' before' st',
    text = u' +:+ s'
    /\ Re.run fl r s' (Re.start_at (String.length u') before') = Some st'
    /\ m = Re.mk_match text (String.length u') st'.
Proof.
  induction s as [|a s IH]; intros p before skip u Htext -> H.
  - destruct skip as [|k]; cbn [Re.finditer_go] in H; [|contradiction].
    destruct (Re.run fl r EmptyString (Re.start_at (String.length u) before))
      as [st'|] eqn:Hrun; [|contradiction].
    destruct H as [<- | []]. eauto 8.
  - assert (Hnext : forall k b',
              In m (Re.finditer_go fl r text s (S (String.length u)) b' k) ->
              exists u' s' before' st',
                text = u' +:+ s'
                /\ Re.run fl r s' (Re.start_at (String.length u') before')
                   = Some st'
                /\ m = Re.mk_match text (String.length u') st').
    { intros k b' Hin.
      apply (IH _ _ _ (u +:+ String a EmptyString)) in Hin; [exact Hin | |].
      - now rewrite append_assoc.
      - rewrite length_append. cbn. lia. }
    destruct skip as [|k]; cbn [Re.finditer_go] in H;
      [|exact (Hnext _ _ H)].
    destruct (Re.run fl r (String a s) (Re.start_at (String.length u) before))
      as [st'|] eqn:Hrun; [|exact (Hnext _ _ H)].
    destruct H as [<- | H]; [eauto 8 | exact (Hnext _ _ H)].
Qed.

Lemma finditer_group fl r1 g b r2 text m :
  plain b = true -> ~ In g (closes r2) ->
  In m (Re.finditer fl (r1 ++ Re.group g b ++ r2) text) ->
  fits fl b (Re.get m g).
Proof.
  intros Hplain Hg H.
  apply (finditer_go_inv _ _ _ _ _ _ _ _ EmptyString eq_refl eq_refl) in H
    as (u & s & before & st' & Htext & Hrun & ->).
  exact (group_span fl r1 g b r2 text u s
           (Re.start_at (String.length u) before) st' _
           Htext eq_refl Hplain Hg Hrun).
Qed.

(** ** The texts the groups of the patterns capture *)

Lemma fits_plus fl p greedy w :
  fits fl (Re.plus p greedy) w -> w <> EmptyString /\ all_chars p w = true.
Proof.
  intros (u & w' & -> & (a & -> & Ha) & u2 & w2 & -> & Hu2 & ->).
  split; [discriminate|].
  now rewrite append_nil_r, append_cons, all_chars_cons, Ha.
Qed.


Lemma lit_eq_zero a : Re.lit_eq ignorecase "0" a = true -> a = "0"%char.
Proof.
  intros H. destruct a as [[] [] [] [] [] [] [] []]; try discriminate H;
    reflexivity.
Qed.

Lemma lit_eq_x a :
  Re.lit_eq ignorecase "x" a = true -> a = "x"%char \/ a = "X"%char.
Proof.
  intros H. destruct a as [[] [] [] [] [] [] [] []]; try discriminate H;
    auto.
Qed.

Lemma fits_flags w :
  fits ignorecase (Re.lits "0x" ++ Re.plus Py.ishex true) w ->
  flags_literal w.
Proof.
  intros (u0 & w0 & -> & (a0 & -> & H0) & u1 & w1 & -> & (a1 & -> & H1) & Hw).
  apply lit_eq_zero in H0 as ->. apply lit_eq_x in H1.
  apply fits_plus in Hw as [Hne Hall].
  exists a1, w1. now repeat split.
Qed.

Lemma lstrip_char_stripped s :
  all_chars Py.isdigit s = true -> stripped_id (Py.lstrip_char "0" s).
Proof.
  induction s as [|a s IH]; [now split|].
  rewrite all_chars_cons. intros [Ha Hs]%andb_true_iff.
  cbn [Py.lstrip_char]. destruct (Ascii.eqb a "0") eqn:E; [now apply IH|].
  split.
  - now rewrite all_chars_cons, Ha, Hs.
  - cbn [Py.prefix]. rewrite Ascii.eqb_sym, E. reflexivity.
Qed.

Ltac not_closed := vm_compute; intuition discriminate.

Lemma summary_groups line m :
  Re.search ignorecase SUMMARY_PATTERN line = Some m ->
  stripped_id (Py.lstrip_char "0" (Re.get m "id"))
  /\ flags_literal (Re.get m "flags").
Proof.
  intros H. split.
  - apply lstrip_char_stripped.
    apply (fits_plus ignorecase _ true).
    revert H. apply (search_group ignorecase (Re.lits "ID:") "id"
                       (Re.plus Re.digit true)); [reflexivity | not_closed].
  - apply fits_flags. revert H.
    apply (search_group ignorecase
             (Re.lits "ID:" ++ Re.group "id" (Re.plus Re.digit true)
              ++ Re.lits "," ++ Re.lits "Family="
              ++ Re.group "type" [Re.Rep Re.dot false]
              ++ Re.lits "/" ++ [Re.Rep Re.dot false] ++ Re.lits ","
              ++ [Re.Rep Re.dot false] ++ Re.lits "Ver "
              ++ Re.group "firmware"
                   (Re.plus
                      (Re.union Re.word (Re.union (Re.one_of ".+") Py.ishex))
                      true)
              ++ Re.lits "," ++ [Re.Rep Re.dot false] ++ Re.lits "Flags=")
             "flags" (Re.lits "0x" ++ Re.plus Py.ishex true) []);
      [reflexivity | not_closed].
Qed.


Lemma gpk_groups line m :
  Re.search ignorecase GPK_PATTERN line = Some m ->
  stripped_id (Py.lstrip_char "0" (Re.get m "id"))
  /\ Re.get m "key_hash" <> EmptyString
  /\ all_chars Py.ishex (Re.get m "key_hash") = true.
Proof.
  intros H. split.
  - apply lstrip_char_stripped, (fits_plus ignorecase _ true).
    revert H. apply (search_group ignorecase (Re.lits "ID:") "id"
                       (Re.plus Re.digit true)); [reflexivity | not_closed].
  - apply (fits_plus ignorecase _ true). revert H.
    apply (search_group ignorecase
             (Re.lits "ID:" ++ Re.group "id" (Re.plus Re.digit true)
              ++ Re.lits ", Public Key Hash=")
             "key_hash" (Re.plus Py.ishex true) []);
      [reflexivity | not_closed].
Qed.



Lemma battery_percent raw m :
  In m (Re.finditer ignorecase_multiline BATTERY_PATTERN raw) ->
  digits_text (Re.get m "percent").
Proof.
  intros H. apply (fits_plus ignorecase_multiline Re.digit true). revert H.
  apply (finditer_group ignorecase_multiline
           ([Re.Bol; Re.Rep Re.space true] ++ Re.plus Py.ishex true
            ++ Re.plus Re.space true
            ++ Re.group "time_s"
                 (Re.plus (Re.union Re.digit (Re.one_of ".")) true)
            ++ Re.plus Re.space true ++ Re.lits "DATA:"
            ++ Re.plus Re.space true ++ Re.lits "Battery="
            ++ Re.group "voltage"
                 (Re.plus (Re.union Re.digit (Re.one_of ".")) true)
            ++ Re.lits "V," ++ Re.plus Re.space true)
           "percent" (Re.plus Re.digit true)); [reflexivity | not_closed].
Qed.

(** ** The records the queries return *)

Lemma in_omap {A B} (f : A -> option B) l y :
  In y (omap f l) -> exists x, In x l /\ f x = Some y.
Proof.
  induction l as [|a l IH]; [contradiction|].
  cbn [omap list_omap]. destruct (f a) as [b|] eqn:E.
  - intros [<- | H]; [exists a; split; [now left | exact E]|].
    destruct (IH H) as (x & Hx & Hfx). exists x. split; [now right | exact Hfx].
  - intros H. destruct (IH H) as (x & Hx & Hfx).
    exists x. split; [now right | exact Hfx].
Qed.

Lemma devices_of_output_fst stdout :
  fst (devices_of_output stdout) = omap device_of_line (Py.splitlines stdout).
Proof.
  unfold devices_of_output. rewrite device_loop. cbn [app].
  destruct (omap device_of_line (Py.splitlines stdout)) as [|d ds];
    [|reflexivity].
  now destruct (map failure_note _).
Qed.

Lemma decoded_row F i :
  (i < 64)%nat ->
  map (row_of F) (seq 0 64) !! i
  = Some {| Bit := i; Status := on_off (bit_of F i =? 1);
            Description := spec_label i |}.
Proof.
  intros Hi. rewrite list_lookup_fmap, lookup_seq_lt by assumption.
  cbn. unfold row_of. f_equal. f_equal.
  - apply status_of_on_off.
  - apply (row_label i).
Qed.

Lemma hr_mode_of_statuses F :
  get_current_hr_mode
    (<["30" := status_of F 30]> (<["28" := status_of F 28]>
       (<["24" := status_of F 24]> (<["3" := status_of F 3]> ∅))))
  = spec_hr_mode (bit_of F 3 =? 1) (bit_of F 28 =? 1) (bit_of F 30 =? 1).
Proof.
  unfold get_current_hr_mode.
  destruct (lookup_statuses (status_of F 30) (status_of F 28)
              (status_of F 24) (status_of F 3)) as (-> & _ & -> & ->).
  rewrite !status_of_on_off.
  destruct (bit_of F 3 =? 1), (bit_of F 28 =? 1), (bit_of F 30 =? 1);
    reflexivity.
Qed.

(** X1: every device the scan returns carries a flags text made of [0x] (in
    either case) and hexadecimal digits, and the decoder did not fail on it:
    with [F] the value of the digits, the device has the 64 rows of [F], the
    four named statuses of [F], and the heart-rate mode of the decision table
    on bits 3, 28 and 30 of [F]. *)
Theorem scanned_device_decodes (stdout : string) (d : device) :
  In d (fst (devices_of_output stdout)) ->
  exists x ds,
    d_flags d = String "0" (String x ds)
    /\ (x = "x"%char \/ x = "X"%char)
    /\ ds <> EmptyString /\ all_chars Py.ishex ds = true
    /\ length (d_all_bits d) = 64%nat
    /\ (forall i, (i < 64)%nat ->
          d_all_bits d !! i
          = Some {| Bit := i; Status := on_off (bit_of (hex_value ds) i =? 1);
                    Description := spec_label i |})
    /\ d_bit_status d = subset_of_flags (hex_value ds)
    /\ d_hr_mode d
       = spec_hr_mode (bit_of (hex_value ds) 3 =? 1)
           (bit_of (hex_value ds) 28 =? 1) (bit_of (hex_value ds) 30 =? 1).
Proof.
  rewrite devices_of_output_fst. intros (line & _ & Hd)%in_omap.
  unfold device_of_line in Hd.
  destruct (Re.search ignorecase SUMMARY_PATTERN line) as [m|] eqn:Hm;
    [|discriminate].
  injection Hd as <-. cbn [d_flags d_all_bits d_bit_status d_hr_mode].
  destruct (summary_groups line m Hm) as (_ & x & ds & Hflags & Hx & Hne & Hall).
  exists x, ds. rewrite Hflags.
  rewrite (get_bit_status_parsed _ _ (int16_flags_literal x ds Hx Hne Hall)).
  cbn [fst snd].
  split; [reflexivity|]. split; [exact Hx|]. split; [exact Hne|].
  split; [exact Hall|]. split; [now rewrite length_map, length_seq|].
  split; [apply decoded_row|]. split; [|apply hr_mode_of_statuses].
  unfold subset_of_flags. cbn [fold_left named_indices].
  now rewrite <- !status_of_on_off.
Qed.

Lemma scanned_device_decodes_witness :
  exists d,
    In d (fst (devices_of_output
                 "ID:0007,Family=Band/X,usb,Ver 1.0,ok,Flags=0x10000008"))
    /\ length (d_all_bits d) = 64%nat.
Proof.
  assert (H : exists d,
             fst (devices_of_output
                    "ID:0007,Family=Band/X,usb,Ver 1.0,ok,Flags=0x10000008")
             = [d]) by (eexists; vm_compute; reflexivity).
  destruct H as [d Hd]. exists d.
  assert (Hin : In d (fst (devices_of_output
                 "ID:0007,Family=Band/X,usb,Ver 1.0,ok,Flags=0x10000008")))
    by (rewrite Hd; now left).
  split; [exact Hin|].
  destruct (scanned_device_decodes _ _ Hin)
    as (x & ds & _ & _ & _ & _ & Hlen & _).
  exact Hlen.
Defined.

Lemma key_loop lines keys :
  fold_left key_step lines keys = keys ++ omap key_of_line lines.
Proof.
  revert keys. induction lines as [|line lines IH]; intros keys.
  - cbn. now rewrite app_nil_r.
  - cbn [fold_left omap list_omap]. rewrite IH.
    unfold key_step, key_of_line.
    destruct (Re.search ignorecase GPK_PATTERN line);
      [now rewrite <- app_assoc | reflexivity].
Qed.



(** X3: the public keys returned are those of the lines the pattern
    matches, in the order of the lines, with an empty error text; the hash
    of each is a non-empty string of hexadecimal digits. *)
Theorem public_keys_of_output (stdout : string) :
  keys_of_output stdout = (omap key_of_line (Py.splitlines stdout), "")
  /\ forall k,
       In k (fst (keys_of_output stdout)) ->
       k_key_hash k <> EmptyString /\ all_chars Py.ishex (k_key_hash k) = true.
Proof.
  assert (H : keys_of_output stdout
              = (omap key_of_line (Py.splitlines stdout), ""))
    by (unfold keys_of_output; now rewrite key_loop).
  split; [exact H|]. rewrite H. cbn [fst].
  intros k (line & _ & Hk)%in_omap. unfold key_of_line in Hk.
  destruct (Re.search ignorecase GPK_PATTERN line) as [m|] eqn:Hm;
    [|discriminate].
  injection Hk as <-. apply (gpk_groups line m Hm).
Qed.




(** ** The battery analyzer: errors and points *)

Lemma read_decimal_digits s : forall acc n,
  all_chars Py.isdigit s = true -> (n + String.length s <> 0)%nat ->
  exists v, F64.read_decimal s acc n None = Some (v, (n + String.length s)%nat, 0%nat).
Proof.
  induction s as [|c s IH]; intros acc n Hall Hlen.
  - cbn [F64.read_decimal String.length] in *. rewrite Nat.add_0_r in *.
    destruct n; [congruence|]. eauto.
  - rewrite all_chars_cons in Hall. apply andb_true_iff in Hall as [Hc Hs].
    cbn [F64.read_decimal String.length]. rewrite Hc. cbn [option_map].
    destruct (IH (acc * 10 + (Z.of_N (Py.code c) - 48)) (S n) Hs ltac:(lia))
      as [v Hv].
    exists v. rewrite Hv. do 3 f_equal. lia.
Qed.

Lemma float_of_digits s :
  digits_text s -> exists x, float_of s = inr x.
Proof.
  intros [Hne Hall]. unfold float_of, F64.of_str.
  destruct (read_decimal_digits s 0 0%nat Hall) as [v ->]; [|eauto].
  destruct s; [congruence | cbn; lia].
Qed.

Lemma points_error ms e :
  (forall m, In m ms -> digits_text (Re.get m "percent")) ->
  points_of_matches ms = inl e ->
  exists m t,
    In m ms /\ (t = Re.get m "time_s" \/ t = Re.get m "voltage")
    /\ F64.of_str t = None
    /\ e = "could not convert string to float: '" +:+ t +:+ "'".
Proof.
  induction ms as [|m ms IH]; intros Hpct H; [discriminate|].
  cbn [points_of_matches] in H.
  destruct (point_of_match m) as [e'|p] eqn:Hp.
  - injection H as <-. unfold point_of_match, float_of in Hp.
    destruct (F64.of_str (Re.get m "time_s")) eqn:Et.
    + destruct (F64.of_str (Re.get m "voltage")) eqn:Ev.
      * destruct (float_of_digits _ (Hpct m (or_introl eq_refl))) as [x Hx].
        unfold float_of in Hx.
        destruct (F64.of_str (Re.get m "percent")); discriminate.
      * injection Hp as <-. exists m, (Re.get m "voltage").
        split; [now left|]. now repeat split; auto.
    + injection Hp as <-. exists m, (Re.get m "time_s").
      split; [now left|]. now repeat split; auto.
  - destruct (points_of_matches ms) as [e'|ps] eqn:Hps; [|discriminate].
    injection H as <-.
    destruct (IH (fun m' Hm' => Hpct m' (or_intror Hm')) eq_refl)
      as (m' & t & Hin & Ht & Hnone & He).
    exists m', t. split; [now right | now repeat split].
Qed.

Lemma points_length ms pts :
  points_of_matches ms = inr pts -> length pts = length ms.
Proof.
  revert pts. induction ms as [|m ms IH]; intros pts H.
  - now apply points_of_matches_nil in H as ->.
  - apply points_of_matches_cons in H as (p & ps & -> & _ & Hps).
    cbn. now rewrite (IH ps Hps).
Qed.

(** What [parse_debug_data] returns on matches that convert to points. *)
Lemma parse_debug_data_points raw first rest p ps :
  Re.finditer ignorecase_multiline BATTERY_PATTERN raw = first :: rest ->
  points_of_matches (first :: rest) = inr (p :: ps) ->
  exists q,
    F64.floordiv
      (F64.sub (p_time (List.last (p :: ps) p)) (p_time p)) (F64.of_int 60)
    = Some q
    /\ parse_debug_data raw
       = match int_of q with
         | inl e =>
             (with_error
                {| first_reading := F64.format_f 0 (p_percent p) +:+ "%";
                   last_reading :=
                     F64.format_f 0 (p_percent (List.last (p :: ps) p)) +:+ "%";
                   time_elapsed_str := "N/A"; percent_drop := "N/A";
                   error := None |} e,
              p :: ps)
         | inr total_minutes =>
             ({| first_reading := F64.format_f 0 (p_percent p) +:+ "%";
                 last_reading :=
                   F64.format_f 0 (p_percent (List.last (p :: ps) p)) +:+ "%";
                 time_elapsed_str :=
                   F64.format_02 (total_minutes / 60) +:+ ":"
                   +:+ F64.format_02 (total_minutes mod 60);
                 percent_drop :=
                   F64.format_f 0
                     (F64.sub (p_percent p)
                        (p_percent (List.last (p :: ps) p))) +:+ "%";
                 error := None |},
              p :: ps)
         end.
Proof.
  intros Hms Hpts. unfold parse_debug_data. rewrite Hms, Hpts.
  pose proof Hpts as Hcons.
  apply points_of_matches_cons in Hcons as (p' & ps' & [= <- <-] & Hp & _).
  pose proof (points_of_matches_last _ _ first p Hpts Hp) as Hlast.
  destruct (point_of_match_fields _ _ Hp) as [-> ->].
  destruct (point_of_match_fields _ _ Hlast) as [-> ->].
  unfold F64.floordiv at 1 2.
  change (F64.is_zero (F64.of_int 60)) with false. cbv iota.
  eexists. split; [reflexivity|].
  now destruct (int_of _).
Qed.

Lemma append_nil_l (s : string) : EmptyString +:+ s = s.
Proof. reflexivity. Qed.

Lemma percent_text_not_na x : x +:+ "%" <> "N/A".
Proof.
  destruct x as [|a [|b [|c [|d x]]]];
    rewrite ?append_cons, ?append_nil_l; congruence.
Qed.

Lemma clock_text_not_na h m : h +:+ ":" +:+ m <> "N/A".
Proof.
  destruct h as [|a [|b [|c [|d h]]]];
    rewrite ?append_cons, ?append_nil_l, ?append_cons, ?append_nil_l;
    congruence.
Qed.

(** X5.  When the battery analyzer reports an error, it is one of two kinds.
    Either [float()] refused the [time_s] or the [voltage] text of some
    match (the [percent] text always converts): then the message quotes
    that text, every field is N/A and no data point is returned, whatever
    the other matches hold.  Or the elapsed time is not a finite number:
    then the message is the one of [int()] on NaN or infinity, there is one
    data point per match, the two readings are set and the elapsed time and
    the drop are N/A. *)
Theorem battery_error_causes raw msg :
  error (fst (parse_debug_data raw)) = Some msg ->
  let ms := Re.finditer ignorecase_multiline BATTERY_PATTERN raw in
  (exists m t,
     In m ms /\ (t = Re.get m "time_s" \/ t = Re.get m "voltage")
     /\ F64.of_str t = None
     /\ msg = "Error parsing debug data: could not convert string to float: '"
              +:+ t +:+ "'"
     /\ parse_debug_data raw = (with_error no_data
          ("could not convert string to float: '" +:+ t +:+ "'"), []))
  \/ ((msg = "Error parsing debug data: cannot convert float NaN to integer"
       \/ msg = "Error parsing debug data: cannot convert float infinity to integer")
      /\ length (snd (parse_debug_data raw)) = length ms
      /\ first_reading (fst (parse_debug_data raw)) <> "N/A"
      /\ last_reading (fst (parse_debug_data raw)) <> "N/A"
      /\ time_elapsed_str (fst (parse_debug_data raw)) = "N/A"
      /\ percent_drop (fst (parse_debug_data raw)) = "N/A").
Proof.
  intros Herr ms.
  pose proof (battery_percent raw) as Hpct. fold ms in Hpct.
  destruct ms as [|first rest] eqn:Hms.
  - unfold parse_debug_data in Herr. fold ms in Herr. rewrite Hms in Herr.
    discriminate.
  - destruct (points_of_matches (first :: rest)) as [e|pts] eqn:Hpts.
    + left. destruct (points_error _ _ Hpct Hpts) as (m & t & Hin & Ht & Hn & ->).
      assert (Hres : parse_debug_data raw = (with_error no_data
                ("could not convert string to float: '" +:+ t +:+ "'"), [])).
      { unfold parse_debug_data. fold ms. rewrite Hms, Hpts. reflexivity. }
      rewrite Hres in Herr. cbn in Herr. injection Herr as <-.
      exists m, t. repeat split; auto.
    + right. pose proof (points_length _ _ Hpts) as Hlen.
      destruct pts as [|p ps]; [discriminate|].
      destruct (parse_debug_data_points raw first rest p ps Hms Hpts)
        as (q & _ & Hres).
      rewrite Hres in *. unfold int_of in *.
      destruct (F64.to_int q) as [[|]|n]; cbn in Herr |- *;
        [injection Herr as <- .. | discriminate];
        (split; [auto|]); (split; [exact Hlen|]);
        (split; [apply percent_text_not_na|]);
        (split; [apply percent_text_not_na|]); split; reflexivity.
Qed.

Lemma battery_error_causes_witness :
  error (fst (parse_debug_data "1f 1.2.3 DATA: Battery=4.1V, 50%"))
  = Some "Error parsing debug data: could not convert string to float: '1.2.3'"
  /\ exists m t,
       In m (Re.finditer ignorecase_multiline BATTERY_PATTERN
               "1f 1.2.3 DATA: Battery=4.1V, 50%")
       /\ F64.of_str t = None
       /\ (t = Re.get m "time_s" \/ t = Re.get m "voltage").
Proof.
  assert (H : error (fst (parse_debug_data "1f 1.2.3 DATA: Battery=4.1V, 50%"))
              = Some "Error parsing debug data: could not convert string to float: '1.2.3'")
    by (vm_compute; reflexivity).
  split; [exact H|].
  destruct (battery_error_causes _ _ H) as [(m & t & Hin & Ht & Hn & _) | [[E | E] _]].
  - exists m, t. auto.
  - discriminate E.
  - discriminate E.
Defined.

(** X6.  The data points of the battery analyzer are all or nothing: the
    list handed to the graph is empty or holds one point per match, and it
    is empty exactly when there is no match or [float()] refused a text.
    Whenever points are returned, the first and the last reading are set;
    without an error, and with a match, no field is left at N/A. *)
Theorem battery_points_all_or_nothing raw :
  let r := parse_debug_data raw in
  let ms := Re.finditer ignorecase_multiline BATTERY_PATTERN raw in
  (snd r = [] \/ length (snd r) = length ms)
  /\ (snd r = [] <-> ms = [] \/ exists e, points_of_matches ms = inl e)
  /\ (snd r <> [] ->
      first_reading (fst r) <> "N/A" /\ last_reading (fst r) <> "N/A")
  /\ (error (fst r) = None -> ms <> [] ->
      length (snd r) = length ms
      /\ first_reading (fst r) <> "N/A" /\ last_reading (fst r) <> "N/A"
      /\ time_elapsed_str (fst r) <> "N/A" /\ percent_drop (fst r) <> "N/A").
Proof.
  intros r ms. subst r.
  destruct ms as [|first rest] eqn:Hms.
  - assert (Hres : parse_debug_data raw = (no_data, [])).
    { unfold parse_debug_data. fold ms. now rewrite Hms. }
    rewrite Hres. cbn. repeat split; auto; congruence.
  - destruct (points_of_matches (first :: rest)) as [e|pts] eqn:Hpts.
    + assert (Hres : parse_debug_data raw = (with_error no_data e, [])).
      { unfold parse_debug_data. fold ms. now rewrite Hms, Hpts. }
      rewrite Hres. cbn. repeat split; eauto; congruence.
    + pose proof (points_length _ _ Hpts) as Hlen.
      destruct pts as [|p ps]; [discriminate|].
      destruct (parse_debug_data_points raw first rest p ps Hms Hpts)
        as (q & _ & Hres).
      rewrite Hres.
      assert (Hno : ~ (first :: rest = [] \/
                       exists e, @inr string _ (p :: ps) = inl e)).
      { intros [H | [e H]]; discriminate. }
      destruct (int_of q) as [e|n]; cbn [fst snd with_error first_reading
        last_reading time_elapsed_str percent_drop error].
      * split; [now right|]. split; [split; [discriminate | tauto]|].
        split; [intros _; split; apply percent_text_not_na|].
        discriminate.
      * split; [now right|]. split; [split; [discriminate | tauto]|].
        split; [intros _; split; apply percent_text_not_na|].
        intros _ _. split; [exact Hlen|].
        split; [apply percent_text_not_na|].
        split; [apply percent_text_not_na|].
        split; [apply clock_text_not_na | apply percent_text_not_na].
Qed.

(** ** The orientation analyzer: counts and re-analysis *)

Lemma parse_orientation_data_line raw_output :
  parse_orientation_data raw_output
  = (if String.eqb (last_orientation (stripped_lines raw_output)) EmptyString
     then (EmptyString, ∅, S754_zero false)
     else (last_orientation (stripped_lines raw_output),
           spec_counts (last_orientation (stripped_lines raw_output)),
           spec_percentage (last_orientation (stripped_lines raw_output)))).
Proof.
  unfold parse_orientation_data.
  rewrite (first_orientation_rev _ (stripped_lines_stripped raw_output)).
  destruct (last_orientation (stripped_lines raw_output)) as [|a s] eqn:E;
    [reflexivity|].
  cbn [String.eqb String.length Nat.ltb Nat.leb].
  unfold F64.int_truediv.
  replace (Z.of_nat (S (String.length s)) =? 0) with false
    by (symmetry; apply Z.eqb_neq; lia).
  reflexivity.
Qed.

Lemma last_orientation_is lines :
  last_orientation lines = EmptyString
  \/ is_orientation (last_orientation lines) = true.
Proof.
  unfold last_orientation.
  induction lines as [|line lines IH] using rev_ind; [now left|].
  rewrite List.filter_app. cbn [List.filter].
  destruct (is_orientation line) eqn:E.
  - right. now rewrite last_last.
  - now rewrite app_nil_r.
Qed.

Lemma orientation_char_one a :
  orientation_char a = true ->
  ((if Ascii.eqb a "+" then 1 else 0) + (if Ascii.eqb a "r" then 1 else 0)
   + (if Ascii.eqb a "u" then 1 else 0) + (if Ascii.eqb a "." then 1 else 0)
   = 1)%nat
  /\ Py.isspace a = false /\ Py.is_linebreak a = false.
Proof. intros H. by_cases_on_char a H. Qed.

Lemma count_orientation s :
  all_chars orientation_char s = true ->
  (Py.count "+" s + Py.count "r" s + Py.count "u" s + Py.count "." s
   = String.length s)%nat.
Proof.
  induction s as [|a s IH]; [reflexivity|].
  rewrite all_chars_cons. intros [Ha Hs]%andb_true_iff.
  cbn [Py.count String.length].
  destruct (orientation_char_one a Ha) as [H1 _]. specialize (IH Hs). lia.
Qed.

Lemma splitlines_go_plain s : forall cur,
  all_chars orientation_char s = true ->
  Py.splitlines_go s cur false
  = match cur +:+ s with EmptyString => [] | l => [l] end.
Proof.
  induction s as [|a s IH]; intros cur Hall.
  - cbn [Py.splitlines_go]. rewrite append_nil_r. now destruct cur.
  - rewrite all_chars_cons in Hall. apply andb_true_iff in Hall as [Ha Hs].
    destruct (orientation_char_one a Ha) as (_ & _ & Hlb).
    cbn [Py.splitlines_go]. rewrite andb_false_r, Hlb, (IH _ Hs).
    now rewrite append_assoc, append_cons, append_nil_l.
Qed.

Lemma rstrip_plain s :
  all_chars orientation_char s = true -> Py.rstrip s = s.
Proof.
  induction s as [|a s IH]; [reflexivity|].
  rewrite all_chars_cons. intros [Ha Hs]%andb_true_iff.
  cbn [Py.rstrip]. rewrite (IH Hs).
  destruct (orientation_char_one a Ha) as (_ & -> & _). now destruct s.
Qed.

Lemma strip_plain s :
  all_chars orientation_char s = true -> Py.strip s = s.
Proof.
  intros H. unfold Py.strip.
  assert (Hl : Py.lstrip s = s).
  { destruct s as [|a s]; [reflexivity|].
    rewrite all_chars_cons in H. apply andb_true_iff in H as [Ha _].
    cbn [Py.lstrip]. now destruct (orientation_char_one a Ha) as (_ & -> & _). }
  rewrite Hl. now apply rstrip_plain.
Qed.

Lemma stripped_lines_plain s :
  is_orientation s = true -> stripped_lines s = [s].
Proof.
  unfold is_orientation. intros [Hne Hall]%andb_true_iff.
  unfold stripped_lines, Py.splitlines.
  rewrite (splitlines_go_plain s EmptyString Hall), append_nil_l.
  destruct s as [|a s]; [discriminate|].
  cbn [map]. rewrite (strip_plain _ Hall).
  rewrite filter_cons. destruct (decide (String a s ≠ EmptyString)) as [_|n];
    [reflexivity | exfalso; apply n; discriminate].
Qed.

(** X7.  Whatever the text, the string the orientation analyzer returns is
    made of the four characters [+], [r], [u] and [.] only, and the four
    counts it returns add up to the length of that string: every reading is
    counted once.  (With no orientation line the string is empty and there
    are no counts.) *)
Theorem orientation_counts_partition raw_output :
  let r := parse_orientation_data raw_output in
  let count_of k := default 0%nat (snd (fst r) !! k) in
  all_chars orientation_char (fst (fst r)) = true
  /\ (count_of "Okay (+)" + count_of "Reversed (r)"
      + count_of "Upside Down (u)" + count_of "Flat (.)"
      = String.length (fst (fst r)))%nat
  /\ (fst (fst r) = EmptyString <-> snd (fst r) = ∅).
Proof.
  cbv zeta. rewrite parse_orientation_data_line.
  destruct (last_orientation_is (stripped_lines raw_output)) as [-> | H].
  - cbn. repeat split; reflexivity.
  - destruct (String.eqb _ EmptyString) eqn:E.
    + apply String.eqb_eq in E. rewrite E in H. discriminate.
    + cbn [fst snd]. unfold is_orientation in H.
      apply andb_true_iff in H as [_ Hall].
      split; [exact Hall|]. split.
      * rewrite <- (count_orientation _ Hall). reflexivity.
      * apply String.eqb_neq in E. split; [contradiction|].
        intros Hempty. exfalso.
        apply (f_equal (fun m : gmap string nat => m !! "Flat (.)")) in Hempty.
        unfold spec_counts in Hempty.
        rewrite lookup_insert_eq, lookup_empty in Hempty. discriminate.
Qed.

(** X8.  Analysing the string the orientation analyzer returned gives the
    same result again: the string, its counts and the percentage are a
    function of the selected line alone. *)
Theorem orientation_reanalysis raw_output :
  parse_orientation_data (fst (fst (parse_orientation_data raw_output)))
  = parse_orientation_data raw_output.
Proof.
  rewrite (parse_orientation_data_line raw_output).
  destruct (last_orientation_is (stripped_lines raw_output)) as [E | H].
  - rewrite E. reflexivity.
  - destruct (String.eqb _ EmptyString) eqn:E.
    + apply String.eqb_eq in E. rewrite E in H. discriminate.
    + cbn [fst]. rewrite parse_orientation_data_line.
      rewrite (stripped_lines_plain _ H).
      assert (Hone : forall l, is_orientation l = true ->
                last_orientation [l] = l).
      { intros l Hl. unfold last_orientation. cbn [List.filter].
        now rewrite Hl. }
      rewrite (Hone _ H). now rewrite E.
Qed.

(** ** The bit table and the flags *)

Lemma bit_of_mod2 F i : bit_of F i = (F / 2 ^ Z.of_nat i) mod 2.
Proof.
  unfold bit_of. rewrite Z.shiftr_div_pow2 by lia.
  change 1 with (Z.ones 1). now rewrite Z.land_ones by lia.
Qed.

Lemma bit_of_eqb F i : (bit_of F i =? 1) = Z.testbit F (Z.of_nat i).
Proof.
  destruct (Z.testbit F (Z.of_nat i)) eqn:E.
  - apply Z.eqb_eq. now apply bit_of_testbit.
  - apply Z.eqb_neq. intros H. apply bit_of_testbit in H. congruence.
Qed.

Lemma bit_of_low F i : (i < 64)%nat -> bit_of (F mod 2 ^ 64) i = bit_of F i.
Proof.
  intros Hi.
  assert (H : (bit_of (F mod 2 ^ 64) i =? 1) = (bit_of F i =? 1)).
  { rewrite !bit_of_eqb. apply Z.mod_pow2_bits_low. lia. }
  destruct (bit_of_01 (F mod 2 ^ 64) i) as [E1 | E1],
           (bit_of_01 F i) as [E2 | E2]; rewrite E1, E2 in *;
    try reflexivity; discriminate H.
Qed.

Lemma flags_of_table_app t1 t2 :
  flags_of_table (t1 ++ t2) = flags_of_table t1 + flags_of_table t2.
Proof.
  unfold flags_of_table. induction t1 as [|r t1 IH]; [reflexivity|].
  cbn [app fold_right]. rewrite IH. lia.
Qed.

Lemma flags_of_rows F n :
  flags_of_table (map (row_of F) (seq 0 n)) = F mod 2 ^ Z.of_nat n.
Proof.
  induction n as [|n IH].
  - cbn. now rewrite Z.mod_1_r.
  - rewrite seq_S, map_app, flags_of_table_app, IH. cbn [Nat.add map].
    unfold flags_of_table. cbn [fold_right row_of Status Bit].
    replace (Z.of_nat (S n)) with (Z.of_nat n + 1) by lia.
    rewrite Z.pow_add_r, Z.pow_1_r by lia.
    rewrite Z.rem_mul_r by lia.
    rewrite <- bit_of_mod2. unfold status_of.
    destruct (bit_of_01 F n) as [-> | ->]; cbn; lia.
Qed.

(** X9.  The bit table is the 64-bit two's complement of the flags: summing
    [2^Bit] over the rows that are ON gives the flags modulo [2^64] (a
    negative value included), and two flags texts give the same result
    exactly when their values agree modulo [2^64]. *)
Theorem bit_table_round_trip flags_hex F :
  Py.int16 (Py.replace "0x" "" flags_hex) = Some F ->
  flags_of_table (snd (get_bit_status flags_hex)) = F mod 2 ^ 64
  /\ forall flags_hex' F',
       Py.int16 (Py.replace "0x" "" flags_hex') = Some F' ->
       (get_bit_status flags_hex' = get_bit_status flags_hex
        <-> F' mod 2 ^ 64 = F mod 2 ^ 64).
Proof.
  intros HF. rewrite (get_bit_status_parsed _ _ HF). cbn [snd].
  split; [exact (flags_of_rows F 64)|].
  intros flags_hex' F' HF'. rewrite (get_bit_status_parsed _ _ HF').
  split.
  - intros H. apply (f_equal (fun r => flags_of_table (snd r))) in H.
    cbn [snd] in H. now rewrite !(flags_of_rows _ 64) in H.
  - intros H.
    assert (Hbit : forall i, (i < 64)%nat -> bit_of F' i = bit_of F i).
    { intros i Hi. rewrite <- (bit_of_low F' i Hi), <- (bit_of_low F i Hi).
      now rewrite H. }
    assert (Hst : forall i, (i < 64)%nat -> status_of F' i = status_of F i).
    { intros i Hi. unfold status_of. now rewrite (Hbit i Hi). }
    rewrite !Hst by lia. f_equal.
    apply map_ext_in. intros i Hi. apply in_seq in Hi.
    unfold row_of. now rewrite Hst by lia.
Qed.

Lemma bit_table_round_trip_witness :
  Py.int16 (Py.replace "0x" "" "-0x1") = Some (-1)
  /\ flags_of_table (snd (get_bit_status "-0x1")) = (-1) mod 2 ^ 64
  /\ (get_bit_status "0x1FFFFFFFFFFFFFFFF" = get_bit_status "-0x1"
      <-> 36893488147419103231 mod 2 ^ 64 = (-1) mod 2 ^ 64).
Proof.
  assert (H : Py.int16 (Py.replace "0x" "" "-0x1") = Some (-1))
    by (vm_compute; reflexivity).
  split; [exact H|].
  destruct (bit_table_round_trip "-0x1" (-1) H) as [Hsum Hsame].
  split; [exact Hsum|].
  apply Hsame. vm_compute; reflexivity.
Defined.

Lemma commanded_ds F i n :
  bit_index n = Some i -> commanded F ["-ds"; n] = Z.setbit F (Z.of_nat i).
Proof. intros H. unfold commanded. now rewrite H. Qed.

Lemma commanded_dc F i n :
  bit_index n = Some i -> commanded F ["-dc"; n] = Z.clearbit F (Z.of_nat i).
Proof. intros H. unfold commanded. now rewrite H. Qed.

Lemma bit_index_3 : bit_index "3" = Some 3%nat.
Proof. vm_compute; reflexivity. Qed.

Lemma bit_index_28 : bit_index "28" = Some 28%nat.
Proof. vm_compute; reflexivity. Qed.

Lemma bit_index_30 : bit_index "30" = Some 30%nat.
Proof. vm_compute; reflexivity. Qed.

Lemma hr_commands_cases exe_path mode commands :
  hr_commands exe_path mode = Some commands ->
  (mode = "Polar Strap"
   /\ commands = [(exe_path, ["-ds"; "3"]); (exe_path, ["-dc"; "28"]);
                  (exe_path, ["-dc"; "30"])])
  \/ (mode = "Integrated HR"
      /\ commands = [(exe_path, ["-ds"; "3"]); (exe_path, ["-ds"; "28"]);
                     (exe_path, ["-dc"; "30"])])
  \/ (mode = "Bluetooth HR"
      /\ commands = [(exe_path, ["-ds"; "3"]); (exe_path, ["-ds"; "30"]);
                     (exe_path, ["-dc"; "28"])]).
Proof.
  unfold hr_commands.
  destruct (String.eqb mode "Polar Strap") eqn:E1.
  { apply String.eqb_eq in E1. intros [= <-]. now left. }
  destruct (String.eqb mode "Integrated HR") eqn:E2.
  { apply String.eqb_eq in E2. intros [= <-]. right. now left. }
  destruct (String.eqb mode "Bluetooth HR") eqn:E3; [|discriminate].
  apply String.eqb_eq in E3. intros [= <-]. right. now right.
Qed.

(** X10.  Setting a mode and reading it back agree.  Read as the comments
    of [set_hr_mode] read them ([-ds n] turns bit [n] on, [-dc n] turns it
    off), the commands of a mode take any flags to flags that
    [get_bit_status] and [get_current_hr_mode] decode as that mode; the
    bits other than 3, 28 and 30 are left as they were. *)
Theorem set_then_read_hr_mode exe_path mode commands F flags_hex :
  hr_commands exe_path mode = Some commands ->
  Py.int16 (Py.replace "0x" "" flags_hex)
  = Some (fold_left commanded (map snd commands) F) ->
  get_current_hr_mode (fst (get_bit_status flags_hex)) = mode
  /\ forall i, i <> 3%nat -> i <> 28%nat -> i <> 30%nat ->
       bit_of (fold_left commanded (map snd commands) F) i = bit_of F i.
Proof.
  intros Hc Hparse. rewrite (get_bit_status_parsed _ _ Hparse). cbn [fst].
  rewrite hr_mode_of_statuses.
  assert (Hother : forall G G' i,
            (bit_of G i =? 1) = (bit_of G' i =? 1) -> bit_of G i = bit_of G' i).
  { intros G G' i H.
    destruct (bit_of_01 G i) as [E1 | E1], (bit_of_01 G' i) as [E2 | E2];
      rewrite E1, E2 in *; try reflexivity; discriminate H. }
  assert (Hset : forall G i j,
            (bit_of (Z.setbit G (Z.of_nat i)) j =? 1)
            = (Nat.eqb i j || (bit_of G j =? 1))).
  { intros G i j. rewrite !bit_of_eqb, Z.setbit_eqb by lia. f_equal.
    destruct (Nat.eqb_spec i j) as [-> | Hn];
      [apply Z.eqb_refl | apply Z.eqb_neq; lia]. }
  assert (Hclear : forall G i j,
            (bit_of (Z.clearbit G (Z.of_nat i)) j =? 1)
            = ((bit_of G j =? 1) && negb (Nat.eqb i j))).
  { intros G i j. rewrite !bit_of_eqb, Z.clearbit_eqb by lia. do 2 f_equal.
    destruct (Nat.eqb_spec i j) as [-> | Hn];
      [apply Z.eqb_refl | apply Z.eqb_neq; lia]. }
  destruct (hr_commands_cases _ _ _ Hc) as [[-> ->] | [[-> ->] | [-> ->]]];
    cbn [map snd fold_left].
  - rewrite (commanded_ds F 3 "3" bit_index_3),
      (commanded_dc _ 28 "28" bit_index_28),
      (commanded_dc _ 30 "30" bit_index_30).
    split.
    + rewrite !Hclear, !Hset. cbn [Nat.eqb negb orb].
      destruct (bit_of F 3 =? 1), (bit_of F 28 =? 1), (bit_of F 30 =? 1);
        reflexivity.
    + intros i H3 H28 H30. apply Hother. rewrite !Hclear, !Hset.
      apply Nat.eqb_neq in H3, H28, H30. rewrite Nat.eqb_sym in H3, H28, H30.
      rewrite H3, H28, H30. cbn [negb orb]. now rewrite !andb_true_r.
  - rewrite (commanded_ds F 3 "3" bit_index_3),
      (commanded_ds _ 28 "28" bit_index_28),
      (commanded_dc _ 30 "30" bit_index_30).
    split.
    + rewrite !Hclear, !Hset. cbn [Nat.eqb negb orb].
      destruct (bit_of F 3 =? 1), (bit_of F 28 =? 1), (bit_of F 30 =? 1);
        reflexivity.
    + intros i H3 H28 H30. apply Hother. rewrite !Hclear, !Hset.
      apply Nat.eqb_neq in H3, H28, H30. rewrite Nat.eqb_sym in H3, H28, H30.
      rewrite H3, H28, H30. cbn [negb orb]. now rewrite !andb_true_r.
  - rewrite (commanded_ds F 3 "3" bit_index_3),
      (commanded_ds _ 30 "30" bit_index_30),
      (commanded_dc _ 28 "28" bit_index_28).
    split.
    + rewrite !Hclear, !Hset. cbn [Nat.eqb negb orb].
      destruct (bit_of F 3 =? 1), (bit_of F 28 =? 1), (bit_of F 30 =? 1);
        reflexivity.
    + intros i H3 H28 H30. apply Hother. rewrite !Hclear, !Hset.
      apply Nat.eqb_neq in H3, H28, H30. rewrite Nat.eqb_sym in H3, H28, H30.
      rewrite H3, H28, H30. cbn [negb orb]. now rewrite !andb_true_r.
Qed.

Lemma set_then_read_hr_mode_witness :
  hr_commands "ConfigDevices.exe" "Bluetooth HR"
  = Some [("ConfigDevices.exe", ["-ds"; "3"]);
          ("ConfigDevices.exe", ["-ds"; "30"]);
          ("ConfigDevices.exe", ["-dc"; "28"])]
  /\ get_current_hr_mode (fst (get_bit_status "0x10000008")) = "Integrated HR"
  /\ get_current_hr_mode (fst (get_bit_status "0x40000008")) = "Bluetooth HR".
Proof.
  split; [reflexivity|]. split; [vm_compute; reflexivity|].
  apply (set_then_read_hr_mode "ConfigDevices.exe" "Bluetooth HR"
           [("ConfigDevices.exe", ["-ds"; "3"]);
            ("ConfigDevices.exe", ["-ds"; "30"]);
            ("ConfigDevices.exe", ["-dc"; "28"])] 268435464).
  - reflexivity.
  - vm_compute; reflexivity.
Defined.

(** ** Setting the radio configuration *)

Lemma ssp_args_cases mode :
  (mode = "Default"
   /\ ssp_args mode
      = Some ["-ssp"; "5"; "2"; "36"; "1"; "9"; "9"; "0"; "2"; "3"; "4161";
              "181"; "0x1F1F1F1F"])
  \/ (mode = "Alternative"
      /\ ssp_args mode
         = Some ["-ssp"; "5"; "1"; "36"; "1"; "3"; "3"; "0"; "2"; "3"; "4161";
                 "181"; "0x1F1F1F1F"])
  \/ (mode <> "Default" /\ mode <> "Alternative" /\ ssp_args mode = None).
Proof.
  unfold ssp_args.
  destruct (String.eqb_spec mode "Default") as [-> | H1]; [now left|].
  destruct (String.eqb_spec mode "Alternative") as [-> | H2];
    [right; now left|].
  right. now right.
Qed.

(** X11.  [set_6_5ghz_config] knows two modes.  For any other text it calls
    nothing and returns the refusal.  For [Default] and [Alternative] it
    makes one call, whatever the answer, and its log is the heading, the
    entry of that call and the closing line; the two codes it writes are
    the ones [get_6_5ghz_config] classifies as the mode that was set. *)
Theorem set_radio_config_calls (t : tool) (exe_path mode : string) :
  ((mode = "Default" \/ mode = "Alternative")
   /\ exists args,
        ssp_args mode = Some args
        /\ calls t (set_6_5ghz_config exe_path mode)
           = [{| c_exe := exe_path; c_args := args;
                 c_answer := t [] exe_path args |}]
        /\ result t (set_6_5ghz_config exe_path mode)
           = Py.join nl
               ["--- Setting 6.5 GHz Config to: " +:+ mode +:+ " ---";
                log_entry {| c_exe := exe_path; c_args := args;
                             c_answer := t [] exe_path args |};
                "--- 6.5 GHz Config setting complete. ---"]
        /\ config_type (tx_of_args args) (rx_of_args args)
           = mode +:+ " (tx=" +:+ tx_of_args args +:+ ", rx="
             +:+ rx_of_args args +:+ ")")
  \/ (mode <> "Default" /\ mode <> "Alternative"
      /\ calls t (set_6_5ghz_config exe_path mode) = []
      /\ result t (set_6_5ghz_config exe_path mode) = "Invalid mode selected.").
Proof.
  unfold calls, result, set_6_5ghz_config.
  destruct (ssp_args_cases mode) as [[-> ->] | [[-> ->] | (H1 & H2 & ->)]].
  - left. split; [now left|]. eexists. split; [reflexivity|].
    cbn [run_command bind exec app fst snd]. unfold log_entry. cbn [c_answer c_args].
    destruct (t [] exe_path _) as [[[] stdout] stderr];
      repeat split; reflexivity.
  - left. split; [now right|]. eexists. split; [reflexivity|].
    cbn [run_command bind exec app fst snd]. unfold log_entry. cbn [c_answer c_args].
    destruct (t [] exe_path _) as [[[] stdout] stderr];
      repeat split; reflexivity.
  - right. repeat split; assumption.
Qed.

(** ** The queries *)

Lemma or_else_filled s d : d <> EmptyString -> or_else s d <> EmptyString.
Proof. intros Hd. destruct s; [exact Hd | discriminate]. Qed.

Lemma join_filled sep x l : x <> EmptyString -> Py.join sep (x :: l) <> EmptyString.
Proof.
  intros Hx. destruct x as [|a x]; [congruence|].
  destruct l; cbn [Py.join]; [discriminate|].
  rewrite append_cons. discriminate.
Qed.

Lemma devices_error_filled stdout :
  fst (devices_of_output stdout) = [] ->
  snd (devices_of_output stdout) <> EmptyString.
Proof.
  unfold devices_of_output. rewrite device_loop. cbn [app].
  destruct (omap device_of_line (Py.splitlines stdout)) as [|d ds];
    [|discriminate].
  intros _.
  destruct (List.filter parse_failure (Py.splitlines stdout)) as [|l ls];
    cbn [map snd]; [discriminate|].
  apply join_filled. discriminate.
Qed.

(** X12.  Each of the four queries makes exactly one call, with its own
    flag, whatever the answer.  When that call fails the query returns no
    data and an error text that is never empty: the error output of the
    call, or the query's own message when the call gave none. *)
Theorem queries_on_failure (t : tool) (exe_path : string) :
  let failed args := fst (fst (t [] exe_path args)) = false in
  let err args why := or_else (snd (t [] exe_path args)) why in
  (map (fun c => (c_exe c, c_args c)) (calls t (get_connected_devices exe_path))
   = [(exe_path, [])]
   /\ map (fun c => (c_exe c, c_args c)) (calls t (get_6_5ghz_config exe_path))
      = [(exe_path, ["-gsp"])]
   /\ map (fun c => (c_exe c, c_args c)) (calls t (get_public_key exe_path))
      = [(exe_path, ["-gpk"])]
   /\ map (fun c => (c_exe c, c_args c)) (calls t (list_sessions exe_path))
      = [(exe_path, ["-si"])])
  /\ (failed [] ->
      result t (get_connected_devices exe_path)
      = ([], err [] "Failed to run ConfigDevices.exe"))
  /\ (failed ["-gsp"] ->
      result t (get_6_5ghz_config exe_path)
      = ([], err ["-gsp"] "Failed to run -gsp command."))
  /\ (failed ["-gpk"] ->
      result t (get_public_key exe_path)
      = ([], err ["-gpk"] "Failed to run -gpk command."))
  /\ (failed ["-si"] ->
      result t (list_sessions exe_path)
      = Some (∅, err ["-si"] "Failed to run -si command."))
  /\ (forall args why, why <> EmptyString -> err args why <> EmptyString).
Proof.
  cbv zeta.
  unfold result, calls, get_connected_devices, get_6_5ghz_config,
    get_public_key, list_sessions.
  cbn [run_command bind exec app].
  destruct (t [] exe_path []) as [[s0 o0] e0].
  destruct (t [] exe_path ["-gsp"]) as [[s1 o1] e1].
  destruct (t [] exe_path ["-gpk"]) as [[s2 o2] e2].
  destruct (t [] exe_path ["-si"]) as [[s3 o3] e3].
  cbn [fst snd].
  split.
  { destruct s0, s1, s2, s3; repeat split. }
  split; [intros ->; reflexivity|].
  split; [intros ->; reflexivity|].
  split; [intros ->; reflexivity|].
  split; [intros ->; reflexivity|].
  intros args why. apply or_else_filled.
Qed.

Lemma queries_on_failure_witness :
  fst (fst (always_fails [] "ConfigDevices.exe" ["-gpk"])) = false
  /\ result always_fails (get_public_key "ConfigDevices.exe")
     = ([], "device not responding").
Proof.
  split; [reflexivity|].
  destruct (queries_on_failure always_fails "ConfigDevices.exe")
    as (_ & _ & _ & Hk & _).
  exact (Hk eq_refl).
Defined.

(** ** The application: refreshing the device data *)

(** X13.  No exception of the queries escapes a refresh: it always reaches
    its closing [st.rerun()], and with the state it has then the connection
    panel is never in its first state (the invitation to scan): either
    devices were found or the error text is not empty.  A scan that finds
    no device makes one call only and leaves the radio configurations, the
    keys and the sessions of the earlier scan in the state; a scan that
    finds devices makes the four calls in order.  The two raw outputs are
    not touched. *)
Theorem refresh_device_data_panel (t : tool) (exe_path : string)
    (st : session_state) :
  exists st',
    result t (refresh_device_data exe_path st) = Rerun st'
    /\ connection_panel st' <> ClickScan
    /\ ss_devices st' = fst (result t (get_connected_devices exe_path))
    /\ ss_raw_debug_output st' = ss_raw_debug_output st
    /\ ss_raw_orientation_output st' = ss_raw_orientation_output st
    /\ match ss_devices st' with
       | [] =>
           map (fun c => (c_exe c, c_args c))
             (calls t (refresh_device_data exe_path st))
           = [(exe_path, [])]
           /\ ss_scan_errors st'
              = snd (result t (get_connected_devices exe_path))
           /\ ss_ghz_config st' = ss_ghz_config st
           /\ ss_public_keys st' = ss_public_keys st
           /\ ss_sessions st' = ss_sessions st
       | _ :: _ =>
           map (fun c => (c_exe c, c_args c))
             (calls t (refresh_device_data exe_path st))
           = [(exe_path, []); (exe_path, ["-gsp"]); (exe_path, ["-gpk"]);
              (exe_path, ["-si"])]
       end.
Proof.
  unfold result, calls, refresh_device_data, get_connected_devices.
  cbn [run_command bind exec app].
  destruct (t [] exe_path []) as [[s0 o0] e0]. destruct s0; cbn [negb].
  - cbn [bind exec fst snd].
    destruct (devices_of_output o0) as [devices errors] eqn:Hdev.
    destruct devices as [|d ds].
    + eexists. cbn [exec fst snd]. split; [reflexivity|].
      cbn [ss_devices ss_scan_errors ss_ghz_config ss_public_keys ss_sessions
           ss_raw_debug_output ss_raw_orientation_output map c_exe c_args].
      split.
      { unfold connection_panel. cbn [ss_devices ss_scan_errors].
        pose proof (devices_error_filled o0) as Hne. rewrite Hdev in Hne.
        cbn [fst snd] in Hne. destruct errors; [now elim Hne | discriminate]. }
      repeat split.
    + unfold get_6_5ghz_config, get_public_key, list_sessions.
      cbn [run_command bind exec app].
      match goal with |- context [t ?h exe_path ["-gsp"]] =>
        destruct (t h exe_path ["-gsp"]) as [[s1 o1] e1] end.
      destruct s1; cbn [negb bind exec app configs_of_output];
        match goal with |- context [t ?h exe_path ["-gpk"]] =>
          destruct (t h exe_path ["-gpk"]) as [[s2 o2] e2] end;
        destruct s2; cbn [negb bind exec app keys_of_output];
        match goal with |- context [t ?h exe_path ["-si"]] =>
          destruct (t h exe_path ["-si"]) as [[s3 o3] e3] end;
        destruct s3; cbn [negb bind exec app];
        try (destruct (sessions_of_output_spec o3) as (groups & -> & _));
        cbn [bind exec fst snd];
        (eexists; split; [reflexivity|]);
        cbn [ss_devices ss_scan_errors ss_ghz_config ss_public_keys
             ss_sessions ss_raw_debug_output ss_raw_orientation_output
             map c_exe c_args];
        (split; [unfold connection_panel; cbn [ss_devices]; discriminate|]);
        repeat split.
  - eexists. cbn [bind exec fst snd]. split; [reflexivity|].
    cbn [ss_devices ss_scan_errors ss_ghz_config ss_public_keys ss_sessions
         ss_raw_debug_output ss_raw_orientation_output map c_exe c_args].
    split.
    { unfold connection_panel. cbn [ss_devices ss_scan_errors].
      pose proof (or_else_filled e0 "Failed to run ConfigDevices.exe"
                    ltac:(discriminate)) as Hne.
      destruct (or_else e0 _); [now elim Hne | discriminate]. }
    repeat split.
Qed.

(** ** [run_command] and the operating system *)

Lemma append_filled a (s t : string) : String a s +:+ t <> EmptyString.
Proof. rewrite append_cons. discriminate. Qed.

(** X14.  [run_command] asks whether the executable exists and starts no
    process when it does not; otherwise it starts exactly one, the
    executable followed by the arguments, in the given directory, sends it
    a newline and waits ten seconds at most.  A failure always comes with
    an empty output and an error text that is not empty.  The call succeeds
    exactly when the process ended with the return code zero or with some
    output: a process that fails after printing something counts as a
    success. *)
Theorem run_command_outcome (w : Os.world) (done : list Os.event)
    (exe_path : string) (args : list string) (cwd : option string) :
  let r := fst (Os.exec w done (Os.run_command exe_path args cwd)) in
  let es := snd (Os.exec w done (Os.run_command exe_path args cwd)) in
  let found := Os.w_exists w done exe_path in
  let outcome :=
    Os.w_popen w (done ++ [Os.Existed exe_path found]) (exe_path :: args) cwd in
  (exists new,
     es = done ++ Os.Existed exe_path found :: new
     /\ Os.processes new
        = (if found
           then [Os.Opened (exe_path :: args) cwd nl 10 outcome] else []))
  /\ (fst (fst r) = false -> snd (fst r) = "" /\ snd r <> "")
  /\ (fst (fst r) = true
      <-> found = true
          /\ exists returncode stdout_data stderr_data,
               outcome = Os.Communicated returncode stdout_data stderr_data
               /\ (returncode = 0 \/ stdout_data <> "")
               /\ r = (true, stdout_data, stderr_data)).
Proof.
  cbv zeta. unfold Os.run_command. cbn [Os.exec].
  destruct (Os.w_exists w done exe_path); cbn [negb Os.exec].
  - destruct (Os.w_popen w _ (exe_path :: args) cwd)
      as [returncode stdout_data stderr_data | | |text] eqn:Hout.
    + destruct (Z.eqb_spec returncode 0) as [-> | Hrc]; cbn [negb andb].
      * cbn [Os.exec fst snd]. split.
        { eexists. rewrite <- app_assoc. split; reflexivity. }
        split; [discriminate|]. split; [|reflexivity].
        intros _. split; [reflexivity|]. eexists _, _, _.
        split; [reflexivity|]. split; [now left | reflexivity].
      * destruct stdout_data as [|a out]; cbn [String.eqb Os.exec fst snd].
        -- split.
           { eexists. rewrite <- app_assoc. split; reflexivity. }
           split.
           { intros _. split; [reflexivity|]. now apply or_else_filled. }
           split; [discriminate|].
           intros (_ & rc & out & err & [= -> -> ->] & [Hz | Hne] & _);
             congruence.
        -- split.
           { eexists. rewrite <- app_assoc. split; reflexivity. }
           split; [discriminate|]. split; [|reflexivity].
           intros _. split; [reflexivity|]. eexists _, _, _.
           split; [reflexivity|]. split; [now right | reflexivity].
    + cbn [Os.exec fst snd]. split.
      { eexists. rewrite <- !app_assoc. split; reflexivity. }
      split; [intros _; split; [reflexivity | discriminate]|].
      split; [discriminate|]. intros (_ & rc & out & err & H & _). discriminate.
    + cbn [Os.exec fst snd]. split.
      { eexists. rewrite <- !app_assoc. split; reflexivity. }
      split; [intros _; split; [reflexivity | apply append_filled]|].
      split; [discriminate|]. intros (_ & rc & out & err & H & _). discriminate.
    + cbn [Os.exec fst snd]. split.
      { eexists. rewrite <- !app_assoc. split; reflexivity. }
      split; [intros _; split; [reflexivity | apply append_filled]|].
      split; [discriminate|]. intros (_ & rc & out & err & H & _). discriminate.
  - cbn [fst snd]. split.
    { exists []. split; reflexivity. }
    split; [intros _; split; [reflexivity | apply append_filled]|].
    split; [discriminate|]. intros [H _]. discriminate.
Qed.

(** ** [download_sessions] *)

Lemma os_exec_bind {A B} (w : Os.world) (p : Os.os A) (f : A -> Os.os B) :
  forall done,
  Os.exec w done (Os.bind p f)
  = Os.exec w (snd (Os.exec w done p)) (f (fst (Os.exec w done p))).
Proof.
  induction p as [a | path k IH | path k IH | command cwd input timeout k IH
                  | k IH | command cwd k IH | text k IH];
    intros done; cbn [Os.bind Os.exec]; auto.
Qed.

Lemma processes_app es es' :
  Os.processes (es ++ es') = Os.processes es ++ Os.processes es'.
Proof. apply List.filter_app. Qed.

Lemma run_command_trace (w : Os.world) done exe_path args cwd :
  exists new,
    snd (Os.exec w done (Os.run_command exe_path args cwd)) = done ++ new
    /\ Forall (fun e => exists outcome,
                 e = Os.Opened (exe_path :: args) cwd nl 10 outcome)
         (Os.processes new).
Proof.
  unfold Os.run_command. cbn [Os.exec].
  destruct (Os.w_exists w done exe_path); cbn [negb Os.exec].
  - destruct (Os.w_popen w _ (exe_path :: args) cwd)
      as [returncode stdout_data stderr_data | | |text].
    + destruct (negb (returncode =? 0) && String.eqb stdout_data "");
        cbn [Os.exec snd]; rewrite <- app_assoc; eexists;
        (split; [reflexivity|]); repeat constructor; eauto.
    + cbn [Os.exec snd]. rewrite <- !app_assoc. eexists.
      split; [reflexivity|]. repeat constructor; eauto.
    + cbn [Os.exec snd]. rewrite <- !app_assoc. eexists.
      split; [reflexivity|]. repeat constructor; eauto.
    + cbn [Os.exec snd]. rewrite <- !app_assoc. eexists.
      split; [reflexivity|]. repeat constructor; eauto.
  - cbn [snd]. eexists. split; [reflexivity|]. constructor.
Qed.

Lemma download_loop_spec (w : Os.world) exe_path device_id path session_nums :
  forall done log,
  exists new lines,
    Os.exec w done
      (Os.download_loop exe_path device_id path session_nums log)
    = (log ++ lines, done ++ new)
    /\ length lines = (2 * length session_nums)%nat
    /\ (forall i num,
          session_nums !! i = Some num ->
          lines !! (2 * i)%nat
          = Some ("--- Downloading Session " +:+ num +:+ " for Device "
                  +:+ device_id +:+ " to " +:+ path +:+ " ---")
          /\ exists res,
               lines !! (2 * i + 1)%nat = Some res
               /\ (Py.prefix "SUCCESS: " res = true
                   \/ Py.prefix "ERROR: " res = true))
    /\ Forall (fun e => exists num outcome,
                 In num session_nums
                 /\ e = Os.Opened [exe_path; "-id"; device_id; "-sd"; num]
                          (Some path) nl 10 outcome)
         (Os.processes new).
Proof.
  induction session_nums as [|num rest IH]; intros done log.
  - exists [], []. cbn [Os.download_loop Os.exec].
    rewrite !app_nil_r. split; [reflexivity|]. split; [reflexivity|].
    split; [intros i n H; discriminate | constructor].
  - cbn [Os.download_loop]. rewrite os_exec_bind.
    destruct (run_command_trace w done exe_path
                ["-id"; device_id; "-sd"; num] (Some path))
      as (new1 & Htrace & Hproc).
    rewrite Htrace.
    destruct (fst (Os.exec w done
                (Os.run_command exe_path ["-id"; device_id; "-sd"; num]
                   (Some path)))) as [[success stdout] stderr].
    match goal with |- context [Os.download_loop _ _ _ rest ?l] =>
      destruct (IH (done ++ new1) l) as (new2 & lines & Hexec & Hlen & Hlines & Hps)
    end.
    rewrite Hexec. eexists (new1 ++ new2), (_ :: _ :: lines).
    split; [rewrite <- !app_assoc; reflexivity|].
    split; [cbn [length]; lia|].
    split.
    + intros [|i] n Hn.
      * injection Hn as <-. split; [reflexivity|].
        eexists. split; [reflexivity|]. destruct success; [now left | now right].
      * replace (2 * S i)%nat with (S (S (2 * i))) by lia.
        replace (S (S (2 * i)) + 1)%nat with (S (S (2 * i + 1))) by lia.
        exact (Hlines i n Hn).
    + rewrite processes_app. apply Forall_app. split.
      * eapply Forall_impl; [exact Hproc|].
        intros e [outcome ->]. exists num, outcome. split; [now left | reflexivity].
      * eapply Forall_impl; [exact Hps|].
        intros e (n & outcome & Hin & ->). exists n, outcome.
        split; [now right | reflexivity].
Qed.

(** X15.  [download_sessions] first makes sure the folder exists.  When the
    folder is missing and cannot be made, it returns the error of the
    creation and starts no process.  Otherwise every session of the list
    is tried, in order, whether or not an earlier one failed: the log
    holds, for each session, its heading followed by one SUCCESS or ERROR
    line, and the closing line; every process started is
    [exe_path -id device_id -sd num] for a session of the list, run in the
    download folder. *)
Theorem download_sessions_log (w : Os.world)
    (exe_path device_id : string) (session_nums : list string) (path : string) :
  let r := Os.exec w [] (Os.download_sessions exe_path device_id session_nums path) in
  (exists e,
     Os.w_exists w [] path = false
     /\ Os.w_makedirs w [Os.Existed path false] path = Some e
     /\ r = ("Error creating download directory: " +:+ e,
             [Os.Existed path false; Os.MadeDirs path (Some e)]))
  \/ ((Os.w_exists w [] path = true
       \/ Os.w_makedirs w [Os.Existed path false] path = None)
      /\ exists lines,
           fst r = Py.join nl (lines ++ ["--- Download complete. ---"])
           /\ length lines = (2 * length session_nums)%nat
           /\ (forall i num,
                 session_nums !! i = Some num ->
                 lines !! (2 * i)%nat
                 = Some ("--- Downloading Session " +:+ num +:+ " for Device "
                         +:+ device_id +:+ " to " +:+ path +:+ " ---")
                 /\ exists res,
                      lines !! (2 * i + 1)%nat = Some res
                      /\ (Py.prefix "SUCCESS: " res = true
                          \/ Py.prefix "ERROR: " res = true))
           /\ Forall (fun e => exists num outcome,
                        In num session_nums
                        /\ e = Os.Opened [exe_path; "-id"; device_id; "-sd"; num]
                                 (Some path) nl 10 outcome)
                (Os.processes (snd r))).
Proof.
  cbv zeta. unfold Os.download_sessions. cbn [Os.exec app].
  assert (Hfinish : forall done,
            Os.processes done = [] ->
            exists lines,
              fst (Os.exec w done
                     (Os.finish_download exe_path device_id path session_nums))
              = Py.join nl (lines ++ ["--- Download complete. ---"])
              /\ length lines = (2 * length session_nums)%nat
              /\ (forall i num,
                    session_nums !! i = Some num ->
                    lines !! (2 * i)%nat
                    = Some ("--- Downloading Session " +:+ num +:+ " for Device "
                            +:+ device_id +:+ " to " +:+ path +:+ " ---")
                    /\ exists res,
                         lines !! (2 * i + 1)%nat = Some res
                         /\ (Py.prefix "SUCCESS: " res = true
                             \/ Py.prefix "ERROR: " res = true))
              /\ Forall (fun e => exists num outcome,
                           In num session_nums
                           /\ e = Os.Opened
                                    [exe_path; "-id"; device_id; "-sd"; num]
                                    (Some path) nl 10 outcome)
                   (Os.processes
                      (snd (Os.exec w done
                              (Os.finish_download exe_path device_id path
                                 session_nums))))).
  { intros done Hdone. unfold Os.finish_download. rewrite os_exec_bind.
    destruct (download_loop_spec w exe_path device_id path session_nums done [])
      as (new & lines & -> & Hlen & Hlines & Hps).
    cbn [fst snd Os.exec app]. exists lines.
    split; [reflexivity|]. split; [exact Hlen|]. split; [exact Hlines|].
    rewrite processes_app, Hdone. exact Hps. }
  destruct (Os.w_exists w [] path) eqn:Hex; cbn [negb Os.exec app].
  - right. split; [now left|]. now apply Hfinish.
  - destruct (Os.w_makedirs w [Os.Existed path false] path) as [e|] eqn:Hmk.
    + left. exists e. cbn [Os.exec app]. repeat split.
    + right. split; [now right|]. now apply Hfinish.
Qed.

(** ** [run_raw_file_viewer] *)

(** X16.  [run_raw_file_viewer] runs the viewer at most once, as
    [viewer flag file] in the directory of the viewer, and only after it
    has found both the viewer and the file there.  On success the error
    text is empty and the output is the one of a run that returned zero.
    On failure exactly one of the two texts is filled: the output, when the
    viewer ran and returned another code; the error text in every other
    case, and then the text the application keeps is the bare heading
    [Error running flag:], without the reason.  In both cases the kept text
    starts with [Error], which is what the battery tab tests. *)
Theorem viewer_outcome (dirname : string -> string)
    (join : string -> string -> string) (w : Os.world)
    (viewer_exe_path file_name flag : string) :
  let p := Os.run_raw_file_viewer dirname join viewer_exe_path file_name flag in
  let r := fst (Os.exec w [] p) in
  let ps := Os.processes (snd (Os.exec w [] p)) in
  let ran result :=
    [Os.Ran [viewer_exe_path; flag; file_name] (dirname viewer_exe_path) result] in
  (ps = [] \/ exists result, ps = ran result)
  /\ (ps <> [] ->
      In (Os.Existed viewer_exe_path true) (snd (Os.exec w [] p))
      /\ In (Os.Existed (join (dirname viewer_exe_path) file_name) true)
           (snd (Os.exec w [] p)))
  /\ (fst (fst r) = true ->
      exists stdout, ps = ran (Os.Completed 0 stdout) /\ r = (true, stdout, ""))
  /\ (fst (fst r) = false ->
      Py.prefix "Error" (kept_output flag r) = true
      /\ ((snd (fst r) = "" /\ snd r <> ""
           /\ kept_output flag r = "Error running " +:+ flag +:+ ":" +:+ nl)
          \/ (snd (fst r) <> "" /\ snd r = ""
              /\ exists returncode stdout,
                   returncode <> 0
                   /\ ps = ran (Os.Completed returncode stdout)))).
Proof.
  cbv zeta. unfold Os.run_raw_file_viewer. cbn [Os.exec app].
  destruct (Os.w_exists w _ viewer_exe_path); cbn [negb Os.exec app].
  - destruct (Os.w_exists w _ (join (dirname viewer_exe_path) file_name));
      cbn [negb Os.exec app].
    + destruct (Os.w_run w _ _ (dirname viewer_exe_path))
        as [returncode stdout | | text]; cbn [Os.exec app].
      * destruct (Z.eqb_spec returncode 0) as [-> | Hrc];
          cbn [negb Os.exec app fst snd].
        -- split; [right; eexists; reflexivity|].
           split; [intros _; split; cbn; tauto|].
           split; [intros _; eexists; split; reflexivity | discriminate].
        -- split; [right; eexists; reflexivity|].
           split; [intros _; split; cbn; tauto|].
           split; [discriminate|]. intros _. split; [reflexivity|].
           right. split.
           { destruct stdout; [apply append_filled | discriminate]. }
           split; [reflexivity|]. exists returncode, stdout.
           split; [exact Hrc | reflexivity].
      * cbn [fst snd]. split; [right; eexists; reflexivity|].
        split; [intros _; split; cbn; tauto|].
        split; [discriminate|]. intros _. split; [reflexivity|].
        left. split; [reflexivity|]. split; [apply append_filled|].
        unfold kept_output. now rewrite append_nil_r.
      * cbn [fst snd]. split; [right; eexists; reflexivity|].
        split; [intros _; split; cbn; tauto|].
        split; [discriminate|]. intros _. split; [reflexivity|].
        left. split; [reflexivity|]. split; [apply append_filled|].
        unfold kept_output. now rewrite append_nil_r.
    + cbn [fst snd]. split; [now left|].
      split; [intros H; now elim H|].
      split; [discriminate|]. intros _. split; [reflexivity|].
      left. split; [reflexivity|]. split; [apply append_filled|].
      unfold kept_output. now rewrite append_nil_r.
  - cbn [fst snd]. split; [now left|].
    split; [intros H; now elim H|].
    split; [discriminate|]. intros _. split; [reflexivity|].
    left. split; [reflexivity|]. split; [apply append_filled|].
    unfold kept_output. now rewrite append_nil_r.
Qed.

(** ** A missing executable, end to end *)

(** X17.  When [ConfigDevices.exe] is not at the given path, a refresh
    starts no process and asks the file system once before it reaches its
    closing [st.rerun()]; it finds no device, the error text is the one of
    [run_command] naming the path, and the panel says that no devices were
    found.  Setting a heart-rate mode then starts no process either: each
    of its three commands is refused in turn. *)
Theorem missing_executable (w : Os.world) (exe_path : string)
    (st : session_state) :
  (forall done, Os.w_exists w done exe_path = false) ->
  let r := Os.exec w [] (on_os (refresh_device_data exe_path st)) in
  snd r = [Os.Existed exe_path false]
  /\ (exists st',
        fst r = Rerun st'
        /\ ss_devices st' = []
        /\ ss_scan_errors st'
           = "Error: ConfigDevices.exe not found at '" +:+ exe_path +:+ "'"
        /\ connection_panel st' = NoDevicesFound)
  /\ forall mode commands,
       hr_commands exe_path mode = Some commands ->
       snd (Os.exec w [] (on_os (set_hr_mode exe_path mode)))
       = [Os.Existed exe_path false; Os.Existed exe_path false;
          Os.Existed exe_path false].
Proof.
  intros Hmissing. cbv zeta.
  unfold refresh_device_data, get_connected_devices.
  cbn [run_command bind on_os Os.run_command Os.bind Os.exec app].
  rewrite Hmissing.
  cbn [negb Os.bind Os.exec on_os bind or_else append fst snd app].
  split; [reflexivity|]. split.
  - eexists. split; [reflexivity|].
    cbn [ss_devices ss_scan_errors]. split; [reflexivity|].
    split; [reflexivity|]. unfold connection_panel.
    cbn [ss_devices ss_scan_errors]. reflexivity.
  - intros mode commands Hc. unfold set_hr_mode. rewrite Hc.
    destruct (hr_commands_cases _ _ _ Hc) as [[-> ->] | [[-> ->] | [-> ->]]];
      cbn [run_commands run_command bind on_os Os.run_command Os.bind Os.exec app];
      repeat (rewrite Hmissing;
              cbn [negb run_commands run_command Os.run_command Os.bind
                   Os.exec on_os bind app snd]);
      reflexivity.
Qed.

Lemma missing_executable_witness :
  exists st',
    fst (Os.exec nothing_there []
           (on_os (refresh_device_data "ConfigDevices.exe" initial_state)))
    = Rerun st'
    /\ ss_devices st' = []
    /\ ss_scan_errors st'
       = "Error: ConfigDevices.exe not found at 'ConfigDevices.exe'"
    /\ connection_panel st' = NoDevicesFound.
Proof.
  exact (proj1 (proj2 (missing_executable nothing_there "ConfigDevices.exe"
                         initial_state (fun _ => eq_refl)))).
Defined.
